(** * SubRip conversion of a transcript object

    A shallow embedding of [insanely_fast_whisper/utils/convert_object_to_srt.py]:
    [format_time], [convert_object_to_srt] and [process_object], together with
    the parts of the Python run time they rely on (text strings, [int] and
    [float] arithmetic, [datetime.timedelta], subscripting, iteration and
    exceptions). *)

From Stdlib Require Import ZArith NArith List Bool Lia String Ascii DecimalN DecimalPos Zpower.
From Stdlib Require Import Floats.SpecFloat.
Import ListNotations.
Local Open Scope Z_scope.

(* ================================================================= *)
(** * Part I: definitions *)
(* ================================================================= *)

(** ** Python text strings

    A [str] is a sequence of Unicode code points. *)

Definition pystr := list N.

(** The code points of an ASCII literal. *)
Definition lit (s : string) : pystr := map N_of_ascii (list_ascii_of_string s).

(** [a == b] on strings. *)
Fixpoint pystr_eqb (a b : pystr) : bool :=
  match a, b with
  | [], [] => true
  | x :: a', y :: b' => (x =? y)%N && pystr_eqb a' b'
  | _, _ => false
  end.

(** [str.isspace] on one character: the code points that CPython classifies
    as white space. *)
Definition isspace (c : N) : bool :=
  ((9 <=? c) && (c <=? 13) || (28 <=? c) && (c <=? 32) || (c =? 133) || (c =? 160)
   || (c =? 5760) || (8192 <=? c) && (c <=? 8202) || (c =? 8232) || (c =? 8233)
   || (c =? 8239) || (c =? 8287) || (c =? 12288))%N.

Fixpoint lstrip (s : pystr) : pystr :=
  match s with
  | c :: t => if isspace c then lstrip t else s
  | [] => []
  end.

Definition rstrip (s : pystr) : pystr := rev (lstrip (rev s)).

(** [s.strip()] *)
Definition strip (s : pystr) : pystr := rstrip (lstrip s).

(** [sep.join(l)] *)
Fixpoint join (sep : pystr) (l : list pystr) : pystr :=
  match l with
  | [] => []
  | [x] => x
  | x :: rest => x ++ sep ++ join sep rest
  end.

(** Decimal digits. *)
Fixpoint digit_chars (d : Decimal.uint) : pystr :=
  match d with
  | Decimal.Nil => []
  | Decimal.D0 r => 48%N :: digit_chars r
  | Decimal.D1 r => 49%N :: digit_chars r
  | Decimal.D2 r => 50%N :: digit_chars r
  | Decimal.D3 r => 51%N :: digit_chars r
  | Decimal.D4 r => 52%N :: digit_chars r
  | Decimal.D5 r => 53%N :: digit_chars r
  | Decimal.D6 r => 54%N :: digit_chars r
  | Decimal.D7 r => 55%N :: digit_chars r
  | Decimal.D8 r => 56%N :: digit_chars r
  | Decimal.D9 r => 57%N :: digit_chars r
  end.

Definition str_of_nat (n : N) : pystr := digit_chars (N.to_uint n).

(** [str(z)], also what [f"{z}"] renders for an [int]. *)
Definition str_of_int (z : Z) : pystr :=
  match z with
  | Zneg p => 45%N :: str_of_nat (Npos p)
  | _ => str_of_nat (Z.to_N z)
  end.

(** [f"{z:0wd}"]: decimal, zero-padded after the sign to a width of at least
    [w] characters. *)
Definition format_0d (w : nat) (z : Z) : pystr :=
  let ds := str_of_nat (Z.to_N (Z.abs z)) in
  match z with
  | Zneg _ => 45%N :: repeat 48%N (w - 1 - List.length ds) ++ ds
  | _ => repeat 48%N (w - List.length ds) ++ ds
  end.

(** Reading a decimal number back; used to recover the index line of a
    block. *)
Fixpoint uint_of_chars (s : pystr) : option Decimal.uint :=
  match s with
  | [] => Some Decimal.Nil
  | c :: t =>
      match uint_of_chars t with
      | None => None
      | Some r =>
          if (c =? 48)%N then Some (Decimal.D0 r)
          else if (c =? 49)%N then Some (Decimal.D1 r)
          else if (c =? 50)%N then Some (Decimal.D2 r)
          else if (c =? 51)%N then Some (Decimal.D3 r)
          else if (c =? 52)%N then Some (Decimal.D4 r)
          else if (c =? 53)%N then Some (Decimal.D5 r)
          else if (c =? 54)%N then Some (Decimal.D6 r)
          else if (c =? 55)%N then Some (Decimal.D7 r)
          else if (c =? 56)%N then Some (Decimal.D8 r)
          else if (c =? 57)%N then Some (Decimal.D9 r)
          else None
      end
  end.

Definition nat_of_str (s : pystr) : option N :=
  match s with
  | [] => None
  | _ => option_map N.of_uint (uint_of_chars s)
  end.

(** The line feed character, written [\n] in the source. *)
Definition LF : pystr := [10%N].

(** The text of a string up to its first line feed. *)
Fixpoint first_line (s : pystr) : pystr :=
  match s with
  | [] => []
  | c :: t => if (c =? 10)%N then [] else c :: first_line t
  end.

(** ** Exceptions and results *)

(** The exception classes raised by the conversion, by file output and by
    [print]; all of them derive from [Exception].  An [OSError] carries the
    error number and the file name. *)
Inductive pyexc :=
| KeyError (key : pystr)
| IndexError
| TypeError
| AttributeError
| ValueError
| OverflowError
| ZeroDivisionError
| UnicodeEncodeError
| OSError (errno : Z) (filename : pystr).

Inductive result (A : Type) :=
| Ok (a : A)
| Raise (e : pyexc).
Arguments Ok {A} a.
Arguments Raise {A} e.

Definition bind {A B} (r : result A) (k : A -> result B) : result B :=
  match r with
  | Ok a => k a
  | Raise e => Raise e
  end.

Notation "x <- e ;; k" := (bind e (fun x => k))
  (at level 61, e at next level, right associativity).

Definition raises {A} (r : result A) : Prop := exists e, r = Raise e.

(** ** Python floats (IEEE 754 binary64) *)

Definition prec := 53.
Definition emax := 1024.

(** [float(z)] for an [int] of magnitude below [2^53] (exact there). *)
Definition float_of_int (z : Z) : spec_float := binary_normalize prec emax z 0 false.

Definition float_mul : spec_float -> spec_float -> spec_float := SFmul prec emax.
Definition float_div : spec_float -> spec_float -> spec_float := SFdiv prec emax.

(** The float denoted by a decimal literal of value [n / d], for [n] and [d]
    below [2^53]: literals and division both round to nearest-even, so
    [float_lit 102 10] is the float that Python reads from [10.2]. *)
Definition float_lit (n d : Z) : spec_float := float_div (float_of_int n) (float_of_int d).

(** [int(x)]: truncation toward zero. *)
Definition int_of_float (x : spec_float) : result Z :=
  match x with
  | S754_zero _ => Ok 0
  | S754_infinity _ => Raise OverflowError
  | S754_nan => Raise ValueError
  | S754_finite s m e =>
      let a := match e with
               | Zneg k => Z.shiftr (Zpos m) (Zpos k)
               | _ => Z.shiftl (Zpos m) e
               end in
      Ok (if s then - a else a)
  end.

(** The first component of [math.modf(x)]: the fractional part, carrying the
    sign of [x]; exact. *)
Definition frac_of_float (x : spec_float) : spec_float :=
  match x with
  | S754_finite s m (Zneg k) =>
      let r := Z.land (Zpos m) (Z.ones (Zpos k)) in
      binary_normalize prec emax (if s then - r else r) (Zneg k) s
  | S754_finite s _ _ => S754_zero s
  | S754_infinity s => S754_zero s
  | _ => x
  end.

(** [round(x)] with one argument: the nearest integer, ties to even. *)
Definition py_round (x : spec_float) : result Z :=
  match x with
  | S754_zero _ => Ok 0
  | S754_infinity _ => Raise OverflowError
  | S754_nan => Raise ValueError
  | S754_finite s m e =>
      let a := match e with
               | Zneg k =>
                   let q := Z.shiftr (Zpos m) (Zpos k) in
                   let r := Z.land (Zpos m) (Z.ones (Zpos k)) in
                   let half := Z.shiftl 1 (Zpos k - 1) in
                   match r ?= half with
                   | Lt => q
                   | Gt => q + 1
                   | Eq => if Z.even q then q else q + 1
                   end
               | _ => Z.shiftl (Zpos m) e
               end in
      Ok (if s then - a else a)
  end.

(** [a / b] on two [int]s of magnitude below [2^53]: the correctly rounded
    quotient. *)
Definition int_truediv (a b : Z) : result spec_float :=
  if b =? 0 then Raise ZeroDivisionError
  else Ok (float_div (float_of_int a) (float_of_int b)).

(** [divmod(a, b)] on [int]s, for a positive [b]. *)
Definition divmod (a b : Z) : Z * Z := (a / b, a mod b).

(** ** Python objects

    The values that a JSON document decodes to ([None], [bool], [int],
    [float], [str], [list], and [dict] with [str] keys), and tuples.  Values
    of other classes ([bytes], dictionaries with other keys, instances of
    user classes) are not part of the model. *)

#[local] Set Warnings "-register-all".

Inductive pyobj :=
| PyNone
| PyBool (b : bool)
| PyInt (z : Z)
| PyFloat (f : spec_float)
| PyStr (s : pystr)
| PyList (l : list pyobj)
| PyDict (d : list (pystr * pyobj))
| PyTuple (l : list pyobj).

Inductive pykey :=
| KStr (s : pystr)
| KInt (i : Z).

Fixpoint dict_get {A} (d : list (pystr * A)) (k : pystr) : option A :=
  match d with
  | [] => None
  | (k', v) :: rest => if pystr_eqb k' k then Some v else dict_get rest k
  end.

(** Indexing a sequence of length [n] with [i]; negative indices count from
    the end. *)
Definition seq_index {A} (l : list A) (i : Z) : result A :=
  let n := Z.of_nat (List.length l) in
  let j := if i <? 0 then i + n else i in
  if (j <? 0) || (n <=? j) then Raise IndexError
  else match nth_error l (Z.to_nat j) with
       | Some a => Ok a
       | None => Raise IndexError
       end.

(** [o[k]] *)
Definition getitem (o : pyobj) (k : pykey) : result pyobj :=
  match o, k with
  | PyDict d, KStr s =>
      match dict_get d s with
      | Some v => Ok v
      | None => Raise (KeyError s)
      end
  | PyDict d, KInt i => Raise (KeyError (str_of_int i))
  | PyList l, KInt i => seq_index l i
  | PyList _, KStr _ => Raise TypeError
  | PyTuple l, KInt i => seq_index l i
  | PyTuple _, KStr _ => Raise TypeError
  | PyStr s, KInt i => c <- seq_index s i ;; Ok (PyStr [c])
  | PyStr _, KStr _ => Raise TypeError
  | _, _ => Raise TypeError
  end.

(** The items that [for x in o] visits. *)
Definition py_iter (o : pyobj) : result (list pyobj) :=
  match o with
  | PyList l => Ok l
  | PyTuple l => Ok l
  | PyStr s => Ok (map (fun c => PyStr [c]) s)
  | PyDict d => Ok (map (fun kv => PyStr (fst kv)) d)
  | _ => Raise TypeError
  end.

(** [o.strip()]: only [str] has the method. *)
Definition str_strip (o : pyobj) : result pystr :=
  match o with
  | PyStr s => Ok (strip s)
  | _ => Raise AttributeError
  end.

(** ** [datetime.timedelta] *)

Record timedelta := { td_days : Z; td_seconds : Z; td_microseconds : Z }.

Definition us_per_second : Z := 1000000.
Definition seconds_per_day : Z := 86400.
Definition us_per_day : Z := 86400000000.
Definition max_delta_days : Z := 999999999.

(** The number of microseconds that [timedelta(seconds=x)] stands for: an
    [int] (or [bool]) is scaled exactly; a [float] is split by [modf], its
    fractional part is scaled by [1e6] in float arithmetic and rounded to the
    nearest integer, ties to even. *)
Definition total_microseconds (x : pyobj) : result Z :=
  match x with
  | PyInt z => Ok (z * us_per_second)
  | PyBool b => Ok (Z.b2z b * us_per_second)
  | PyFloat f =>
      whole <- int_of_float f ;;
      us <- py_round (float_mul (frac_of_float f) (float_of_int us_per_second)) ;;
      Ok (whole * us_per_second + us)
  | _ => Raise TypeError
  end.

(** Normalisation into days, seconds in [0, 86400) and microseconds in
    [0, 10^6), with the range check on days. *)
Definition microseconds_to_delta (us : Z) : result timedelta :=
  let (s, us') := divmod us us_per_second in
  let (d, s') := divmod s seconds_per_day in
  if Z.abs d >? max_delta_days then Raise OverflowError
  else Ok {| td_days := d; td_seconds := s'; td_microseconds := us' |}.

(** [datetime.timedelta(seconds=x)] *)
Definition timedelta_of_seconds (x : pyobj) : result timedelta :=
  us <- total_microseconds x ;;
  microseconds_to_delta us.

(** ** The program *)

Definition format_time (seconds : pyobj) : result pystr :=
  time <- timedelta_of_seconds seconds ;;
  let (hours, remainder) := divmod (td_seconds time) 3600 in
  let (minutes, seconds) := divmod remainder 60 in
  q <- int_truediv (td_microseconds time) 1000 ;;
  milliseconds <- int_of_float q ;;
  Ok (format_0d 2 hours ++ lit ":" ++ format_0d 2 minutes ++ lit ":"
        ++ format_0d 2 seconds ++ lit "," ++ format_0d 3 milliseconds).

(** The body of the [for] loop, for one chunk: the block appended to
    [srt_content]. *)
Definition srt_block (subtitle_index : Z) (chunk : pyobj) : result pystr :=
  ts0 <- getitem chunk (KStr (lit "timestamp")) ;;
  t0 <- getitem ts0 (KInt 0) ;;
  start_time <- format_time t0 ;;
  ts1 <- getitem chunk (KStr (lit "timestamp")) ;;
  t1 <- getitem ts1 (KInt 1) ;;
  end_time <- format_time t1 ;;
  txt <- getitem chunk (KStr (lit "text")) ;;
  text <- str_strip txt ;;
  Ok (str_of_int subtitle_index ++ LF ++ start_time ++ lit " --> " ++ end_time
        ++ LF ++ text ++ LF).

(** The [for] loop, threading [subtitle_index] and [srt_content]. *)
Fixpoint srt_loop (chunks : list pyobj) (subtitle_index : Z) (srt_content : list pystr)
  : result (list pystr) :=
  match chunks with
  | [] => Ok srt_content
  | chunk :: rest =>
      block <- srt_block subtitle_index chunk ;;
      srt_loop rest (subtitle_index + 1) (srt_content ++ [block])
  end.

(** The list [srt_content] at the end of the loop. *)
Definition srt_content_of (data : pyobj) : result (list pystr) :=
  chunks <- getitem data (KStr (lit "chunks")) ;;
  items <- py_iter chunks ;;
  srt_loop items 1 [].

Definition convert_object_to_srt (data : pyobj) : result pystr :=
  srt_content <- srt_content_of data ;;
  Ok (join LF srt_content).

(** The two lines that [process_object] prints. *)
Definition saved_message : pystr := lit "SRT file has been saved successfully.".
Definition error_message (text : pystr) : pystr := lit "Error processing data: " ++ text.

(** ** Writing the file

    The file system, the standard output and the text of [str(e)] belong to
    the interpreter and the operating system; [process_object] is defined
    over any of them. *)

Section Writer.

Variable FS : Type.
(** [open(path, 'w', encoding='utf-8')], [f.write(text)] and the close at
    the end of the [with] block; each may fail and may change the file
    system. *)
Variable os_open : pystr -> FS -> result unit * FS.
Variable os_write : pystr -> pystr -> FS -> result unit * FS.
Variable os_close : pystr -> FS -> result unit * FS.
(** [print(line)] may fail too (the line cannot be encoded for the stream,
    the stream is closed, ...): [print_error line out] is the exception that
    printing [line] raises after the lines [out], if it raises one. *)
Variable print_error : pystr -> list pystr -> option pyexc.
(** [str(e)] *)
Variable exc_str : pyexc -> pystr.

Record world := { fs : FS; stdout : list pystr }.

(** [print(line)] *)
Definition print (line : pystr) (w : world) : result unit * world :=
  match print_error line (stdout w) with
  | Some e => (Raise e, w)
  | None => (Ok tt, {| fs := fs w; stdout := stdout w ++ [line] |})
  end.

(** [with open(path, 'w', encoding='utf-8') as f: f.write(content)]: the
    file is closed on both exits of the body, and an exception raised by
    the close replaces the one of the body. *)
Definition with_open_write (path content : pystr) (f : FS) : result unit * FS :=
  match os_open path f with
  | (Raise e, f1) => (Raise e, f1)
  | (Ok _, f1) =>
      let (rw, f2) := os_write path content f1 in
      let (rc, f3) := os_close path f2 in
      (match rc with
       | Raise e => Raise e
       | Ok _ => rw
       end, f3)
  end.

(** The body of the [try] statement; the [print] of the success line is
    part of it. *)
Definition process_object_try (data : pyobj) (output_path : pystr) (w : world)
  : result unit * world :=
  match convert_object_to_srt data with
  | Raise e => (Raise e, w)
  | Ok srt_content =>
      let (r, f') := with_open_write output_path srt_content (fs w) in
      let w' := {| fs := f'; stdout := stdout w |} in
      match r with
      | Raise e => (Raise e, w')
      | Ok _ => print saved_message w'
      end
  end.

(** [try: ... except Exception as e: print(...)].  The [print] of the
    handler is not protected: an exception that it raises leaves
    [process_object], which is what a result [Raise] stands for. *)
Definition process_object (data : pyobj) (output_path : pystr) (w : world)
  : result unit * world :=
  match process_object_try data output_path w with
  | (Ok _, w') => (Ok tt, w')
  | (Raise e, w') => print (error_message (exc_str e)) w'
  end.

End Writer.

Arguments fs {FS} _.
Arguments stdout {FS} _.

(** A file system held in memory and a console, to run [process_object] on.
    A path maps to the text of its file; the empty path cannot be opened,
    and a path listed as read-only cannot be opened for writing; a text with
    a surrogate code point cannot be encoded in UTF-8.  The console encodes
    in ASCII. *)
Module MemFS.

Record t := { files : list (pystr * pystr); read_only : list pystr }.

Definition lookup (f : t) (path : pystr) : option pystr := dict_get (files f) path.

Definition os_open (path : pystr) (f : t) : result unit * t :=
  if pystr_eqb path [] then (Raise (OSError 2 path), f)
  else if existsb (pystr_eqb path) (read_only f) then (Raise (OSError 13 path), f)
  else (Ok tt, {| files := (path, []) :: files f; read_only := read_only f |}).

Definition is_surrogate (c : N) : bool := ((55296 <=? c) && (c <=? 57343))%N.

Definition os_write (path content : pystr) (f : t) : result unit * t :=
  match lookup f path with
  | Some old =>
      if existsb is_surrogate content then (Raise UnicodeEncodeError, f)
      else (Ok tt, {| files := (path, old ++ content) :: files f;
                      read_only := read_only f |})
  | None => (Raise (OSError 9 path), f)
  end.

Definition os_close (path : pystr) (f : t) : result unit * t := (Ok tt, f).

(** A console that encodes in ASCII: a line with any other character cannot
    be printed. *)
Definition print_error (line : pystr) (out : list pystr) : option pyexc :=
  if forallb (fun c => (c <? 128)%N) line then None else Some UnicodeEncodeError.

(** The text of [strerror]. *)
Definition strerror (errno : Z) : pystr :=
  if errno =? 2 then lit "No such file or directory"
  else if errno =? 13 then lit "Permission denied"
  else if errno =? 9 then lit "Bad file descriptor"
  else lit "Unknown error".

(** A stand-in for [str(e)].  For a [KeyError] with a plain key and for an
    [OSError] it is the text that Python gives (the key or the file name
    between quotes); for the other classes, whose text depends on the
    operand that failed, it is the name of the class. *)
Definition exc_str (e : pyexc) : pystr :=
  match e with
  | KeyError k => lit "'" ++ k ++ lit "'"
  | IndexError => lit "IndexError"
  | TypeError => lit "TypeError"
  | AttributeError => lit "AttributeError"
  | ValueError => lit "ValueError"
  | OverflowError => lit "OverflowError"
  | ZeroDivisionError => lit "ZeroDivisionError"
  | UnicodeEncodeError => lit "UnicodeEncodeError"
  | OSError n path =>
      lit "[Errno " ++ str_of_int n ++ lit "] " ++ strerror n ++ lit ": '" ++ path ++ lit "'"
  end.

Definition empty : t := {| files := []; read_only := [] |}.

Definition run (data : pyobj) (path : pystr) (w : world t) : result unit * world t :=
  process_object t os_open os_write os_close print_error exc_str data path w.

End MemFS.

(** ** The data model of the specification *)

(** A chunk: a pair of time stamps and a text. *)
Record Chunk := { timestamp : pyobj * pyobj; text : pystr }.

(** A transcript: optional speakers and the chunks in display order. *)
Record TranscriptObject := { speakers : option (list pyobj); chunks : list Chunk }.

Definition chunk_to_py (c : Chunk) : pyobj :=
  PyDict [(lit "timestamp", PyList [fst (timestamp c); snd (timestamp c)]);
          (lit "text", PyStr (text c))].

Definition transcript_to_py (t : TranscriptObject) : pyobj :=
  PyDict (match speakers t with
          | Some sp => [(lit "speakers", PyList sp)]
          | None => []
          end ++ [(lit "chunks", PyList (map chunk_to_py (chunks t)))]).

(** Numbers: [int], [bool] (a subclass of [int]) and [float]. *)
Definition is_number (x : pyobj) : bool :=
  match x with
  | PyInt _ | PyBool _ | PyFloat _ => true
  | _ => false
  end.

Definition is_finite (x : pyobj) : bool :=
  match x with
  | PyInt _ | PyBool _ => true
  | PyFloat (S754_zero _) | PyFloat (S754_finite _ _ _) => true
  | _ => false
  end.

Definition is_negative (x : pyobj) : bool :=
  match x with
  | PyInt z => z <? 0
  | PyFloat (S754_finite true _ _) => true
  | _ => false
  end.

(** The day count of the duration lies within what [timedelta] holds. *)
Definition in_timedelta_range (x : pyobj) : bool :=
  match total_microseconds x with
  | Ok us => Z.abs (us / us_per_day) <=? max_delta_days
  | Raise _ => false
  end.

(** A time stamp as the data model wants it: a finite, non-negative number
    of seconds that [timedelta] can hold. *)
Definition valid_seconds (x : pyobj) : bool :=
  is_number x && is_finite x && negb (is_negative x) && in_timedelta_range x.

Definition well_formed (t : TranscriptObject) : Prop :=
  forall c, In c (chunks t) ->
    valid_seconds (fst (timestamp c)) = true /\ valid_seconds (snd (timestamp c)) = true.

(** ** Notions of the specification *)

(** The clock text [HH:MM:SS,mmm] of a time of day given in microseconds. *)
Definition clock_of_microseconds (us : Z) : pystr :=
  format_0d 2 (us / 3600000000) ++ lit ":" ++ format_0d 2 (us / 60000000 mod 60)
    ++ lit ":" ++ format_0d 2 (us / 1000000 mod 60) ++ lit "," ++ format_0d 3 (us / 1000 mod 1000).

(** The sub-second remainder of a non-negative number of seconds, truncated
    to whole milliseconds, computed exactly on the value of the float. *)
Definition truncated_milliseconds (x : pyobj) : Z :=
  match x with
  | PyFloat (S754_finite false m (Zneg k)) => (Zpos m mod 2 ^ Zpos k) * 1000 / 2 ^ Zpos k
  | _ => 0
  end.

(** The text of a formatted time stamp, empty when formatting fails. *)
Definition formatted (x : pyobj) : pystr :=
  match format_time x with
  | Ok s => s
  | Raise _ => []
  end.

(** [s] is [t] without its leading and trailing white space; what lies
    between is left as it is. *)
Definition trimmed_of (t s : pystr) : Prop :=
  exists l r, t = l ++ s ++ r
    /\ forallb isspace l = true /\ forallb isspace r = true
    /\ match s with [] => True | c :: _ => isspace c = false end
    /\ match rev s with [] => True | c :: _ => isspace c = false end.

(** The three lines of a subtitle block: index, time range, text. *)
Definition block_lines (index : Z) (c : Chunk) : list pystr :=
  [str_of_int index;
   formatted (fst (timestamp c)) ++ lit " --> " ++ formatted (snd (timestamp c));
   strip (text c)].

(** Each line, followed by a line feed. *)
Definition render_lines (lines : list pystr) : pystr :=
  List.concat (map (fun l => l ++ LF) lines).

(** The document: the blocks in input order, numbered from [index], with one
    blank line between two consecutive blocks and nothing after the last. *)
Fixpoint srt_document (index : Z) (cs : list Chunk) : pystr :=
  match cs with
  | [] => []
  | [c] => render_lines (block_lines index c)
  | c :: rest => render_lines (block_lines index c) ++ LF ++ srt_document (index + 1) rest
  end.

(** The blocks of the document, one for each chunk. *)
Fixpoint srt_blocks (index : Z) (cs : list Chunk) : list pystr :=
  match cs with
  | [] => []
  | c :: rest => render_lines (block_lines index c) :: srt_blocks (index + 1) rest
  end.

(** The number on the first line of a block. *)
Definition block_index (block : pystr) : option N := nat_of_str (first_line block).

(** The value of a field of a dictionary; none when the object is not a
    dictionary or lacks the key. *)
Definition field (o : pyobj) (k : pystr) : option pyobj :=
  match o with
  | PyDict d => dict_get d k
  | _ => None
  end.

(** A time stamp that is exactly a pair of numbers. *)
Definition pair_of_numbers (ts : pyobj) : bool :=
  match ts with
  | PyList [a; b] | PyTuple [a; b] => is_number a && is_number b
  | _ => false
  end.

(** A time stamp that gives a number at each of the positions 0 and 1, the
    two subscripts that the loop evaluates. *)
Definition numbers_at_0_and_1 (ts : pyobj) : bool :=
  match getitem ts (KInt 0), getitem ts (KInt 1) with
  | Ok a, Ok b => is_number a && is_number b
  | _, _ => false
  end.

(** The items of a list or of a tuple. *)
Definition sequence_items (o : pyobj) : option (list pyobj) :=
  match o with
  | PyList l | PyTuple l => Some l
  | _ => None
  end.

(** A structurally wrong input: no [chunks], or a chunk without [timestamp]
    or [text], or a chunk whose time stamp is not accepted by [ts_ok]. *)
Definition malformed (ts_ok : pyobj -> bool) (data : pyobj) : Prop :=
  field data (lit "chunks") = None
  \/ exists cs items c,
       field data (lit "chunks") = Some cs /\ py_iter cs = Ok items /\ In c items
       /\ (field c (lit "timestamp") = None
           \/ field c (lit "text") = None
           \/ exists ts, field c (lit "timestamp") = Some ts /\ ts_ok ts = false).

(** The exception classes that the conversion can raise. *)
Definition conversion_error (e : pyexc) : bool :=
  match e with
  | KeyError _ | IndexError | TypeError | AttributeError | ValueError | OverflowError => true
  | _ => false
  end.

(** A float as Python holds it: a zero, an infinity, a NaN, or a finite
    binary64 number in canonical form. *)
Definition canonical (x : pyobj) : bool :=
  match x with
  | PyFloat f => valid_binary prec emax f
  | _ => true
  end.

(** The exact value of a finite float, as the fraction
    [float_num f / 2 ^ float_scale f]. *)
Definition float_scale (f : spec_float) : Z :=
  match f with
  | S754_finite _ _ (Zneg k) => Zpos k
  | _ => 0
  end.

Definition float_num (f : spec_float) : Z :=
  match f with
  | S754_finite s m e =>
      let v := match e with
               | Zneg _ => Zpos m
               | _ => Zpos m * 2 ^ e
               end in
      if s then - v else v
  | _ => 0
  end.

(** [us] is the number of seconds [x] expressed in microseconds and rounded
    to an integer: exactly [x * 10^6] for an [int], and for a float within
    [1/2 + 2^-33] of [x * 10^6], the half for the rounding to an integer and
    the rest for the rounding of the float product.  The inequality
    [|us - x * 10^6| <= 1/2 + 2^-33] is written with both sides multiplied
    by [2^33] and by the denominator of [x]. *)
Definition microseconds_of_value (x : pyobj) (us : Z) : Prop :=
  match x with
  | PyInt z => us = z * 1000000
  | PyBool b => us = Z.b2z b * 1000000
  | PyFloat f =>
      Z.abs (us * 2 ^ float_scale f - float_num f * 1000000) * 2 ^ 33
      <= (2 ^ 32 + 1) * 2 ^ float_scale f
  | _ => False
  end.

(** *** Reading a document back *)

(** The lines of a text: [s.split("\n")]. *)
Fixpoint split_lines (s : pystr) : list pystr :=
  match s with
  | [] => [[]]
  | c :: t =>
      if (c =? 10)%N then [] :: split_lines t
      else match split_lines t with
           | l :: ls => (c :: l) :: ls
           | [] => [[c]]
           end
  end.

(** The runs of lines between the empty lines. *)
Fixpoint paragraphs (lines : list pystr) : list (list pystr) :=
  match lines with
  | [] => [[]]
  | l :: rest =>
      match l with
      | [] => [] :: paragraphs rest
      | _ =>
          match paragraphs rest with
          | g :: gs => (l :: g) :: gs
          | [] => [[l]]
          end
      end
  end.

Definition nonempty {A} (l : list A) : bool :=
  match l with
  | [] => false
  | _ => true
  end.

(** The blocks of a document as a reader of the SubRip format finds them:
    the runs of non-empty lines, which blank lines separate. *)
Definition read_blocks (doc : pystr) : list (list pystr) :=
  filter nonempty (paragraphs (split_lines doc)).

(** The number on the first line of a block that was read back. *)
Definition read_index (block : list pystr) : option N :=
  match block with
  | l :: _ => nat_of_str l
  | [] => None
  end.

(** The lines of a text, none for the empty text. *)
Definition text_lines (s : pystr) : list pystr :=
  match s with
  | [] => []
  | _ => split_lines s
  end.

(** No line of the text is empty. *)
Definition no_empty_line (s : pystr) : bool := forallb nonempty (text_lines s).

(** The blocks that a reader is to find: for each chunk the index line, the
    time range and the lines of the trimmed text. *)
Fixpoint expected_blocks (index : Z) (cs : list Chunk) : list (list pystr) :=
  match cs with
  | [] => []
  | c :: rest =>
      ([str_of_int index;
        formatted (fst (timestamp c)) ++ lit " --> " ++ formatted (snd (timestamp c))]
         ++ text_lines (strip (text c)))
        :: expected_blocks (index + 1) rest
  end.

(** ** Auxiliary notions for the proofs *)

(** A float that is zero or finite with magnitude at most two. *)
Definition zero_or_small (x : spec_float) : Prop :=
  match x with
  | S754_zero _ => True
  | S754_finite _ m e => e <= 0 /\ Zdigits2 (Zpos m) + e <= 2
  | _ => False
  end.

(** A text without line feed. *)
Definition no_LF (l : pystr) : Prop := forallb (fun c => negb (c =? 10)%N) l = true.

(** The two first lines of a block. *)
Definition head_lines (i : Z) (c : Chunk) : list pystr :=
  [str_of_int i; formatted (fst (timestamp c)) ++ lit " --> " ++ formatted (snd (timestamp c))].

(** The lines of the document: those of each block, and an empty line after
    each block. *)
Fixpoint document_lines (i : Z) (cs : list Chunk) : list pystr :=
  match cs with
  | [] => []
  | c :: rest =>
      (head_lines i c ++ split_lines (strip (text c))) ++ [] :: document_lines (i + 1) rest
  end.

(** ** Example inputs *)

(** The transcript of the end-to-end scenario: two chunks, no speakers. *)
Definition example_transcript : pyobj :=
  PyDict [(lit "speakers", PyList []);
          (lit "chunks",
           PyList [PyDict [(lit "timestamp", PyList [PyInt 0; PyFloat (float_lit 55 10)]);
                           (lit "text", PyStr (lit "Hello, this is the first subtitle."))];
                   PyDict [(lit "timestamp", PyList [PyInt 6; PyFloat (float_lit 102 10)]);
                           (lit "text", PyStr (lit "And this is the second one."))]])].

(** A transcript whose only chunk carries a time stamp of three numbers. *)
Definition three_stamps : pyobj :=
  PyDict [(lit "chunks",
           PyList [PyDict [(lit "timestamp",
                            PyList [PyInt 0; PyFloat (float_lit 55 10); PyInt 7]);
                           (lit "text", PyStr (lit "hi"))]])].

(** A transcript whose only chunk has no [timestamp]. *)
Definition no_timestamp : pyobj :=
  PyDict [(lit "chunks", PyList [PyDict [(lit "text", PyStr (lit "hi"))]])].

(** The same chunks with and without speakers. *)
Definition with_speakers : list (pystr * pyobj) :=
  [(lit "speakers", PyList [PyStr (lit "SPEAKER_00")]);
   (lit "chunks",
    PyList [PyDict [(lit "timestamp", PyList [PyInt 1; PyInt 2]);
                    (lit "text", PyStr (lit "hello"))]])].

Definition without_speakers : list (pystr * pyobj) :=
  [(lit "chunks",
    PyList [PyDict [(lit "timestamp", PyList [PyInt 1; PyInt 2]);
                    (lit "text", PyStr (lit "hello"))]])].

(** A well-formed transcript of one chunk, with white space around its text. *)
Definition one_chunk : TranscriptObject :=
  {| speakers := Some [];
     chunks := [{| timestamp := (PyInt 0, PyFloat (float_lit 55 10));
                   text := lit "  hello  " |}] |}.

(** The world before [process_object] runs: no file, nothing printed. *)
Definition initial_world : world MemFS.t := {| fs := MemFS.empty; stdout := [] |}.

(** A well-formed transcript of one chunk whose text has an empty line
    inside. *)
Definition empty_line_inside : TranscriptObject :=
  {| speakers := None;
     chunks := [{| timestamp := (PyInt 0, PyInt 1);
                   text := lit "a" ++ LF ++ LF ++ lit "b" |}] |}.

(** A well-formed transcript of three chunks: a text of one line, a text of
    two lines, and an empty text. *)
Definition three_chunks : TranscriptObject :=
  {| speakers := None;
     chunks := [{| timestamp := (PyInt 0, PyFloat (float_lit 55 10));
                   text := lit " Hello. " |};
                {| timestamp := (PyInt 6, PyFloat (float_lit 102 10));
                   text := lit "two" ++ LF ++ lit "lines" |};
                {| timestamp := (PyInt 11, PyInt 12); text := lit "  " |}] |}.

(** A path with a character outside ASCII, and a world in which this path
    cannot be opened for writing. *)
Definition accented_path : pystr := 233%N :: lit ".srt".

Definition locked_world : world MemFS.t :=
  {| fs := {| MemFS.files := []; MemFS.read_only := [accented_path] |}; stdout := [] |}.

(** A world in which the path [locked.srt] cannot be opened for writing. *)
Definition locked_path : pystr := lit "locked.srt".

Definition read_only_world : world MemFS.t :=
  {| fs := {| MemFS.files := []; MemFS.read_only := [locked_path] |}; stdout := [] |}.

(** A transcript whose chunk holds its time stamps in a tuple. *)
Definition tuple_stamps : pyobj :=
  PyDict [(lit "chunks",
           PyTuple [PyDict [(lit "timestamp", PyTuple [PyInt 0; PyFloat (float_lit 55 10)]);
                            (lit "text", PyStr (lit "hi"))]])].

(** ** Further notions *)

(** The exception that [format_time] raises on an input that [timedelta]
    does not accept. *)
Definition format_time_error (x : pyobj) : pyexc :=
  match x with
  | PyInt _ | PyBool _ => OverflowError
  | PyFloat S754_nan => ValueError
  | PyFloat _ => OverflowError
  | _ => TypeError
  end.

(** Reading a clock text [HH:MM:SS,mmm] back: the time of day in
    milliseconds. *)
Definition parse_clock (s : pystr) : option Z :=
  match s with
  | [h1; h2; c1; m1; m2; c2; s1; s2; c3; u1; u2; u3] =>
      if ((c1 =? 58) && (c2 =? 58) && (c3 =? 44))%N then
        match nat_of_str [h1; h2], nat_of_str [m1; m2], nat_of_str [s1; s2],
              nat_of_str [u1; u2; u3] with
        | Some h, Some m, Some sec, Some ms =>
            Some (((Z.of_N h * 60 + Z.of_N m) * 60 + Z.of_N sec) * 1000 + Z.of_N ms)
        | _, _, _, _ => None
        end
      else None
  | _ => None
  end.

(** A chunk that the loop can turn into a block: a dictionary whose
    [timestamp] is a list or a tuple starting with two numbers that
    [timedelta] accepts, and whose [text] is a string. *)
Definition accepted_chunk (c : pyobj) : Prop :=
  exists ts a b rest s,
    field c (lit "timestamp") = Some ts
    /\ sequence_items ts = Some (a :: b :: rest)
    /\ in_timedelta_range a = true /\ in_timedelta_range b = true
    /\ field c (lit "text") = Some (PyStr s).

(** A chunk dictionary with the given time stamp elements and text. *)
Definition mk_chunk (stamps : list pyobj) (txt : pyobj) : pyobj :=
  PyDict [(lit "timestamp", PyList stamps); (lit "text", txt)].

(** Chunks to run the loop on. *)
Definition good_chunk : pyobj := mk_chunk [PyInt 0; PyInt 1] (PyStr (lit "a")).

Definition chunk_without_text : pyobj :=
  PyDict [(lit "timestamp", PyList [PyInt 1; PyInt 2])].

(** Three chunks: a good one, one without text, and a [None]. *)
Definition second_chunk_fails : pyobj :=
  PyDict [(lit "chunks", PyList [good_chunk; chunk_without_text; PyNone])].

(* ================================================================= *)
(** * Part II: lemmas *)
(* ================================================================= *)

(** ** Binary digits *)

Lemma pow2_pos (n : Z) : 0 <= n -> 0 < 2 ^ n.
Proof. intros; apply Z.pow_pos_nonneg; lia. Qed.

Lemma digits2_pos_bounds (p : positive) :
  2 ^ (Zpos (digits2_pos p) - 1) <= Zpos p < 2 ^ Zpos (digits2_pos p).
Proof.
  induction p as [p IH | p IH |]; cbn [digits2_pos].
  - rewrite Pos2Z.inj_succ, (Pos2Z.inj_xI p).
    replace (Z.succ (Zpos (digits2_pos p)) - 1) with (Z.succ (Zpos (digits2_pos p) - 1)) by lia.
    rewrite !Z.pow_succ_r by lia. lia.
  - rewrite Pos2Z.inj_succ, (Pos2Z.inj_xO p).
    replace (Z.succ (Zpos (digits2_pos p)) - 1) with (Z.succ (Zpos (digits2_pos p) - 1)) by lia.
    rewrite !Z.pow_succ_r by lia. lia.
  - cbn. lia.
Qed.

Lemma Zdigits2_nonneg (z : Z) : 0 <= Zdigits2 z.
Proof. destruct z; cbn; lia. Qed.

Lemma Zdigits2_upper (z : Z) : 0 <= z -> z < 2 ^ Zdigits2 z.
Proof.
  destruct z as [| p | p]; intros H; cbn [Zdigits2]; [cbn; lia | | lia].
  apply digits2_pos_bounds.
Qed.

Lemma Zdigits2_le (z n : Z) : 0 <= n -> 0 <= z < 2 ^ n -> Zdigits2 z <= n.
Proof.
  intros Hn [H0 H]. destruct z as [| p | p]; cbn [Zdigits2]; [lia | | lia].
  pose proof (digits2_pos_bounds p) as [Hl _].
  assert (2 ^ (Zpos (digits2_pos p) - 1) < 2 ^ n) as Hlt by lia.
  apply Z.pow_lt_mono_r_iff in Hlt; lia.
Qed.

Lemma Zdigits2_gt (z n : Z) : 0 <= n -> 2 ^ n <= z -> n < Zdigits2 z.
Proof.
  intros Hn H. pose proof (pow2_pos n Hn).
  destruct z as [| p | p]; [lia | | lia]. cbn [Zdigits2].
  pose proof (digits2_pos_bounds p) as [_ Hu].
  assert (2 ^ n < 2 ^ Zpos (digits2_pos p)) as Hlt by lia.
  apply Z.pow_lt_mono_r_iff in Hlt; lia.
Qed.

Lemma Zdigits2_eq (z n : Z) : 0 < n -> 2 ^ (n - 1) <= z < 2 ^ n -> Zdigits2 z = n.
Proof.
  intros Hn [Hl Hu].
  pose proof (Zdigits2_gt z (n - 1) ltac:(lia) Hl).
  assert (0 <= z) by (pose proof (pow2_pos (n - 1)); lia).
  pose proof (Zdigits2_le z n ltac:(lia) ltac:(lia)). lia.
Qed.

(** ** Shifting a mantissa right *)

Lemma shr_m_of_loc (m : Z) (l : location) : shr_m (shr_record_of_loc m l) = m.
Proof. destruct l as [| []]; reflexivity. Qed.

Lemma shr_1_m (r : shr_record) : 0 <= shr_m r -> shr_m (shr_1 r) = shr_m r / 2.
Proof.
  destruct r as [m rb sb]; cbn [shr_m]; intros H.
  destruct m as [| [p | p |] | p]; cbn [shr_1 shr_m]; try reflexivity; try lia.
  - rewrite (Pos2Z.inj_xI p). apply Z.div_unique with (r := 1); lia.
  - rewrite (Pos2Z.inj_xO p). apply Z.div_unique with (r := 0); lia.
Qed.

Lemma iter_shr_1_m (p : positive) :
  forall r, 0 <= shr_m r -> shr_m (iter_pos shr_1 p r) = shr_m r / 2 ^ Zpos p.
Proof.
  assert (Hnn : forall r, 0 <= shr_m r -> 0 <= shr_m (shr_1 r)).
  { intros r H. rewrite shr_1_m by assumption. apply Z.div_pos; lia. }
  induction p as [p IH | p IH |]; intros r H; cbn [iter_pos].
  - assert (H1 : 0 <= shr_m (shr_1 r)) by auto.
    assert (H2 : 0 <= shr_m (iter_pos shr_1 p (shr_1 r))).
    { rewrite IH by assumption. apply Z.div_pos; [assumption | apply pow2_pos; lia]. }
    rewrite IH, IH, shr_1_m by assumption.
    pose proof (pow2_pos (Zpos p) ltac:(lia)).
    rewrite !Z.div_div by lia.
    f_equal. rewrite (Pos2Z.inj_xI p).
    replace (2 * Zpos p + 1) with (1 + Zpos p + Zpos p) by lia.
    rewrite !Z.pow_add_r by lia. change (2 ^ 1) with 2. ring.
  - assert (H2 : 0 <= shr_m (iter_pos shr_1 p r)).
    { rewrite IH by assumption. apply Z.div_pos; [assumption | apply pow2_pos; lia]. }
    rewrite IH, IH by assumption.
    pose proof (pow2_pos (Zpos p) ltac:(lia)).
    rewrite !Z.div_div by lia.
    f_equal. rewrite (Pos2Z.inj_xO p).
    replace (2 * Zpos p) with (Zpos p + Zpos p) by lia.
    rewrite !Z.pow_add_r by lia. reflexivity.
  - rewrite shr_1_m by assumption. reflexivity.
Qed.

Lemma shr_spec (r : shr_record) (e n : Z) :
  0 <= shr_m r ->
  shr_m (fst (shr r e n)) = shr_m r / 2 ^ Z.max 0 n /\ snd (shr r e n) = e + Z.max 0 n.
Proof.
  intros H. destruct n as [| p | p]; cbn [shr fst snd].
  - cbn. rewrite Z.div_1_r. lia.
  - rewrite iter_shr_1_m by assumption.
    replace (Z.max 0 (Zpos p)) with (Zpos p) by lia. auto.
  - replace (Z.max 0 (Zneg p)) with 0 by lia. cbn. rewrite Z.div_1_r. lia.
Qed.

Lemma round_nearest_even_cases (m : Z) (l : location) :
  round_nearest_even m l = m \/ round_nearest_even m l = m + 1.
Proof. destruct l as [| []]; cbn; auto. destruct (Z.even m); auto. Qed.

Lemma round_exact (m : Z) (e n : Z) :
  n <= 0 ->
  let mrs := fst (shr (shr_record_of_loc m loc_Exact) e n) in
  round_nearest_even (shr_m mrs) (loc_of_shr_record mrs) = m.
Proof. intros H. destruct n; cbn; try reflexivity; lia. Qed.

(** The shape of a rounded result: the mantissa is shifted right to the
    target precision, possibly incremented, and shifted once more when the
    increment carried. *)
Lemma binary_round_aux_shape (s : bool) (mx ex : Z) (lx : location) :
  0 <= mx ->
  let n1 := fexp prec emax (Zdigits2 mx + ex) - ex in
  exists mr,
    (mr = mx / 2 ^ Z.max 0 n1 \/ mr = mx / 2 ^ Z.max 0 n1 + 1) /\
    (lx = loc_Exact -> n1 <= 0 -> mr = mx) /\
    let e1 := ex + Z.max 0 n1 in
    let n2 := Z.max 0 (fexp prec emax (Zdigits2 mr + e1) - e1) in
    binary_round_aux prec emax s mx ex lx =
      match mr / 2 ^ n2 with
      | Z0 => S754_zero s
      | Zpos m => if e1 + n2 <=? emax - prec then S754_finite s m (e1 + n2)
                  else S754_infinity s
      | Zneg _ => S754_nan
      end.
Proof.
  intros Hmx n1. unfold binary_round_aux, shr_fexp. fold n1.
  set (rec1 := shr_record_of_loc mx lx).
  assert (H1 : 0 <= shr_m rec1) by (unfold rec1; rewrite shr_m_of_loc; assumption).
  destruct (shr_spec rec1 ex n1 H1) as [Hm1 He1].
  destruct (shr rec1 ex n1) as [mrs' e'] eqn:Hshr1. cbn [fst snd] in Hm1, He1.
  unfold rec1 in Hm1. rewrite shr_m_of_loc in Hm1.
  set (mr := round_nearest_even (shr_m mrs') (loc_of_shr_record mrs')).
  exists mr. split; [| split].
  - unfold mr. rewrite <- Hm1. apply round_nearest_even_cases.
  - intros -> Hn. unfold mr.
    pose proof (round_exact mx ex n1 Hn) as Hr. cbn zeta in Hr.
    unfold rec1 in Hshr1. rewrite Hshr1 in Hr. exact Hr.
  - cbn zeta. subst e'.
    assert (Hmr : 0 <= mr).
    { assert (0 <= shr_m mrs').
      { rewrite Hm1. apply Z.div_pos; [lia | apply pow2_pos; lia]. }
      unfold mr. destruct (round_nearest_even_cases (shr_m mrs') (loc_of_shr_record mrs')); lia. }
    set (rec2 := shr_record_of_loc mr loc_Exact).
    assert (H2 : 0 <= shr_m rec2) by (unfold rec2; rewrite shr_m_of_loc; assumption).
    set (n2 := fexp prec emax (Zdigits2 mr + (ex + Z.max 0 n1)) - (ex + Z.max 0 n1)).
    destruct (shr_spec rec2 (ex + Z.max 0 n1) n2 H2) as [Hm2 He2].
    destruct (shr rec2 (ex + Z.max 0 n1) n2) as [mrs'' e''] eqn:Hshr2.
    cbn [fst snd] in Hm2, He2. unfold rec2 in Hm2. rewrite shr_m_of_loc in Hm2.
    rewrite Hm2, He2. reflexivity.
Qed.

(** ** Conversion of an [int] and the core of the division *)

Lemma iter_xO_mul (m d : positive) : Zpos (Pos.iter xO m d) = Zpos m * 2 ^ Zpos d.
Proof.
  change (Pos.iter xO m d) with (shift_pos d m).
  rewrite shift_pos_correct. change (Z.pow_pos 2 d) with (2 ^ Zpos d). ring.
Qed.

Lemma shl_align_spec (mx : positive) (ex ex' : Z) :
  snd (shl_align mx ex ex') = Z.min ex ex' /\
  Zpos (fst (shl_align mx ex ex')) = Zpos mx * 2 ^ (ex - Z.min ex ex').
Proof.
  unfold shl_align. destruct (ex' - ex) as [| d | d] eqn:E; cbn [fst snd].
  - replace (ex - Z.min ex ex') with 0 by lia. cbn. lia.
  - replace (ex - Z.min ex ex') with 0 by lia. cbn. lia.
  - rewrite iter_xO_mul. replace (ex - Z.min ex ex') with (Zpos d) by lia. lia.
Qed.

Lemma scale_bounds (a d k : Z) :
  1 <= d -> 0 <= k -> 2 ^ (d - 1) <= a < 2 ^ d ->
  2 ^ (d - 1 + k) <= a * 2 ^ k < 2 ^ (d + k).
Proof.
  intros Hd Hk [Hl Hu]. rewrite !Z.pow_add_r by lia.
  pose proof (pow2_pos k Hk).
  split; [apply Z.mul_le_mono_nonneg_r | apply Z.mul_lt_mono_pos_r]; lia.
Qed.

(** A mantissa that already sits at its canonical exponent is kept as it is. *)
Lemma binary_round_aux_exact (s : bool) (m : positive) (e : Z) :
  fexp prec emax (Zdigits2 (Zpos m) + e) <= e -> e <= emax - prec ->
  binary_round_aux prec emax s (Zpos m) e loc_Exact = S754_finite s m e.
Proof.
  intros Hc He.
  destruct (binary_round_aux_shape s (Zpos m) e loc_Exact ltac:(lia)) as (mr & _ & Hex & Heq).
  cbn zeta in Heq. rewrite Heq. clear Heq.
  rewrite (Hex eq_refl) by lia.
  replace (Z.max 0 (fexp prec emax (Zdigits2 (Zpos m) + e) - e)) with 0 by lia.
  rewrite Z.add_0_r.
  replace (Z.max 0 (fexp prec emax (Zdigits2 (Zpos m) + e) - e)) with 0 by lia.
  cbn [Z.pow]. rewrite Z.div_1_r, Z.add_0_r.
  destruct (Z.leb_spec e (emax - prec)); [reflexivity | lia].
Qed.

(** [float(z)] is exact below [2^53]. *)
Lemma float_of_int_pos (p : positive) :
  Zpos p < 2 ^ 53 ->
  exists m, float_of_int (Zpos p) = S754_finite false m (Zpos (digits2_pos p) - 53)
            /\ Zpos m = Zpos p * 2 ^ (53 - Zpos (digits2_pos p)).
Proof.
  intros Hp. pose proof (digits2_pos_bounds p) as [Hl Hu].
  assert (Hd : Zpos (digits2_pos p) <= 53)
    by (apply (Zdigits2_le (Zpos p) 53); lia).
  unfold float_of_int, binary_normalize, binary_round.
  set (ex' := fexp prec emax (Zpos (digits2_pos p) + 0)).
  assert (Hex' : ex' = Zpos (digits2_pos p) - 53)
    by (unfold ex', fexp, emin, prec, emax; lia).
  destruct (shl_align_spec p 0 ex') as [He Hm].
  destruct (shl_align p 0 ex') as [mz ez]. cbn [fst snd] in He, Hm.
  assert (Hez : ez = Zpos (digits2_pos p) - 53) by lia.
  replace (0 - Z.min 0 ex') with (53 - Zpos (digits2_pos p)) in Hm by lia.
  exists mz. split; [| exact Hm].
  rewrite <- Hez. apply binary_round_aux_exact.
  - assert (Zdigits2 (Zpos mz) = 53).
    { apply Zdigits2_eq; [lia |]. rewrite Hm.
      pose proof (scale_bounds (Zpos p) (Zpos (digits2_pos p)) (53 - Zpos (digits2_pos p))
                    ltac:(lia) ltac:(lia) (conj Hl Hu)) as Hs.
      replace (Zpos (digits2_pos p) - 1 + (53 - Zpos (digits2_pos p))) with (53 - 1) in Hs by lia.
      replace (Zpos (digits2_pos p) + (53 - Zpos (digits2_pos p))) with 53 in Hs by lia.
      exact Hs. }
    unfold fexp, emin, prec, emax. lia.
  - unfold emax, prec. lia.
Qed.

Lemma SFdiv_core_binary_eq (m1 e1 m2 e2 : Z) :
  let e' := Z.min (fexp prec emax (Zdigits2 m1 + e1 - (Zdigits2 m2 + e2))) (e1 - e2) in
  SFdiv_core_binary prec emax m1 e1 m2 e2 =
    (m1 * 2 ^ (e1 - e2 - e') / m2, e', new_location m2 ((m1 * 2 ^ (e1 - e2 - e')) mod m2)).
Proof.
  intros e'. unfold SFdiv_core_binary. fold e'.
  assert (Hs : 0 <= e1 - e2 - e') by (unfold e'; lia).
  set (m' := match e1 - e2 - e' with
             | Z.pos _ => Z.shiftl m1 (e1 - e2 - e')
             | 0 => m1
             | Z.neg _ => 0
             end).
  assert (Hm' : m' = m1 * 2 ^ (e1 - e2 - e')).
  { unfold m'. destruct (e1 - e2 - e') as [| k | k] eqn:E.
    - cbn. lia.
    - apply Z.shiftl_mul_pow2. lia.
    - lia. }
  rewrite <- Hm'. unfold Z.div, Z.modulo.
  destruct (Z.div_eucl m' m2) as [q r]. reflexivity.
Qed.

(** ** [int(us / 1000)]

    The quotient of a microsecond count by 1000, computed in floats and
    truncated, is the integer quotient.  The proof follows the division
    algorithm: for a dividend of bit length [d] the quotient mantissa is
    [us * 2^(63-d) / 1000], rounding changes it by one unit at most, and one
    unit is too little to reach the next multiple of [2^(63-d)]. *)

(** Replaces the closed powers of two of the goal and the hypotheses by
    their values. *)
Ltac eval_pow2 :=
  repeat match goal with
    | H : context [2 ^ ?e] |- _ =>
        let v := eval vm_compute in (2 ^ e) in progress change (2 ^ e) with v in H
    | |- context [2 ^ ?e] =>
        let v := eval vm_compute in (2 ^ e) in progress change (2 ^ e) with v
    end.

Lemma float_of_int_1000 : float_of_int 1000 = S754_finite false 8796093022208000 (-43).
Proof. vm_compute. reflexivity. Qed.

Lemma int_of_float_pos_neg_exp (m : positive) (e : Z) :
  e < 0 -> int_of_float (S754_finite false m e) = Ok (Zpos m / 2 ^ (- e)).
Proof.
  intros He. destruct e as [| k | k]; try lia. cbn [int_of_float].
  rewrite Z.shiftr_div_pow2 by lia. reflexivity.
Qed.

Lemma truediv_1000_pos (p : positive) :
  Zpos p < 1000000 ->
  (q <- int_truediv (Zpos p) 1000 ;; int_of_float q) = Ok (Zpos p / 1000).
Proof.
  intros Hp. unfold int_truediv. cbn [Z.eqb bind].
  destruct (float_of_int_pos p ltac:(lia)) as (m1 & Hf & Hm1).
  pose proof (digits2_pos_bounds p) as [Hl Hu].
  set (d := Zpos (digits2_pos p)) in *.
  assert (Hd : 1 <= d <= 20).
  { split; [unfold d; lia |]. apply (Zdigits2_le (Zpos p) 20); lia. }
  assert (Hdig1 : Zdigits2 (Zpos m1) = 53).
  { apply Zdigits2_eq; [lia |]. rewrite Hm1.
    pose proof (scale_bounds (Zpos p) d (53 - d) ltac:(lia) ltac:(lia) (conj Hl Hu)) as Hs.
    replace (d - 1 + (53 - d)) with (53 - 1) in Hs by lia.
    replace (d + (53 - d)) with 53 in Hs by lia. exact Hs. }
  unfold float_div. rewrite Hf, float_of_int_1000. cbn [SFdiv xorb].
  rewrite SFdiv_core_binary_eq. rewrite Hdig1.
  change (Zdigits2 8796093022208000) with 53.
  set (e' := Z.min _ _).
  assert (He' : e' = d - 63) by (unfold e', fexp, emin, prec, emax; lia).
  replace (d - 53 - -43 - e') with 53 by lia.
  set (Q := Zpos m1 * 2 ^ 53 / 8796093022208000).
  set (L := new_location _ _). clearbody L.
  destruct (binary_round_aux_shape false Q e' L) as (mr & Hmr & _ & Heq).
  { unfold Q. apply Z.div_pos; lia. }
  cbn zeta in Heq. rewrite Heq. clear Heq.
  set (n1 := Z.max 0 (fexp prec emax (Zdigits2 Q + e') - e')) in *.
  set (n2 := Z.max 0 (fexp prec emax (Zdigits2 mr + (e' + n1)) - (e' + n1))).
  (* the quotient, in terms of [p] *)
  assert (HQ : Q = Zpos p * 2 ^ (63 - d) / 1000).
  { unfold Q. rewrite Hm1.
    replace (Zpos p * 2 ^ (53 - d) * 2 ^ 53) with (Zpos p * 2 ^ (63 - d) * 2 ^ 43).
    2:{ rewrite <- !Z.mul_assoc, <- !Z.pow_add_r by lia. do 2 f_equal. lia. }
    change 8796093022208000 with (1000 * 2 ^ 43).
    rewrite Z.div_mul_cancel_r by lia. reflexivity. }
  clearbody Q. clear Hf Hm1 Hdig1 m1 L.
  pose proof (scale_bounds (Zpos p) d (63 - d) ltac:(lia) ltac:(lia) (conj Hl Hu)) as HA.
  replace (d - 1 + (63 - d)) with 62 in HA by lia.
  replace (d + (63 - d)) with 63 in HA by lia.
  change (2 ^ 62) with 4611686018427387904 in HA.
  change (2 ^ 63) with 9223372036854775808 in HA.
  assert (HQb : 4503599627370496 <= Q < 18014398509481984).
  { rewrite HQ. revert HA. generalize (Zpos p * 2 ^ (63 - d)). clear. intros A HA.
    Z.div_mod_to_equations. lia. }
  (* the first shift: by one digit at most *)
  assert (Hn1 : (n1 = 0 /\ Q < 9007199254740992) \/ (n1 = 1 /\ 9007199254740992 <= Q)).
  { destruct (Z.lt_ge_cases Q 9007199254740992) as [Hlt | Hge]; [left | right]; split;
      try assumption.
    - assert (HD : Zdigits2 Q = 53) by (apply Zdigits2_eq; [lia | cbn; lia]).
      unfold n1, fexp, emin, prec, emax. rewrite HD. lia.
    - assert (HD : Zdigits2 Q = 54) by (apply Zdigits2_eq; [lia | cbn; lia]).
      unfold n1, fexp, emin, prec, emax. rewrite HD. lia. }
  assert (Hmrb : 4503599627370496 <= mr <= 9007199254740992).
  { destruct Hn1 as [[-> ?] | [-> ?]]; cbn [Z.pow Z.pow_pos Pos.iter Z.mul Pos.mul] in Hmr;
      Z.div_mod_to_equations; lia. }
  assert (Hn2 : (n2 = 0 /\ mr < 9007199254740992) \/ (n2 = 1 /\ mr = 9007199254740992)).
  { destruct (Z.lt_ge_cases mr 9007199254740992) as [Hlt | Hge]; [left | right]; split; try lia.
    - assert (HD : Zdigits2 mr = 53) by (apply Zdigits2_eq; [lia | cbn; lia]).
      unfold n2, fexp, emin, prec, emax. rewrite HD. lia.
    - assert (HD : Zdigits2 mr = 54) by (apply Zdigits2_eq; [lia | cbn; lia]).
      unfold n2, fexp, emin, prec, emax. rewrite HD. lia. }
  assert (Hn12 : 0 <= n1 <= 1 /\ 0 <= n2 <= 1) by lia.
  assert (Hmf : 0 < mr / 2 ^ n2).
  { destruct Hn2 as [[-> ?] | [-> ?]]; cbn [Z.pow Z.pow_pos Pos.iter Z.mul Pos.mul];
      Z.div_mod_to_equations; lia. }
  destruct (mr / 2 ^ n2) as [| mf | mf] eqn:Emf; try lia.
  destruct (Z.leb_spec (e' + n1 + n2) (emax - prec)) as [_ | Hbad];
    [| unfold emax, prec in Hbad; lia].
  rewrite int_of_float_pos_neg_exp by lia.
  f_equal. rewrite <- Emf.
  clearbody n1 n2. clear Hmf Emf mf Hmrb HQb.
  assert (Hcases : d = 1 \/ d = 2 \/ d = 3 \/ d = 4 \/ d = 5 \/ d = 6 \/ d = 7 \/ d = 8
     \/ d = 9 \/ d = 10 \/ d = 11 \/ d = 12 \/ d = 13 \/ d = 14 \/ d = 15 \/ d = 16
     \/ d = 17 \/ d = 18 \/ d = 19 \/ d = 20) by lia.
  clearbody d. subst e'. clear Hl Hu Hd.
  repeat (destruct Hcases as [-> | Hcases]); [.. | subst d];
    (destruct Hn1 as [[-> Hq] | [-> Hq]]; destruct Hn2 as [[-> Hr] | [-> Hr]];
     eval_pow2; Z.div_mod_to_equations; lia).
Qed.

(** ** [timedelta] on floats: the microsecond count exists *)

Lemma Zdigits2_mono (a b : Z) : 0 <= a <= b -> Zdigits2 a <= Zdigits2 b.
Proof.
  intros [Ha Hab]. apply Zdigits2_le; [apply Zdigits2_nonneg |].
  pose proof (Zdigits2_upper b ltac:(lia)). lia.
Qed.

Lemma Zdigits2_mul (a b : Z) : 0 <= a -> 0 <= b -> Zdigits2 (a * b) <= Zdigits2 a + Zdigits2 b.
Proof.
  intros Ha Hb.
  pose proof (Zdigits2_nonneg a). pose proof (Zdigits2_nonneg b).
  pose proof (Zdigits2_upper a Ha). pose proof (Zdigits2_upper b Hb).
  apply Zdigits2_le; [lia |]. rewrite Z.pow_add_r by lia. nia.
Qed.

Lemma div_pow2_lt (a D n : Z) :
  0 <= D -> 0 <= n -> 0 <= a < 2 ^ D -> 0 <= a / 2 ^ n < 2 ^ Z.max (D - n) 0.
Proof.
  intros HD Hn [Ha Hlt]. pose proof (pow2_pos n Hn) as Hp.
  split; [apply Z.div_pos; lia |].
  destruct (Z.le_gt_cases n D) as [Hle | Hgt].
  - replace (Z.max (D - n) 0) with (D - n) by lia.
    apply Z.div_lt_upper_bound; [lia |].
    rewrite <- Z.pow_add_r by lia. replace (n + (D - n)) with D by lia. exact Hlt.
  - replace (Z.max (D - n) 0) with 0 by lia. cbn.
    assert (2 ^ D <= 2 ^ n) by (apply Z.pow_le_mono_r; lia).
    rewrite Z.div_small; lia.
Qed.

(** When the magnitude stays below [2^K] and there is room for the exponent,
    rounding produces a zero or a finite float. *)
Lemma binary_round_aux_finite (s : bool) (mx ex : Z) (lx : location) (K : Z) :
  0 <= mx -> Zdigits2 mx + ex <= K ->
  Z.max (Z.max ex (K - 53)) (-1074) + 1 <= 971 ->
  match binary_round_aux prec emax s mx ex lx with
  | S754_zero s' => s' = s
  | S754_finite s' m e =>
      s' = s /\ e <= Z.max (Z.max ex (K - 53)) (-1074) + 1
      /\ Zdigits2 (Zpos m) + e <= Z.max K (-1074) + 2
  | _ => False
  end.
Proof.
  intros Hmx HK Hroom.
  destruct (binary_round_aux_shape s mx ex lx Hmx) as (mr & Hmr & _ & Heq).
  cbn zeta in Heq. rewrite Heq. clear Heq.
  set (D := Zdigits2 mx) in *.
  assert (HD : 0 <= D) by apply Zdigits2_nonneg.
  set (n1 := Z.max 0 (fexp prec emax (D + ex) - ex)) in *.
  assert (Hf1 : fexp prec emax (D + ex) = Z.max (D + ex - 53) (-1074)) by reflexivity.
  pose proof (div_pow2_lt mx D n1 HD ltac:(lia) (conj Hmx (Zdigits2_upper mx Hmx))) as Hm1.
  set (m1 := mx / 2 ^ n1) in *.
  assert (Hmrb : 0 <= mr <= 2 ^ Z.max (D - n1) 0) by lia.
  set (Dr := Zdigits2 mr).
  assert (HDr : 0 <= Dr <= Z.max (D - n1) 0 + 1).
  { split; [apply Zdigits2_nonneg |]. apply Zdigits2_le; [lia |].
    rewrite Z.pow_add_r by lia. change (2 ^ 1) with 2.
    pose proof (pow2_pos (Z.max (D - n1) 0) ltac:(lia)). lia. }
  set (e1 := ex + n1).
  assert (Hf2 : fexp prec emax (Dr + e1) = Z.max (Dr + e1 - 53) (-1074)) by reflexivity.
  rewrite Hf2.
  set (n2 := Z.max 0 (Z.max (Dr + e1 - 53) (-1074) - e1)).
  assert (Hn2 : 0 <= n2 <= 1) by (unfold n2, e1, n1 in *; rewrite Hf1 in *; lia).
  assert (He : e1 + n2 <= Z.max (Z.max ex (K - 53)) (-1074) + 1)
    by (unfold e1, n1 in *; rewrite Hf1 in *; lia).
  assert (Hmf : 0 <= mr / 2 ^ n2 <= mr).
  { pose proof (pow2_pos n2 ltac:(lia)). split; [apply Z.div_pos; lia |].
    apply Z.div_le_upper_bound; [lia |]. nia. }
  destruct (mr / 2 ^ n2) as [| mf | mf] eqn:Emf; [reflexivity | | lia].
  destruct (Z.leb_spec (e1 + n2) (emax - prec)) as [_ | Hbad];
    [| unfold emax, prec in Hbad; lia].
  split; [reflexivity | split; [exact He |]].
  pose proof (Zdigits2_mono (Zpos mf) mr ltac:(lia)) as Hmono. fold Dr in Hmono.
  unfold e1, n1 in *. rewrite Hf1 in *. lia.
Qed.

(** The fractional part is zero or a float of magnitude at most one. *)
Lemma frac_of_float_small (s : bool) (m : positive) (e : Z) :
  zero_or_small (frac_of_float (S754_finite s m e)).
Proof.
  destruct e as [| k | k]; cbn [frac_of_float zero_or_small]; auto.
  rewrite Z.land_ones by lia.
  pose proof (Z.mod_pos_bound (Zpos m) (2 ^ Zpos k) (pow2_pos (Zpos k) ltac:(lia))) as Hr.
  set (r := Zpos m mod 2 ^ Zpos k) in *. clearbody r.
  assert (Hnorm : binary_normalize prec emax (if s then - r else r) (Zneg k) s
                  = match r with
                    | Zpos r' => binary_round prec emax s r' (Zneg k)
                    | _ => S754_zero s
                    end).
  { destruct r as [| r' | r']; [destruct s; reflexivity | destruct s; reflexivity | lia]. }
  rewrite Hnorm. clear Hnorm.
  destruct r as [| r' | r']; [exact I | | lia].
  unfold binary_round.
  destruct (shl_align_spec r' (Zneg k) (fexp prec emax (Zpos (digits2_pos r') + Zneg k)))
    as [Hez Hmz].
  destruct (shl_align r' (Zneg k) _) as [mz ez]. cbn [fst snd] in Hez, Hmz.
  assert (Hez' : ez <= Zneg k) by lia.
  assert (Hdig : Zdigits2 (Zpos mz) + ez <= 0).
  { assert (Zdigits2 (Zpos mz) <= - ez); [| lia].
    apply Zdigits2_le; [lia |]. split; [lia |]. rewrite Hmz.
    rewrite <- Hez.
    replace (- ez) with (Zpos k + (Zneg k - ez)) by lia.
    rewrite Z.pow_add_r by lia.
    apply Z.mul_lt_mono_pos_r; [apply pow2_pos; lia | lia]. }
  pose proof (binary_round_aux_finite s (Zpos mz) ez loc_Exact 0 ltac:(lia) Hdig ltac:(lia)) as HR.
  destruct (binary_round_aux prec emax s (Zpos mz) ez loc_Exact) as [| | | s' m' e'];
    cbn [zero_or_small]; try tauto.
  lia.
Qed.

Lemma float_of_int_us_per_second :
  float_of_int us_per_second = S754_finite false 8589934592000000 (-33).
Proof. vm_compute. reflexivity. Qed.

Lemma py_round_scaled_fraction (x : spec_float) :
  zero_or_small x ->
  exists us, py_round (float_mul x (float_of_int us_per_second)) = Ok us.
Proof.
  intros Hx. rewrite float_of_int_us_per_second. unfold float_mul.
  destruct x as [s | s | | s m e]; cbn [zero_or_small] in Hx; try tauto.
  - cbn. eauto.
  - cbn [SFmul]. destruct Hx as [He Hd].
    assert (Hdig : Zdigits2 (Zpos (m * 8589934592000000)) + (e + -33) <= 22).
    { rewrite Pos2Z.inj_mul.
      pose proof (Zdigits2_mul (Zpos m) 8589934592000000 ltac:(lia) ltac:(lia)) as Hm.
      change (Zdigits2 8589934592000000) with 53 in Hm. lia. }
    pose proof (binary_round_aux_finite (xorb s false) (Zpos (m * 8589934592000000))
                  (e + -33) loc_Exact 22 ltac:(lia) Hdig ltac:(lia)) as HR.
    destruct (binary_round_aux prec emax (xorb s false) _ _ loc_Exact) as [| | | s' m' e'];
      try tauto; cbn [py_round]; eauto.
Qed.

(** [timedelta(seconds=x)] computes a microsecond count for every finite
    number. *)
Lemma total_microseconds_finite (x : pyobj) :
  is_number x = true -> is_finite x = true -> exists us, total_microseconds x = Ok us.
Proof.
  destruct x as [| b | z | f | | | |]; cbn [is_number is_finite]; try discriminate; intros _ Hf.
  - cbn. eauto.
  - cbn. eauto.
  - destruct f as [s | s | | s m e]; try discriminate.
    + cbn. eauto.
    + unfold total_microseconds.
      destruct (py_round_scaled_fraction _ (frac_of_float_small s m e)) as [us Hus].
      cbn [int_of_float bind]. rewrite Hus. cbn [bind]. eauto.
Qed.

(** ** [format_time] *)

(** [int(us / 1000)] is the integer quotient: the float division does not
    reach the next integer. *)
Lemma milliseconds_of_microseconds (us : Z) :
  0 <= us < 1000000 ->
  (q <- int_truediv us 1000 ;; int_of_float q) = Ok (us / 1000).
Proof.
  intros [H0 H1]. destruct us as [| p | p]; [reflexivity | | lia].
  apply truediv_1000_pos. exact H1.
Qed.

Lemma microseconds_to_delta_ok (us : Z) :
  Z.abs (us / us_per_day) <= max_delta_days ->
  microseconds_to_delta us =
    Ok {| td_days := us / us_per_day;
          td_seconds := us / us_per_second mod seconds_per_day;
          td_microseconds := us mod us_per_second |}.
Proof.
  intros H. unfold microseconds_to_delta, divmod.
  assert (Hd : us / us_per_second / seconds_per_day = us / us_per_day).
  { unfold us_per_second, seconds_per_day, us_per_day. rewrite Z.div_div by lia. reflexivity. }
  rewrite Hd. destruct (Z.gtb_spec (Z.abs (us / us_per_day)) max_delta_days); [lia | reflexivity].
Qed.

Lemma format_time_of_delta (x : pyobj) (td : timedelta) :
  timedelta_of_seconds x = Ok td ->
  0 <= td_microseconds td < 1000000 ->
  format_time x =
    Ok (format_0d 2 (td_seconds td / 3600) ++ lit ":"
          ++ format_0d 2 (td_seconds td mod 3600 / 60) ++ lit ":"
          ++ format_0d 2 (td_seconds td mod 3600 mod 60) ++ lit ","
          ++ format_0d 3 (td_microseconds td / 1000)).
Proof.
  intros Htd Hus. unfold format_time. rewrite Htd. cbn [bind]. unfold divmod.
  pose proof (milliseconds_of_microseconds _ Hus) as Hms.
  destruct (int_truediv (td_microseconds td) 1000) as [q | e]; cbn [bind] in *.
  - rewrite Hms. reflexivity.
  - discriminate.
Qed.

Lemma clock_fields (us : Z) :
  let v := us mod 86400000000 in
  us / 1000000 mod 86400 / 3600 = v / 3600000000
  /\ us / 1000000 mod 86400 mod 3600 / 60 = v / 60000000 mod 60
  /\ us / 1000000 mod 86400 mod 3600 mod 60 = v / 1000000 mod 60
  /\ us mod 1000000 / 1000 = v / 1000 mod 1000.
Proof. intros v. unfold v. repeat split; Z.div_mod_to_equations; lia. Qed.

(** [format_time] renders the time of day of the duration; whole days are
    dropped. *)
Lemma format_time_clock (x : pyobj) (us : Z) :
  total_microseconds x = Ok us ->
  Z.abs (us / us_per_day) <= max_delta_days ->
  format_time x = Ok (clock_of_microseconds (us mod us_per_day)).
Proof.
  intros Hus Hrange.
  assert (Htd : timedelta_of_seconds x = Ok {| td_days := us / us_per_day;
          td_seconds := us / us_per_second mod seconds_per_day;
          td_microseconds := us mod us_per_second |}).
  { unfold timedelta_of_seconds. rewrite Hus. cbn [bind]. apply microseconds_to_delta_ok, Hrange. }
  rewrite (format_time_of_delta x _ Htd); cbn [td_seconds td_microseconds].
  2:{ unfold us_per_second. apply Z.mod_pos_bound. lia. }
  unfold clock_of_microseconds, us_per_second, seconds_per_day, us_per_day.
  destruct (clock_fields us) as (Hh & Hm & Hs & Hu).
  rewrite Hh, Hm, Hs, Hu. reflexivity.
Qed.

(** ** Accepted and rejected inputs of [format_time] *)

Lemma in_timedelta_range_inv (x : pyobj) :
  in_timedelta_range x = true ->
  exists us, total_microseconds x = Ok us /\ Z.abs (us / us_per_day) <= max_delta_days.
Proof.
  unfold in_timedelta_range. destruct (total_microseconds x) as [us | e]; [| discriminate].
  intros H. apply Z.leb_le in H. eauto.
Qed.

Lemma format_time_rejected (x : pyobj) :
  in_timedelta_range x = false -> format_time x = Raise (format_time_error x).
Proof.
  intros Hx. unfold format_time, timedelta_of_seconds.
  destruct (is_number x && is_finite x) eqn:Hnf.
  - apply andb_true_iff in Hnf. destruct Hnf as [Hn Hf].
    destruct (total_microseconds_finite x Hn Hf) as [us Hus].
    unfold in_timedelta_range in Hx. rewrite Hus in Hx. apply Z.leb_gt in Hx.
    rewrite Hus. cbn [bind]. unfold microseconds_to_delta, divmod.
    assert (Hd : us / us_per_second / seconds_per_day = us / us_per_day).
    { unfold us_per_second, seconds_per_day, us_per_day. rewrite Z.div_div by lia. reflexivity. }
    rewrite Hd. destruct (Z.gtb_spec (Z.abs (us / us_per_day)) max_delta_days); [| lia].
    cbn [bind]. destruct x as [| b | z | f | | | |]; try discriminate; try reflexivity.
    destruct f; try discriminate; reflexivity.
  - destruct x as [| b | z | f | | | |]; try discriminate; try reflexivity.
    destruct f; try discriminate; reflexivity.
Qed.

Lemma format_time_accepted (x : pyobj) :
  in_timedelta_range x = true -> format_time x = Ok (formatted x).
Proof.
  intros Hx. destruct (in_timedelta_range_inv x Hx) as (us & Hus & Hr).
  unfold formatted. rewrite (format_time_clock x us Hus Hr). reflexivity.
Qed.

(** ** Strings *)

Lemma lstrip_spec (s : pystr) :
  exists l, s = l ++ lstrip s /\ forallb isspace l = true
            /\ match lstrip s with [] => True | c :: _ => isspace c = false end.
Proof.
  induction s as [| c t (l & Heq & Hl & Hhd)]; cbn [lstrip].
  - exists []. auto.
  - destruct (isspace c) eqn:Hc.
    + exists (c :: l). cbn [forallb app]. rewrite Hc, Hl. repeat split; [congruence | assumption].
    + exists []. cbn. auto.
Qed.

Lemma forallb_rev {A} (f : A -> bool) (l : list A) :
  forallb f l = true -> forallb f (rev l) = true.
Proof.
  rewrite !forallb_forall. intros H x Hx. apply H, in_rev, Hx.
Qed.

Lemma rstrip_spec (s : pystr) :
  exists r, s = rstrip s ++ r /\ forallb isspace r = true
            /\ match rev (rstrip s) with [] => True | c :: _ => isspace c = false end.
Proof.
  unfold rstrip. destruct (lstrip_spec (rev s)) as (l & Heq & Hl & Hhd).
  exists (rev l). rewrite rev_involutive. repeat split.
  - rewrite <- rev_app_distr, <- Heq, rev_involutive. reflexivity.
  - apply forallb_rev, Hl.
  - exact Hhd.
Qed.

(** [strip] removes white space at both ends and nothing else. *)
Lemma strip_spec (t : pystr) : trimmed_of t (strip t).
Proof.
  unfold strip. destruct (lstrip_spec t) as (l & Heq & Hl & Hhd).
  destruct (rstrip_spec (lstrip t)) as (r & Heq' & Hr & Hlast).
  exists l, r. repeat split; try assumption.
  - rewrite <- Heq'. exact Heq.
  - destruct (rstrip (lstrip t)) as [| c u] eqn:E; [exact I |].
    rewrite Heq' in Hhd. exact Hhd.
Qed.

Lemma uint_of_digit_chars (d : Decimal.uint) : uint_of_chars (digit_chars d) = Some d.
Proof.
  induction d; cbn [digit_chars uint_of_chars]; try reflexivity; rewrite IHd; reflexivity.
Qed.

Lemma digit_chars_no_LF (d : Decimal.uint) (rest : pystr) :
  first_line (digit_chars d ++ LF ++ rest) = digit_chars d.
Proof.
  induction d; cbn [digit_chars first_line app]; try reflexivity;
    cbn [N.eqb Pos.eqb]; rewrite IHd; reflexivity.
Qed.

Lemma N_to_uint_nonnil (n : N) : N.to_uint n <> Decimal.Nil.
Proof.
  destruct n as [| p]; cbn; [discriminate | apply DecimalPos.Unsigned.to_uint_nonnil].
Qed.

Lemma nat_of_str_of_nat (n : N) : nat_of_str (str_of_nat n) = Some n.
Proof.
  unfold nat_of_str, str_of_nat.
  destruct (digit_chars (N.to_uint n)) as [| c t] eqn:E.
  - exfalso. apply (N_to_uint_nonnil n). destruct (N.to_uint n); cbn in E; congruence.
  - rewrite <- E, uint_of_digit_chars. cbn. rewrite DecimalN.Unsigned.of_to. reflexivity.
Qed.

(** The index line of a block reads back as the index. *)
Lemma block_index_of_index (i : Z) (rest : pystr) :
  0 <= i -> block_index (str_of_int i ++ LF ++ rest) = Some (Z.to_N i).
Proof.
  intros Hi. unfold block_index.
  assert (Hs : str_of_int i = str_of_nat (Z.to_N i)) by (destruct i; [reflexivity .. | lia]).
  rewrite Hs. unfold str_of_nat at 1. rewrite digit_chars_no_LF.
  apply nat_of_str_of_nat.
Qed.

(** Widths of the zero-padded fields. *)
Lemma forall_below (P : nat -> bool) (n : nat) :
  forallb P (seq 0 n) = true -> forall k, (k < n)%nat -> P k = true.
Proof.
  intros H k Hk. rewrite forallb_forall in H. apply H, in_seq. lia.
Qed.

Lemma format_0d_3_length (ms : Z) :
  0 <= ms <= 999 -> List.length (format_0d 3 ms) = 3%nat.
Proof.
  intros H.
  pose proof (forall_below (fun k => Nat.eqb (List.length (format_0d 3 (Z.of_nat k))) 3) 1000
                ltac:(vm_compute; reflexivity) (Z.to_nat ms) ltac:(lia)) as Hk.
  cbv beta in Hk. rewrite Z2Nat.id in Hk by lia. apply Nat.eqb_eq, Hk.
Qed.

Lemma format_0d_2_length (v : Z) :
  0 <= v <= 99 -> List.length (format_0d 2 v) = 2%nat.
Proof.
  intros H.
  pose proof (forall_below (fun k => Nat.eqb (List.length (format_0d 2 (Z.of_nat k))) 2) 100
                ltac:(vm_compute; reflexivity) (Z.to_nat v) ltac:(lia)) as Hk.
  cbv beta in Hk. rewrite Z2Nat.id in Hk by lia. apply Nat.eqb_eq, Hk.
Qed.

(** ** The converter on well-formed transcripts *)

Lemma format_time_valid (x : pyobj) :
  valid_seconds x = true -> format_time x = Ok (formatted x).
Proof.
  unfold valid_seconds. rewrite !andb_true_iff. intros [[[Hn Hf] _] Hr].
  destruct (total_microseconds_finite x Hn Hf) as [us Hus].
  unfold in_timedelta_range in Hr. rewrite Hus in Hr. apply Z.leb_le in Hr.
  unfold formatted. rewrite (format_time_clock x us Hus Hr). reflexivity.
Qed.

Lemma srt_block_chunk (i : Z) (c : Chunk) :
  valid_seconds (fst (timestamp c)) = true ->
  valid_seconds (snd (timestamp c)) = true ->
  srt_block i (chunk_to_py c) = Ok (render_lines (block_lines i c)).
Proof.
  intros H0 H1. unfold srt_block.
  change (getitem (chunk_to_py c) (KStr (lit "timestamp")))
    with (Ok (A := pyobj) (PyList [fst (timestamp c); snd (timestamp c)])).
  cbn [bind].
  change (getitem (PyList [fst (timestamp c); snd (timestamp c)]) (KInt 0))
    with (Ok (A := pyobj) (fst (timestamp c))).
  change (getitem (PyList [fst (timestamp c); snd (timestamp c)]) (KInt 1))
    with (Ok (A := pyobj) (snd (timestamp c))).
  cbn [bind]. rewrite (format_time_valid _ H0). cbn [bind].
  rewrite (format_time_valid _ H1). cbn [bind].
  change (getitem (chunk_to_py c) (KStr (lit "text"))) with (Ok (A := pyobj) (PyStr (text c))).
  cbn [bind str_strip]. unfold render_lines, block_lines. cbn [map List.concat].
  rewrite app_nil_r, <- !app_assoc. reflexivity.
Qed.

Lemma srt_loop_chunks (cs : list Chunk) :
  (forall c, In c cs ->
     valid_seconds (fst (timestamp c)) = true /\ valid_seconds (snd (timestamp c)) = true) ->
  forall i acc, srt_loop (map chunk_to_py cs) i acc = Ok (acc ++ srt_blocks i cs).
Proof.
  induction cs as [| c rest IH]; intros Hwf i acc; cbn [map srt_loop srt_blocks].
  - rewrite app_nil_r. reflexivity.
  - destruct (Hwf c (or_introl eq_refl)) as [H0 H1].
    rewrite (srt_block_chunk i c H0 H1). cbn [bind].
    rewrite IH by (intros c' Hc'; apply Hwf; right; exact Hc').
    rewrite <- app_assoc. reflexivity.
Qed.

Lemma dict_get_chunks (t : TranscriptObject) :
  getitem (transcript_to_py t) (KStr (lit "chunks"))
  = Ok (PyList (map chunk_to_py (chunks t))).
Proof. unfold transcript_to_py. destruct (speakers t); reflexivity. Qed.

Lemma srt_content_of_transcript (t : TranscriptObject) :
  well_formed t -> srt_content_of (transcript_to_py t) = Ok (srt_blocks 1 (chunks t)).
Proof.
  intros Hwf. unfold srt_content_of. rewrite dict_get_chunks. cbn [bind py_iter].
  rewrite (srt_loop_chunks (chunks t) Hwf). reflexivity.
Qed.

Lemma join_srt_blocks (cs : list Chunk) :
  forall i, join LF (srt_blocks i cs) = srt_document i cs.
Proof.
  induction cs as [| c rest IH]; intros i; [reflexivity |].
  cbn [srt_blocks]. destruct rest as [| c' rest']; [reflexivity |].
  change (join LF (render_lines (block_lines i c) :: srt_blocks (i + 1) (c' :: rest')))
    with (render_lines (block_lines i c) ++ LF ++ join LF (srt_blocks (i + 1) (c' :: rest'))).
  rewrite IH. reflexivity.
Qed.

(** ** The converter on malformed input *)

Lemma raises_Raise {A} (e : pyexc) : raises (@Raise A e).
Proof. exists e. reflexivity. Qed.

(** One step of a chain of binds: either the first computation raises, or
    the chain goes on with its value. *)
Ltac bind_step :=
  match goal with
  | |- raises (bind ?r _) =>
      let E := fresh "E" in
      destruct r eqn:E; cbn [bind]; [| apply raises_Raise]
  end.

Lemma seq_index_nil {A} (i : Z) : seq_index (@nil A) i = Raise IndexError.
Proof.
  unfold seq_index. cbn [List.length Z.of_nat].
  destruct (i <? 0) eqn:Hi.
  - rewrite Z.add_0_r, Hi. reflexivity.
  - replace (0 <=? i) with true; [rewrite orb_true_r; reflexivity |].
    symmetry. apply Z.leb_le. apply Z.ltb_ge in Hi. exact Hi.
Qed.

Lemma seq_index_0 {A} (a : A) (l : list A) : seq_index (a :: l) 0 = Ok a.
Proof.
  unfold seq_index. cbn [List.length].
  replace (0 <? 0) with false by reflexivity.
  replace (Z.of_nat (S (List.length l)) <=? 0) with false by (symmetry; apply Z.leb_gt; lia).
  reflexivity.
Qed.

Lemma seq_index_1 {A} (a b : A) (l : list A) : seq_index (a :: b :: l) 1 = Ok b.
Proof.
  unfold seq_index. cbn [List.length].
  replace (1 <? 0) with false by reflexivity.
  replace (Z.of_nat (S (S (List.length l))) <=? 1) with false by (symmetry; apply Z.leb_gt; lia).
  reflexivity.
Qed.

Lemma format_time_not_number (x : pyobj) :
  is_number x = false -> raises (format_time x).
Proof.
  destruct x; cbn [is_number]; try discriminate; intros _;
    unfold format_time, timedelta_of_seconds; cbn [total_microseconds bind];
    apply raises_Raise.
Qed.

Lemma raises_bind {A B} (r : result A) (k : A -> result B) :
  raises r -> raises (bind r k).
Proof. intros [e ->]. apply raises_Raise. Qed.

(** A time stamp that does not give two numbers at the positions 0 and 1
    makes the two formatting steps fail, whatever follows them. *)
Lemma timestamp_steps_raise (ts : pyobj) (k : pystr -> pystr -> result pystr) :
  numbers_at_0_and_1 ts = false ->
  raises (t0 <- getitem ts (KInt 0) ;;
          start_time <- format_time t0 ;;
          t1 <- getitem ts (KInt 1) ;;
          end_time <- format_time t1 ;;
          k start_time end_time).
Proof.
  unfold numbers_at_0_and_1. intros Hts.
  destruct (getitem ts (KInt 0)) as [a | e]; cbn [bind]; [| apply raises_Raise].
  destruct (is_number a) eqn:Ha; [| apply raises_bind, format_time_not_number, Ha].
  bind_step.
  destruct (getitem ts (KInt 1)) as [b | e]; cbn [bind]; [| apply raises_Raise].
  apply raises_bind, format_time_not_number. exact Hts.
Qed.

(** Among the values of the model, the time stamps that give two numbers are
    the lists and the tuples that start with two numbers. *)
Lemma numbers_at_0_and_1_sequences (ts : pyobj) :
  numbers_at_0_and_1 ts = true
  <-> exists a b rest,
        sequence_items ts = Some (a :: b :: rest)
        /\ is_number a = true /\ is_number b = true.
Proof.
  assert (Hseq : forall l : list pyobj,
             match seq_index l 0, seq_index l 1 with
             | Ok a, Ok b => is_number a && is_number b
             | _, _ => false
             end = true
             <-> exists a b rest, l = a :: b :: rest /\ is_number a = true /\ is_number b = true).
  { intros l. destruct l as [| a [| b rest]].
    - rewrite seq_index_nil. split; [discriminate | intros (a & b & r & H & _); discriminate].
    - rewrite seq_index_0. change (seq_index [a] 1) with (@Raise pyobj IndexError).
      split; [discriminate | intros (a' & b & r & H & _); discriminate].
    - rewrite seq_index_0, seq_index_1. rewrite andb_true_iff. split.
      + intros [Ha Hb]. exists a, b, rest. auto.
      + intros (a' & b' & r & H & Ha & Hb). injection H as <- <- <-. auto. }
  unfold numbers_at_0_and_1.
  destruct ts as [| b | z | f | s | l | d | l]; cbn [getitem sequence_items];
    try (split; [discriminate | intros (a & b' & r & H & _); discriminate]).
  - (* a string: its characters are not numbers *)
    split; [| intros (a & b' & r & H & _); discriminate].
    destruct (seq_index s 0); cbn [bind]; [| discriminate].
    destruct (seq_index s 1); cbn [bind]; discriminate.
  - rewrite Hseq. split; intros (a & b & r & H & Hab); exists a, b, r; split; auto; congruence.
  - rewrite Hseq. split; intros (a & b & r & H & Hab); exists a, b, r; split; auto; congruence.
Qed.

Lemma getitem_field (c : pyobj) (k : pystr) (v : pyobj) :
  field c k = Some v -> getitem c (KStr k) = Ok v.
Proof.
  destruct c; cbn [field]; try discriminate. intros H. cbn [getitem]. rewrite H. reflexivity.
Qed.

Lemma getitem_no_field (c : pyobj) (k : pystr) :
  field c k = None -> raises (getitem c (KStr k)).
Proof.
  destruct c; cbn [field getitem]; intros H; try apply raises_Raise.
  rewrite H. apply raises_Raise.
Qed.

Lemma srt_block_raises (i : Z) (c : pyobj) :
  field c (lit "timestamp") = None
  \/ field c (lit "text") = None
  \/ (exists ts, field c (lit "timestamp") = Some ts /\ numbers_at_0_and_1 ts = false) ->
  raises (srt_block i c).
Proof.
  intros H. unfold srt_block.
  destruct (field c (lit "timestamp")) as [ts |] eqn:Hts.
  2:{ apply raises_bind, getitem_no_field, Hts. }
  rewrite (getitem_field _ _ _ Hts). cbn [bind].
  destruct H as [H | [H | (ts' & H & Hbad)]]; [discriminate | |].
  - do 4 bind_step.
    apply raises_bind, getitem_no_field, H.
  - injection H as <-. apply (timestamp_steps_raise ts _ Hbad).
Qed.

Lemma srt_loop_raises (items : list pyobj) (c : pyobj) :
  In c items -> (forall i, raises (srt_block i c)) ->
  forall i acc, raises (srt_loop items i acc).
Proof.
  intros Hin Hc. induction items as [| x rest IH]; [destruct Hin |].
  intros i acc. cbn [srt_loop].
  destruct Hin as [-> | Hin].
  - apply raises_bind, Hc.
  - bind_step. apply IH, Hin.
Qed.

(** Structurally wrong input makes the conversion raise. *)
Lemma convert_raises_on_malformed (data : pyobj) :
  malformed numbers_at_0_and_1 data -> raises (convert_object_to_srt data).
Proof.
  intros [Hno | (cs & items & c & Hcs & Hit & Hin & Hbad)];
    unfold convert_object_to_srt, srt_content_of.
  - apply raises_bind, raises_bind, getitem_no_field, Hno.
  - rewrite (getitem_field _ _ _ Hcs). cbn [bind]. rewrite Hit. cbn [bind].
    apply raises_bind. apply (srt_loop_raises items c Hin).
    intros i. apply srt_block_raises, Hbad.
Qed.

(** ** The exceptions of the conversion *)

Lemma seq_index_error {A} (l : list A) (i : Z) (e : pyexc) :
  seq_index l i = Raise e -> e = IndexError.
Proof.
  unfold seq_index.
  destruct ((_ <? 0) || (_ <=? _)); [congruence |].
  destruct (nth_error l _); congruence.
Qed.

Lemma getitem_error (o : pyobj) (k : pykey) (e : pyexc) :
  getitem o k = Raise e -> conversion_error e = true.
Proof.
  destruct o as [| b | z | f | s | l | d | l], k as [key | i]; cbn [getitem];
    try (intros H; injection H as <-; reflexivity).
  - destruct (seq_index s i) as [c |] eqn:E; cbn [bind]; [discriminate |].
    intros H. injection H as <-. rewrite (seq_index_error _ _ _ E). reflexivity.
  - intros H. rewrite (seq_index_error _ _ _ H). reflexivity.
  - destruct (dict_get d key); [discriminate |]. intros H. injection H as <-. reflexivity.
  - intros H. rewrite (seq_index_error _ _ _ H). reflexivity.
Qed.

Lemma format_time_raises_class (x : pyobj) (e : pyexc) :
  format_time x = Raise e -> conversion_error e = true.
Proof.
  destruct (in_timedelta_range x) eqn:Hr.
  - rewrite (format_time_accepted x Hr). discriminate.
  - rewrite (format_time_rejected x Hr). intros H. injection H as <-.
    destruct x as [| b | z | f | | | |]; try reflexivity. destruct f; reflexivity.
Qed.

Lemma srt_block_error (i : Z) (c : pyobj) (e : pyexc) :
  srt_block i c = Raise e -> conversion_error e = true.
Proof.
  unfold srt_block. intros H.
  destruct (getitem c (KStr (lit "timestamp"))) as [ts |] eqn:Hts; cbn [bind] in H;
    [| injection H as <-; exact (getitem_error _ _ _ Hts)].
  destruct (getitem ts (KInt 0)) as [t0 |] eqn:H0; cbn [bind] in H;
    [| injection H as <-; exact (getitem_error _ _ _ H0)].
  destruct (format_time t0) as [s0 |] eqn:Hf0; cbn [bind] in H;
    [| injection H as <-; exact (format_time_raises_class _ _ Hf0)].
  destruct (getitem ts (KInt 1)) as [t1 |] eqn:H1; cbn [bind] in H;
    [| injection H as <-; exact (getitem_error _ _ _ H1)].
  destruct (format_time t1) as [s1 |] eqn:Hf1; cbn [bind] in H;
    [| injection H as <-; exact (format_time_raises_class _ _ Hf1)].
  destruct (getitem c (KStr (lit "text"))) as [txt |] eqn:Htxt; cbn [bind] in H;
    [| injection H as <-; exact (getitem_error _ _ _ Htxt)].
  destruct txt; cbn [str_strip bind] in H; try discriminate;
    injection H as <-; reflexivity.
Qed.

Lemma srt_loop_error (items : list pyobj) :
  forall i acc e, srt_loop items i acc = Raise e -> conversion_error e = true.
Proof.
  induction items as [| c rest IH]; intros i acc e; cbn [srt_loop]; [discriminate |].
  destruct (srt_block i c) as [b |] eqn:Hb; cbn [bind].
  - apply IH.
  - intros H. injection H as <-. exact (srt_block_error _ _ _ Hb).
Qed.

(** Whatever the input, an exception of the conversion is a [KeyError], an
    [IndexError], a [TypeError], an [AttributeError], a [ValueError] or an
    [OverflowError]. *)
Lemma convert_error_class (data : pyobj) (e : pyexc) :
  convert_object_to_srt data = Raise e -> conversion_error e = true.
Proof.
  unfold convert_object_to_srt, srt_content_of. intros H.
  destruct (getitem data (KStr (lit "chunks"))) as [cs |] eqn:Hcs; cbn [bind] in H;
    [| injection H as <-; exact (getitem_error _ _ _ Hcs)].
  destruct (py_iter cs) as [items |] eqn:Hit; cbn [bind] in H.
  - destruct (srt_loop items 1 []) as [bs |] eqn:Hl; cbn [bind] in H; [discriminate |].
    injection H as <-. exact (srt_loop_error _ _ _ _ Hl).
  - injection H as <-. destruct cs; cbn [py_iter] in Hit; try discriminate;
      injection Hit as <-; reflexivity.
Qed.

(** ** [process_object] *)

Section WriterFacts.

Variable FS : Type.
Variable os_open : pystr -> FS -> result unit * FS.
Variable os_write : pystr -> pystr -> FS -> result unit * FS.
Variable os_close : pystr -> FS -> result unit * FS.
Variable print_error : pystr -> list pystr -> option pyexc.
Variable exc_str : pyexc -> pystr.

(** The handler: the error line of [e] is printed in the world left by the
    failure. *)
Lemma process_object_conversion_error (data : pyobj) (path : pystr) (w : world FS) (e : pyexc) :
  convert_object_to_srt data = Raise e ->
  process_object FS os_open os_write os_close print_error exc_str data path w
  = print FS print_error (error_message (exc_str e)) w.
Proof.
  intros H. unfold process_object, process_object_try. rewrite H. reflexivity.
Qed.

Lemma process_object_io_error (data : pyobj) (path srt : pystr) (w : world FS)
      (e : pyexc) (f' : FS) :
  convert_object_to_srt data = Ok srt ->
  with_open_write FS os_open os_write os_close path srt (fs w) = (Raise e, f') ->
  process_object FS os_open os_write os_close print_error exc_str data path w
  = print FS print_error (error_message (exc_str e)) {| fs := f'; stdout := stdout w |}.
Proof.
  intros H Hio. unfold process_object, process_object_try. rewrite H, Hio. reflexivity.
Qed.

(** After the file output the success line is printed; a failure to print
    it is handled like any other. *)
Lemma process_object_written (data : pyobj) (path srt : pystr) (w : world FS) (f' : FS) :
  convert_object_to_srt data = Ok srt ->
  with_open_write FS os_open os_write os_close path srt (fs w) = (Ok tt, f') ->
  process_object FS os_open os_write os_close print_error exc_str data path w
  = match print_error saved_message (stdout w) with
    | None => (Ok tt, {| fs := f'; stdout := stdout w ++ [saved_message] |})
    | Some e => print FS print_error (error_message (exc_str e)) {| fs := f'; stdout := stdout w |}
    end.
Proof.
  intros H Hio. unfold process_object, process_object_try. rewrite H, Hio.
  unfold print. cbn [stdout fs].
  destruct (print_error saved_message (stdout w)); reflexivity.
Qed.

(** The outcome of [with open ...: f.write ...] from those of its three
    operations. *)
Lemma with_open_write_open_fails (path srt : pystr) (f f1 : FS) (e : pyexc) :
  os_open path f = (Raise e, f1) ->
  with_open_write FS os_open os_write os_close path srt f = (Raise e, f1).
Proof. intros H. unfold with_open_write. rewrite H. reflexivity. Qed.

Lemma with_open_write_close_fails (path srt : pystr) (f f1 f2 f3 : FS)
      (rw : result unit) (e : pyexc) :
  os_open path f = (Ok tt, f1) -> os_write path srt f1 = (rw, f2) ->
  os_close path f2 = (Raise e, f3) ->
  with_open_write FS os_open os_write os_close path srt f = (Raise e, f3).
Proof. intros H1 H2 H3. unfold with_open_write. rewrite H1, H2, H3. reflexivity. Qed.

Lemma with_open_write_closed (path srt : pystr) (f f1 f2 f3 : FS) (rw : result unit) :
  os_open path f = (Ok tt, f1) -> os_write path srt f1 = (rw, f2) ->
  os_close path f2 = (Ok tt, f3) ->
  with_open_write FS os_open os_write os_close path srt f = (rw, f3).
Proof. intros H1 H2 H3. unfold with_open_write. rewrite H1, H2, H3. reflexivity. Qed.

(** Conversely, a file output that went through opened, wrote and closed
    the file. *)
Lemma with_open_write_ok (path srt : pystr) (f f' : FS) :
  with_open_write FS os_open os_write os_close path srt f = (Ok tt, f') ->
  exists f1 f2,
    os_open path f = (Ok tt, f1) /\ os_write path srt f1 = (Ok tt, f2)
    /\ os_close path f2 = (Ok tt, f').
Proof.
  unfold with_open_write.
  destruct (os_open path f) as [[[] | e1] f1] eqn:Ho; [| discriminate].
  destruct (os_write path srt f1) as [rw f2] eqn:Hw.
  destruct (os_close path f2) as [[[] | e3] f3] eqn:Hc; [| discriminate].
  intros H. injection H as H1 H2. subst rw f3. exists f1, f2.
  split; [reflexivity | split; assumption].
Qed.

End WriterFacts.

(** ** The microsecond count of a float and its exact value *)

(** Rounding a positive mantissa that stands for a magnitude below [2^K]:
    the result is [mf * 2^(ex + n)], and it differs from the exact value by
    one unit of the target precision at most. *)
Lemma binary_round_aux_error (s : bool) (mx ex K : Z) :
  0 < mx -> Zdigits2 mx + ex <= K -> -1074 <= K - 53 -> K <= 100 -> ex <= 0 ->
  exists mf n,
    0 <= mf /\ 0 <= n
    /\ Z.abs (mf * 2 ^ n - mx) <= 2 ^ Z.max 0 (K - 53 - ex)
    /\ binary_round_aux prec emax s mx ex loc_Exact =
       match mf with
       | Z0 => S754_zero s
       | Zpos m => S754_finite s m (ex + n)
       | Zneg _ => S754_nan
       end.
Proof.
  intros Hmx HK HKlo HKhi Hex.
  destruct (binary_round_aux_shape s mx ex loc_Exact ltac:(lia)) as (mr & Hmr & Hexact & Heq).
  cbn zeta in Heq.
  set (D := Zdigits2 mx) in *.
  assert (HD : 0 <= D) by apply Zdigits2_nonneg.
  assert (Hf1 : fexp prec emax (D + ex) = Z.max (D + ex - 53) (-1074)) by reflexivity.
  set (F1 := fexp prec emax (D + ex)) in *.
  set (n1 := Z.max 0 (F1 - ex)) in *.
  set (B := Z.max 0 (K - 53 - ex)).
  assert (Hn1 : 0 <= n1 <= B) by (unfold n1, B; lia).
  assert (Hp1 : 0 < 2 ^ n1) by (apply pow2_pos; lia).
  assert (HpB : 2 ^ n1 <= 2 ^ B) by (apply Z.pow_le_mono_r; lia).
  set (m1 := mx / 2 ^ n1) in *.
  assert (Hm1 : m1 * 2 ^ n1 <= mx < (m1 + 1) * 2 ^ n1).
  { unfold m1. pose proof (Z.div_mod mx (2 ^ n1) ltac:(lia)) as E.
    pose proof (Z.mod_pos_bound mx (2 ^ n1) Hp1). nia. }
  assert (Hm1nn : 0 <= m1) by (unfold m1; apply Z.div_pos; lia).
  (* the rounded mantissa *)
  assert (Herr : Z.abs (mr * 2 ^ n1 - mx) <= 2 ^ n1).
  { destruct Hmr as [-> | ->]; nia. }
  (* it has at most 53 bits, or is [2^53] *)
  assert (Hmr53 : 0 <= mr <= 2 ^ 53).
  { destruct (Z.le_gt_cases (F1 - ex) 0) as [Hle | Hgt].
    - rewrite (Hexact eq_refl Hle).
      assert (D <= 53) by lia.
      pose proof (Zdigits2_upper mx ltac:(lia)) as Hu. fold D in Hu.
      assert (2 ^ D <= 2 ^ 53) by (apply Z.pow_le_mono_r; lia). lia.
    - assert (Hn1' : n1 = F1 - ex) by (unfold n1; lia).
      pose proof (div_pow2_lt mx D n1 HD ltac:(lia)
                    (conj (Z.lt_le_incl _ _ Hmx) (Zdigits2_upper mx ltac:(lia)))) as Hb.
      fold m1 in Hb.
      assert (2 ^ Z.max (D - n1) 0 <= 2 ^ 53) by (apply Z.pow_le_mono_r; lia).
      destruct Hmr as [-> | ->]; lia. }
  set (e1 := ex + n1) in *.
  assert (He1 : -1074 <= e1) by (unfold e1, n1; lia).
  set (Dr := Zdigits2 mr) in *.
  assert (Hf2 : fexp prec emax (Dr + e1) = Z.max (Dr + e1 - 53) (-1074)) by reflexivity.
  rewrite Hf2 in Heq.
  set (n2 := Z.max 0 (Z.max (Dr + e1 - 53) (-1074) - e1)) in *.
  assert (Hn2 : n2 = Z.max 0 (Dr - 53)) by (unfold n2; lia).
  assert (Hshift : 0 <= n2 /\ mr / 2 ^ n2 * 2 ^ n2 = mr).
  { destruct (Z.eq_dec mr (2 ^ 53)) as [E | NE].
    - assert (Dr = 54).
      { unfold Dr. rewrite E. reflexivity. }
      rewrite Hn2. replace (Z.max 0 (Dr - 53)) with 1 by lia. rewrite E.
      split; [lia | reflexivity].
    - assert (Dr <= 53).
      { unfold Dr. apply Zdigits2_le; lia. }
      rewrite Hn2. replace (Z.max 0 (Dr - 53)) with 0 by lia.
      cbn [Z.pow]. rewrite Z.div_1_r. lia. }
  destruct Hshift as [Hn2nn Hshift].
  exists (mr / 2 ^ n2), (n1 + n2).
  assert (Hp2 : 0 < 2 ^ n2) by (apply pow2_pos; lia).
  split; [apply Z.div_pos; lia |]. split; [lia |]. split.
  - rewrite Z.pow_add_r by lia.
    replace (mr / 2 ^ n2 * (2 ^ n1 * 2 ^ n2)) with (mr / 2 ^ n2 * 2 ^ n2 * 2 ^ n1) by ring.
    rewrite Hshift. fold B. lia.
  - rewrite Heq. destruct (mr / 2 ^ n2) as [| mf | mf]; try reflexivity.
    replace (ex + (n1 + n2)) with (e1 + n2) by (unfold e1; lia).
    assert (n2 <= 1).
    { rewrite Hn2. assert (Dr <= 54); [| lia].
      unfold Dr. apply Zdigits2_le; [lia |].
      assert (2 ^ 53 < 2 ^ 54) by reflexivity. lia. }
    destruct (Z.leb_spec (e1 + n2) (emax - prec)) as [_ | Hbad]; [reflexivity |].
    unfold emax, prec in Hbad. unfold e1, n1 in Hbad. lia.
Qed.

(** [round] returns an integer within one half of its argument; the
    inequality is written at a scale [2^S] that makes both sides integers. *)
Lemma py_round_error (s : bool) (m : positive) (e : Z) :
  exists a,
    py_round (S754_finite s m e) = Ok (if s then - a else a) /\ 0 <= a
    /\ forall S, 0 <= S -> 0 <= S + e ->
         2 * Z.abs (a * 2 ^ S - Zpos m * 2 ^ (S + e)) <= 2 ^ S.
Proof.
  destruct e as [| p | k].
  - exists (Zpos m). cbn [py_round]. rewrite Z.shiftl_0_r.
    split; [reflexivity | split; [lia |]].
    intros S HS _. rewrite Z.add_0_r, Z.sub_diag. cbn [Z.abs].
    pose proof (pow2_pos S HS). lia.
  - exists (Zpos m * 2 ^ Zpos p). cbn [py_round]. rewrite Z.shiftl_mul_pow2 by lia.
    pose proof (pow2_pos (Zpos p) ltac:(lia)).
    split; [reflexivity | split; [nia |]].
    intros S HS _. rewrite Z.pow_add_r by lia.
    replace (Zpos m * 2 ^ Zpos p * 2 ^ S - Zpos m * (2 ^ S * 2 ^ Zpos p)) with 0 by ring.
    cbn [Z.abs]. pose proof (pow2_pos S HS). lia.
  - cbn [py_round].
    rewrite Z.shiftr_div_pow2, Z.land_ones, Z.shiftl_1_l by lia.
    set (P := 2 ^ Zpos k).
    assert (HP : 0 < P) by (apply pow2_pos; lia).
    assert (Hhalf : P = 2 * 2 ^ (Zpos k - 1)).
    { unfold P. replace (Zpos k) with (1 + (Zpos k - 1)) at 1 by lia.
      rewrite Z.pow_add_r by lia. reflexivity. }
    set (half := 2 ^ (Zpos k - 1)) in *.
    pose proof (Z.div_mod (Zpos m) P ltac:(lia)) as Edm.
    pose proof (Z.mod_pos_bound (Zpos m) P HP) as Hr.
    set (q := Zpos m / P) in *. set (r := Zpos m mod P) in *.
    assert (Hq : 0 <= q) by (unfold q; apply Z.div_pos; lia).
    set (a := match r ?= half with
              | Lt => q
              | Gt => q + 1
              | Eq => if Z.even q then q else q + 1
              end).
    assert (Ha : 0 <= a /\ 2 * Z.abs (a * P - Zpos m) <= P).
    { unfold a. destruct (Z.compare_spec r half) as [E | L | G].
      - destruct (Z.even q); split; nia.
      - split; nia.
      - split; nia. }
    exists a. split; [reflexivity | split; [tauto |]].
    intros S HS HSe.
    assert (E1 : 2 ^ S = P * 2 ^ (S + Zneg k)).
    { unfold P. rewrite <- Z.pow_add_r by lia. f_equal. lia. }
    pose proof (pow2_pos (S + Zneg k) HSe) as HT.
    set (T := 2 ^ (S + Zneg k)) in *.
    rewrite E1.
    replace (a * (P * T) - Zpos m * T) with ((a * P - Zpos m) * T) by ring.
    rewrite Z.abs_mul, (Z.abs_eq T) by lia.
    destruct Ha as [_ Ha]. nia.
Qed.

Lemma Zdigits2_shift (p : positive) (d : Z) :
  0 <= d -> Zdigits2 (Zpos p * 2 ^ d) = Zdigits2 (Zpos p) + d.
Proof.
  intros Hd. cbn [Zdigits2]. pose proof (digits2_pos_bounds p) as Hb.
  apply Zdigits2_eq; [lia |].
  pose proof (scale_bounds (Zpos p) (Zpos (digits2_pos p)) d ltac:(lia) Hd Hb) as Hs.
  replace (Zpos (digits2_pos p) + d - 1) with (Zpos (digits2_pos p) - 1 + d) by lia.
  exact Hs.
Qed.

(** The fractional part of a canonical float is computed exactly. *)
Lemma frac_of_float_exact (s : bool) (m k : positive) :
  bounded prec emax m (Zneg k) = true ->
  match frac_of_float (S754_finite s m (Zneg k)) with
  | S754_zero s' => s' = s /\ Zpos m mod 2 ^ Zpos k = 0
  | S754_finite s' mz ez =>
      s' = s /\ ez <= Zneg k /\ Zpos mz = (Zpos m mod 2 ^ Zpos k) * 2 ^ (Zneg k - ez)
  | _ => False
  end.
Proof.
  intros Hb. unfold bounded, canonical_mantissa in Hb.
  apply andb_true_iff in Hb. destruct Hb as [Hc _]. apply Z.eqb_eq in Hc.
  assert (Hf : fexp prec emax (Zpos (digits2_pos m) + Zneg k)
               = Z.max (Zpos (digits2_pos m) + Zneg k - 53) (-1074)) by reflexivity.
  rewrite Hf in Hc. clear Hf.
  cbn [frac_of_float]. rewrite Z.land_ones by lia.
  pose proof (Z.mod_pos_bound (Zpos m) (2 ^ Zpos k) (pow2_pos (Zpos k) ltac:(lia))) as Hr.
  pose proof (Z.mod_le (Zpos m) (2 ^ Zpos k) ltac:(lia) (pow2_pos (Zpos k) ltac:(lia))) as Hle.
  set (r := Zpos m mod 2 ^ Zpos k) in *. clearbody r.
  assert (Hnorm : binary_normalize prec emax (if s then - r else r) (Zneg k) s
                  = match r with
                    | Zpos r' => binary_round prec emax s r' (Zneg k)
                    | _ => S754_zero s
                    end).
  { destruct r as [| r' | r']; [destruct s; reflexivity | destruct s; reflexivity | lia]. }
  rewrite Hnorm. clear Hnorm.
  destruct r as [| r' | r']; [split; reflexivity | | lia].
  unfold binary_round.
  assert (Hdr : Zpos (digits2_pos r') <= Zpos (digits2_pos m)).
  { apply (Zdigits2_mono (Zpos r') (Zpos m)). lia. }
  set (F := fexp prec emax (Zpos (digits2_pos r') + Zneg k)).
  assert (HF : F = Z.max (Zpos (digits2_pos r') + Zneg k - 53) (-1074)) by reflexivity.
  destruct (shl_align_spec r' (Zneg k) F) as [Hez Hmz].
  destruct (shl_align r' (Zneg k) F) as [mz ez]. cbn [fst snd] in Hez, Hmz.
  assert (Hd : 0 <= Zneg k - ez) by lia.
  rewrite binary_round_aux_exact.
  - split; [reflexivity | split; [lia |]]. rewrite Hmz, Hez. reflexivity.
  - rewrite Hmz, <- Hez, Zdigits2_shift by lia. cbn [Zdigits2].
    replace (Zpos (digits2_pos r') + (Zneg k - ez) + ez) with (Zpos (digits2_pos r') + Zneg k)
      by lia.
    fold F. lia.
  - unfold emax, prec. lia.
Qed.

(** The arithmetic that puts the two rounding errors together. *)
Lemma microsecond_error_sum (a r P Q mfn mx : Z) :
  0 < P -> 0 < Q ->
  mx = r * Q * 8589934592000000 ->
  2 * Z.abs (a * (P * Q * 2 ^ 33) - mfn) <= P * Q * 2 ^ 33 ->
  Z.abs (mfn - mx) <= P * Q ->
  Z.abs (a * P - r * 1000000) * 2 ^ 33 <= (2 ^ 32 + 1) * P.
Proof.
  intros HP HQ Emx H1 H2.
  change (2 ^ 33) with 8589934592 in *. change (2 ^ 32 + 1) with 4294967297.
  set (X := a * P - r * 1000000).
  assert (E : a * (P * Q * 8589934592) - mx = Q * 8589934592 * X)
    by (rewrite Emx; unfold X; ring).
  assert (H : 2 * Z.abs (Q * 8589934592 * X) <= P * Q * 8589934592 + 2 * (P * Q)).
  { rewrite <- E. lia. }
  rewrite Z.abs_mul, (Z.abs_eq (Q * 8589934592)) in H by lia.
  set (Y := Z.abs X) in *.
  assert (HY : 0 <= Y) by apply Z.abs_nonneg.
  assert (H' : Q * (17179869184 * Y) <= Q * (P * 8589934594)) by nia.
  apply Z.mul_le_mono_pos_l in H'; lia.
Qed.

(** The microsecond count that [timedelta] computes from a float lies within
    [1/2 + 2^-33] of the exact value. *)
Lemma total_microseconds_near_value (f : spec_float) (us : Z) :
  valid_binary prec emax f = true ->
  total_microseconds (PyFloat f) = Ok us ->
  microseconds_of_value (PyFloat f) us.
Proof.
  intros Hv Hus. unfold microseconds_of_value.
  destruct f as [s | s | | s m e]; try discriminate.
  - cbn in Hus. injection Hus as <-. cbn. lia.
  - cbn [valid_binary] in Hv.
    unfold total_microseconds in Hus. rewrite float_of_int_us_per_second in Hus.
    destruct e as [| p | k].
    + unfold float_mul in Hus. cbn [int_of_float frac_of_float bind SFmul py_round] in Hus.
      rewrite Z.shiftl_0_r in Hus. injection Hus as <-.
      cbn [float_scale float_num]. change (2 ^ 0) with 1. unfold us_per_second.
      rewrite !Z.mul_1_r.
      replace (_ - _) with 0 by (destruct s; lia). cbn. lia.
    + unfold float_mul in Hus. cbn [int_of_float frac_of_float bind SFmul py_round] in Hus.
      rewrite Z.shiftl_mul_pow2 in Hus by lia.
      cbn [float_scale float_num].
      remember (Zpos m * 2 ^ Zpos p) as v eqn:Ev. clear Ev.
      injection Hus as <-.
      change (2 ^ 0) with 1. unfold us_per_second.
      rewrite Z.mul_1_r.
      replace (_ - _) with 0 by (destruct s; lia). cbn. lia.
    + cbn [int_of_float bind] in Hus. rewrite Z.shiftr_div_pow2 in Hus by lia.
      cbn [float_scale float_num].
      set (P := 2 ^ Zpos k) in *.
      assert (HP : 0 < P) by (apply pow2_pos; lia).
      pose proof (Z.div_mod (Zpos m) P ltac:(lia)) as Edm.
      pose proof (Z.mod_pos_bound (Zpos m) P HP) as Hr.
      pose proof (frac_of_float_exact s m k Hv) as Hfrac. fold P in Hfrac.
      set (W := Zpos m / P) in *. set (r := Zpos m mod P) in *.
      (* it is enough to bound the rounded fraction *)
      assert (Hgoal : forall a,
                 us = (if s then - W else W) * us_per_second + (if s then - a else a) ->
                 Z.abs (a * P - r * 1000000) * 2 ^ 33 <= (2 ^ 32 + 1) * P ->
                 Z.abs (us * P - (if s then - Zpos m else Zpos m) * 1000000) * 2 ^ 33
                 <= (2 ^ 32 + 1) * P).
      { intros a -> Ha. unfold us_per_second.
        replace (Z.abs (((if s then - W else W) * 1000000 + (if s then - a else a)) * P
                        - (if s then - Zpos m else Zpos m) * 1000000))
          with (Z.abs (a * P - r * 1000000)); [exact Ha |].
        rewrite Edm. destruct s.
        - replace ((- W * 1000000 + - a) * P - - (P * W + r) * 1000000)
            with (- (a * P - r * 1000000)) by ring.
          rewrite Z.abs_opp. reflexivity.
        - f_equal. ring. }
      destruct (frac_of_float (S754_finite s m (Zneg k))) as [s' | s' | | s' mz ez];
        try contradiction.
      * (* the fraction is zero *)
        destruct Hfrac as [-> Hr0]. unfold float_mul in Hus.
        cbn [SFmul py_round bind] in Hus. injection Hus as Hus.
        apply (Hgoal 0).
        -- rewrite <- Hus. destruct s; reflexivity.
        -- rewrite Hr0. replace (0 * P - 0 * 1000000) with 0 by ring.
           change (Z.abs 0 * 2 ^ 33) with 0. change (2 ^ 32 + 1) with 4294967297.
           clearbody P. lia.
      * destruct Hfrac as (-> & Hez & Hmz).
        unfold float_mul in Hus. cbn [SFmul] in Hus.
        rewrite xorb_false_r in Hus.
        set (d := Zneg k - ez) in *.
        assert (Hd : 0 <= d) by (unfold d; lia).
        set (Q := 2 ^ d) in *.
        assert (HQ : 0 < Q) by (apply pow2_pos; lia).
        assert (Hrpos : 0 < r) by nia.
        set (mx := Zpos (mz * 8589934592000000)) in *.
        assert (Emx : mx = r * Q * 8589934592000000).
        { unfold mx. rewrite Pos2Z.inj_mul, Hmz. reflexivity. }
        assert (HPQ : 2 ^ (Zpos k + d) = P * Q).
        { unfold P, Q. apply Z.pow_add_r; lia. }
        assert (Hdig : Zdigits2 mx + (ez + -33) <= 20).
        { assert (Zdigits2 mx <= 53 + Zpos k + d); [| unfold d; lia].
          apply Zdigits2_le; [lia |]. split; [lia |].
          replace (53 + Zpos k + d) with (Zpos k + d + 53) by lia.
          rewrite Z.pow_add_r, HPQ by lia. change (2 ^ 53) with 9007199254740992.
          rewrite Emx. nia. }
        destruct (binary_round_aux_error s mx (ez + -33) 20 ltac:(lia) Hdig ltac:(lia) ltac:(lia)
                    ltac:(lia)) as (mf & n & Hmf & Hn & Herr & Hround).
        replace (Z.max 0 (20 - 53 - (ez + -33))) with (Zpos k + d) in Herr by (unfold d; lia).
        rewrite HPQ in Herr.
        rewrite Hround in Hus. clear Hround.
        assert (HS : 2 ^ (Zpos k + d + 33) = P * Q * 2 ^ 33).
        { rewrite Z.pow_add_r, HPQ by lia. reflexivity. }
        destruct mf as [| mf | mf]; [| | lia].
        -- cbn [py_round bind] in Hus. injection Hus as Hus.
           apply (Hgoal 0); [rewrite <- Hus; destruct s; reflexivity |].
           apply (microsecond_error_sum 0 r P Q (0 * 2 ^ n) mx HP HQ Emx); [| exact Herr].
           cbn. nia.
        -- destruct (py_round_error s mf (ez + -33 + n)) as (a & Hround & Ha & Hhalf).
           rewrite Hround in Hus. cbn [bind] in Hus. injection Hus as Hus.
           apply (Hgoal a); [rewrite <- Hus; reflexivity |].
           apply (microsecond_error_sum a r P Q (Zpos mf * 2 ^ n) mx HP HQ Emx); [| exact Herr].
           specialize (Hhalf (Zpos k + d + 33) ltac:(lia) ltac:(unfold d; lia)).
           replace (Zpos k + d + 33 + (ez + -33 + n)) with n in Hhalf by (unfold d; lia).
           rewrite HS in Hhalf. exact Hhalf.
Qed.

(** ** Reading a document back *)

Lemma no_LF_app (a b : pystr) : no_LF a -> no_LF b -> no_LF (a ++ b).
Proof. unfold no_LF. intros Ha Hb. rewrite forallb_app, Ha, Hb. reflexivity. Qed.

Lemma split_lines_cons (s : pystr) : exists l ls, split_lines s = l :: ls.
Proof.
  destruct s as [| c t]; cbn [split_lines]; [eauto |].
  destruct (c =? 10)%N; [eauto |]. destruct (split_lines t); eauto.
Qed.

Lemma split_lines_line (l rest : pystr) :
  no_LF l -> split_lines (l ++ LF ++ rest) = l :: split_lines rest.
Proof.
  unfold no_LF. induction l as [| c l IH]; intros H.
  - reflexivity.
  - cbn [forallb] in H. apply andb_true_iff in H. destruct H as [Hc Hl].
    cbn [app split_lines]. destruct (c =? 10)%N; [discriminate |].
    rewrite (IH Hl). reflexivity.
Qed.

Lemma render_lines_app (a b : list pystr) :
  render_lines (a ++ b) = render_lines a ++ render_lines b.
Proof. unfold render_lines. rewrite map_app, concat_app. reflexivity. Qed.

Lemma split_render_lines (ls : list pystr) (rest : pystr) :
  Forall no_LF ls -> split_lines (render_lines ls ++ rest) = ls ++ split_lines rest.
Proof.
  induction 1 as [| l ls Hl _ IH]; [reflexivity |].
  change (render_lines (l :: ls)) with ((l ++ LF) ++ render_lines ls).
  rewrite <- !app_assoc. rewrite (split_lines_line l _ Hl), IH. reflexivity.
Qed.

Lemma split_lines_no_LF (s : pystr) : Forall no_LF (split_lines s).
Proof.
  induction s as [| c t IH]; cbn [split_lines].
  - constructor; [reflexivity | constructor].
  - destruct (c =? 10)%N eqn:Hc.
    + constructor; [reflexivity | exact IH].
    + destruct (split_lines t) as [| l ls]; [repeat constructor; unfold no_LF; cbn; rewrite Hc;
                                              reflexivity |].
      inversion IH as [| l' ls' Hl Hls]; subst.
      constructor; [| exact Hls]. unfold no_LF in *. cbn [forallb]. rewrite Hc, Hl. reflexivity.
Qed.

Lemma render_split_lines (s : pystr) : render_lines (split_lines s) = s ++ LF.
Proof.
  induction s as [| c t IH]; [reflexivity |]. cbn [split_lines].
  destruct (c =? 10)%N eqn:Hc.
  - apply N.eqb_eq in Hc. subst c.
    change (render_lines ([] :: split_lines t)) with (LF ++ render_lines (split_lines t)).
    rewrite IH. reflexivity.
  - destruct (split_lines t) as [| l ls] eqn:E.
    + destruct (split_lines_cons t) as (l & ls & E'). congruence.
    + change (render_lines ((c :: l) :: ls)) with (c :: render_lines (l :: ls)).
      rewrite IH. reflexivity.
Qed.

Lemma paragraphs_run (run rest : list pystr) :
  forallb nonempty run = true ->
  paragraphs (run ++ [] :: rest) = run :: paragraphs rest.
Proof.
  induction run as [| l run IH]; intros H; [reflexivity |].
  cbn [forallb] in H. apply andb_true_iff in H. destruct H as [Hl Hrun].
  cbn [app paragraphs]. rewrite (IH Hrun). destruct l; [discriminate | reflexivity].
Qed.

(** A run of non-empty lines that ends at an empty line is read as one
    block. *)
Lemma read_run (l : pystr) (run rest : list pystr) :
  forallb nonempty (l :: run) = true ->
  filter nonempty (paragraphs ((l :: run) ++ [] :: rest))
  = (l :: run) :: filter nonempty (paragraphs rest).
Proof. intros H. rewrite (paragraphs_run _ _ H). reflexivity. Qed.

Lemma read_empty_line (rest : list pystr) :
  filter nonempty (paragraphs ([] :: rest)) = filter nonempty (paragraphs rest).
Proof. reflexivity. Qed.

(** *** The lines of a block *)

Lemma digit_chars_plain (d : Decimal.uint) : no_LF (digit_chars d).
Proof. unfold no_LF. induction d; cbn [digit_chars forallb]; try reflexivity; exact IHd. Qed.

Lemma repeat_zero_plain (n : nat) : no_LF (repeat 48%N n).
Proof. unfold no_LF. induction n; [reflexivity | exact IHn]. Qed.

Lemma format_0d_plain (w : nat) (z : Z) : no_LF (format_0d w z).
Proof.
  unfold format_0d, str_of_nat.
  destruct z.
  - apply no_LF_app; [apply repeat_zero_plain | apply digit_chars_plain].
  - apply no_LF_app; [apply repeat_zero_plain | apply digit_chars_plain].
  - apply (no_LF_app [45%N]); [reflexivity |].
    apply no_LF_app; [apply repeat_zero_plain | apply digit_chars_plain].
Qed.

Lemma clock_plain (v : Z) : no_LF (clock_of_microseconds v).
Proof.
  unfold clock_of_microseconds.
  repeat (apply no_LF_app; [first [apply format_0d_plain | reflexivity] |]).
  apply format_0d_plain.
Qed.

Lemma formatted_plain (x : pyobj) : no_LF (formatted x).
Proof.
  unfold formatted. destruct (in_timedelta_range x) eqn:Hr.
  - destruct (in_timedelta_range_inv x Hr) as (us & Hus & Hd).
    rewrite (format_time_clock x us Hus Hd). apply clock_plain.
  - rewrite (format_time_rejected x Hr). reflexivity.
Qed.

Lemma str_of_int_plain (i : Z) : no_LF (str_of_int i).
Proof.
  unfold str_of_int, str_of_nat. destruct i.
  - apply digit_chars_plain.
  - apply digit_chars_plain.
  - apply (no_LF_app [45%N]); [reflexivity | apply digit_chars_plain].
Qed.

Lemma str_of_int_nonempty (i : Z) : nonempty (str_of_int i) = true.
Proof.
  assert (H : forall n, nonempty (str_of_nat n) = true).
  { intros n. unfold str_of_nat. pose proof (N_to_uint_nonnil n) as Hn.
    destruct (N.to_uint n); try reflexivity. congruence. }
  destruct i; cbn [str_of_int]; try apply H. reflexivity.
Qed.

Lemma head_lines_plain (i : Z) (c : Chunk) : Forall no_LF (head_lines i c).
Proof.
  repeat constructor; [apply str_of_int_plain |].
  apply no_LF_app; [apply formatted_plain |].
  apply no_LF_app; [reflexivity | apply formatted_plain].
Qed.

Lemma head_lines_nonempty (i : Z) (c : Chunk) : forallb nonempty (head_lines i c) = true.
Proof.
  unfold head_lines. cbn [forallb]. rewrite str_of_int_nonempty.
  destruct (formatted (fst (timestamp c))); reflexivity.
Qed.

(** A block is the text of its two first lines and of the lines of the
    trimmed text. *)
Lemma block_as_lines (i : Z) (c : Chunk) :
  render_lines (block_lines i c)
  = render_lines (head_lines i c ++ split_lines (strip (text c))).
Proof.
  rewrite render_lines_app, render_split_lines.
  unfold render_lines, block_lines, head_lines. cbn [map List.concat].
  rewrite <- !app_assoc. reflexivity.
Qed.

Lemma block_lines_plain (i : Z) (c : Chunk) :
  Forall no_LF (head_lines i c ++ split_lines (strip (text c))).
Proof. apply Forall_app. split; [apply head_lines_plain | apply split_lines_no_LF]. Qed.

Lemma split_lines_document (cs : list Chunk) :
  forall i, cs <> [] -> split_lines (srt_document i cs) = document_lines i cs.
Proof.
  induction cs as [| c rest IH]; intros i Hne; [congruence |].
  destruct rest as [| c' rest'].
  - cbn [srt_document document_lines]. rewrite block_as_lines.
    rewrite <- (app_nil_r (render_lines _)).
    rewrite (split_render_lines _ [] (block_lines_plain i c)). reflexivity.
  - change (srt_document i (c :: c' :: rest'))
      with (render_lines (block_lines i c) ++ LF ++ srt_document (i + 1) (c' :: rest')).
    rewrite block_as_lines, (split_render_lines _ _ (block_lines_plain i c)).
    cbn [document_lines]. f_equal.
    change (LF ++ srt_document (i + 1) (c' :: rest'))
      with ([] ++ LF ++ srt_document (i + 1) (c' :: rest')).
    rewrite (split_lines_line [] _ eq_refl). rewrite IH by discriminate. reflexivity.
Qed.

(** Reading the lines of the document back gives the expected blocks, when
    no trimmed text has an empty line inside. *)
Lemma read_document_lines (cs : list Chunk) :
  (forall c, In c cs -> no_empty_line (strip (text c)) = true) ->
  forall i, filter nonempty (paragraphs (document_lines i cs)) = expected_blocks i cs.
Proof.
  induction cs as [| c rest IH]; intros H i; [reflexivity |].
  cbn [document_lines expected_blocks].
  pose proof (H c (or_introl eq_refl)) as Hc. unfold no_empty_line in Hc.
  specialize (IH (fun c' Hc' => H c' (or_intror Hc')) (i + 1)).
  destruct (strip (text c)) as [| ch s] eqn:Es.
  - (* an empty text: the block ends with an empty line of its own *)
    cbn [text_lines split_lines]. rewrite app_nil_r.
    change ((head_lines i c ++ [[]]) ++ [] :: document_lines (i + 1) rest)
      with ((str_of_int i
               :: [formatted (fst (timestamp c)) ++ lit " --> " ++ formatted (snd (timestamp c))])
              ++ [] :: [] :: document_lines (i + 1) rest).
    rewrite read_run by apply (head_lines_nonempty i c).
    rewrite read_empty_line, IH. reflexivity.
  - cbn [text_lines] in *.
    change (head_lines i c ++ split_lines (ch :: s))
      with (str_of_int i
              :: [formatted (fst (timestamp c)) ++ lit " --> " ++ formatted (snd (timestamp c))]
              ++ split_lines (ch :: s)).
    rewrite read_run.
    + rewrite IH. reflexivity.
    + change (forallb nonempty (head_lines i c ++ split_lines (ch :: s)) = true).
      rewrite forallb_app, head_lines_nonempty. exact Hc.
Qed.

(** The document of a well-formed transcript read back. *)
Lemma read_blocks_document (cs : list Chunk) :
  (forall c, In c cs -> no_empty_line (strip (text c)) = true) ->
  read_blocks (srt_document 1 cs) = expected_blocks 1 cs.
Proof.
  intros H. unfold read_blocks. destruct cs as [| c rest]; [reflexivity |].
  rewrite split_lines_document by discriminate. apply read_document_lines, H.
Qed.

Lemma expected_blocks_length (cs : list Chunk) :
  forall i, List.length (expected_blocks i cs) = List.length cs.
Proof. induction cs; intros i; cbn; auto. Qed.

Lemma expected_blocks_indices (cs : list Chunk) :
  forall i, 0 <= i ->
    map read_index (expected_blocks i cs)
    = map (fun k => Some (Z.to_N i + N.of_nat k)%N) (seq 0 (List.length cs)).
Proof.
  induction cs as [| c rest IH]; intros i Hi; [reflexivity |].
  cbn [expected_blocks map List.length seq app read_index]. f_equal.
  - assert (Hs : str_of_int i = str_of_nat (Z.to_N i)) by (destruct i; [reflexivity .. | lia]).
    rewrite Hs, nat_of_str_of_nat. f_equal. lia.
  - rewrite IH by lia. rewrite <- seq_shift, map_map. apply map_ext.
    intros k. f_equal. lia.
Qed.

(* ================================================================= *)
(** * Part III: the claims *)
(* ================================================================= *)

(** ** Facts shared by the claims about [format_time] *)

Lemma timedelta_of_seconds_ok (x : pyobj) (us : Z) :
  total_microseconds x = Ok us ->
  Z.abs (us / us_per_day) <= max_delta_days ->
  timedelta_of_seconds x =
    Ok {| td_days := us / us_per_day;
          td_seconds := us / us_per_second mod seconds_per_day;
          td_microseconds := us mod us_per_second |}.
Proof.
  intros Hus Hrange. unfold timedelta_of_seconds. rewrite Hus. cbn [bind].
  apply microseconds_to_delta_ok, Hrange.
Qed.

Lemma delta_keeps_time_of_day (us : Z) :
  us / 1000000 mod 86400 * 1000000 + us mod 1000000 = us mod 86400000000.
Proof. Z.div_mod_to_equations. lia. Qed.

Lemma valid_seconds_inv (x : pyobj) :
  valid_seconds x = true ->
  exists us, total_microseconds x = Ok us /\ Z.abs (us / us_per_day) <= max_delta_days.
Proof.
  unfold valid_seconds. rewrite !andb_true_iff. intros [[[Hn Hf] _] Hr].
  destruct (total_microseconds_finite x Hn Hf) as [us Hus].
  unfold in_timedelta_range in Hr. rewrite Hus in Hr. apply Z.leb_le in Hr. eauto.
Qed.

(** The microsecond count of a number that [timedelta] accepts, against the
    value of the number. *)
Lemma microseconds_of_number (x : pyobj) (us : Z) :
  total_microseconds x = Ok us -> canonical x = true -> microseconds_of_value x us.
Proof.
  intros Hus Hc. destruct x as [| b | z | f | | | |]; try discriminate.
  - cbn in Hus. injection Hus as <-. reflexivity.
  - cbn in Hus. injection Hus as <-. reflexivity.
  - apply total_microseconds_near_value; assumption.
Qed.

(** How [timedelta] gets the microsecond count of a float. *)
Lemma microseconds_of_float (f : spec_float) (us : Z) :
  total_microseconds (PyFloat f) = Ok us ->
  exists whole r,
    int_of_float f = Ok whole
    /\ py_round (float_mul (frac_of_float f) (float_of_int 1000000)) = Ok r
    /\ us = whole * 1000000 + r.
Proof.
  unfold total_microseconds, us_per_second. intros H.
  destruct (int_of_float f) as [whole |]; cbn [bind] in H; [| discriminate].
  destruct (py_round (float_mul (frac_of_float f) (float_of_int 1000000))) as [r |];
    cbn [bind] in H; [| discriminate].
  injection H as <-. exists whole, r. auto.
Qed.

(** ** C1 *)

(** C1 (code defect): the claim wants the hours field to count all whole
    hours, so that 450000 seconds render as [125:00:00,000].  The code takes
    the hours from the [seconds] attribute of the [timedelta], which leaves
    out whole days: 450000 seconds are 5 days and 5 hours, and the result is
    [05:00:00,000]. *)
Theorem format_time_drops_whole_days :
  format_time (PyInt 450000) = Ok (lit "05:00:00,000")
  /\ format_time (PyInt 450000) <> Ok (lit "125:00:00,000").
Proof.
  split.
  - vm_compute. reflexivity.
  - vm_compute. intros H. discriminate H.
Qed.

(** ** C3 *)

(** C3, the claim as stated fails: for the float nearest to 0.0019996 the
    sub-second remainder truncated to milliseconds is 1, but the code renders
    [002], because [timedelta] first rounds the remainder to the nearest
    microsecond (2000). *)
Lemma milliseconds_follow_rounded_microseconds :
  valid_seconds (PyFloat (float_lit 19996 10000000)) = true
  /\ truncated_milliseconds (PyFloat (float_lit 19996 10000000)) = 1
  /\ format_time (PyFloat (float_lit 19996 10000000)) = Ok (lit "00:00:00,002").
Proof. vm_compute. repeat split; reflexivity. Qed.

(** C3, amended: for every finite non-negative number of seconds that
    [timedelta] can hold, the [mmm] field is the microsecond component of
    the [timedelta] divided by 1000 and rounded down; it lies in 0..999 and
    takes exactly three characters.  The microsecond component is not the
    exact sub-second remainder: for a float, [timedelta] multiplies the
    fractional part by [1e6] in float arithmetic and rounds the product to
    the nearest integer, ties to even, which leaves the count within
    [1/2 + 2^-33] of the exact number of microseconds.  The duration is
    normalised to seconds below one day and microseconds below one million,
    the total being kept, so that a carry of the rounding goes into the
    seconds: 5.999999999994 gives [00:00:06,000].  The float nearest to
    0.0009995 lies below 999.5 microseconds and still gives 1000
    microseconds, [00:00:00,001], since the float product is 999.5. *)
Theorem milliseconds_field_in_range :
  (forall x : pyobj,
     valid_seconds x = true ->
     exists td us,
       timedelta_of_seconds x = Ok td
       /\ total_microseconds x = Ok us
       /\ (canonical x = true -> microseconds_of_value x us)
       /\ (forall f, x = PyFloat f ->
             exists whole r,
               int_of_float f = Ok whole
               /\ py_round (float_mul (frac_of_float f) (float_of_int 1000000)) = Ok r
               /\ us = whole * 1000000 + r)
       /\ 0 <= td_seconds td < seconds_per_day
       /\ 0 <= td_microseconds td < us_per_second
       /\ td_seconds td * us_per_second + td_microseconds td = us mod us_per_day
       /\ 0 <= td_microseconds td / 1000 <= 999
       /\ List.length (format_0d 3 (td_microseconds td / 1000)) = 3%nat
       /\ format_time x =
            Ok (format_0d 2 (td_seconds td / 3600) ++ lit ":"
                  ++ format_0d 2 (td_seconds td mod 3600 / 60) ++ lit ":"
                  ++ format_0d 2 (td_seconds td mod 3600 mod 60) ++ lit ","
                  ++ format_0d 3 (td_microseconds td / 1000)))
  /\ format_time (PyFloat (float_lit 5999999999994 1000000000000)) = Ok (lit "00:00:06,000")
  /\ (float_num (float_lit 9995 10000000) * 1000000 * 2
      < 1999 * 2 ^ float_scale (float_lit 9995 10000000)
      /\ total_microseconds (PyFloat (float_lit 9995 10000000)) = Ok 1000
      /\ format_time (PyFloat (float_lit 9995 10000000)) = Ok (lit "00:00:00,001")).
Proof.
  split; [| split; [vm_compute; reflexivity | vm_compute; repeat split; reflexivity]].
  intros x Hx. destruct (valid_seconds_inv x Hx) as (us & Hus & Hrange).
  pose proof (timedelta_of_seconds_ok x us Hus Hrange) as Htd.
  eexists; exists us. split; [exact Htd |]. cbn [td_seconds td_microseconds].
  assert (Hs : 0 <= us / us_per_second mod seconds_per_day < seconds_per_day)
    by (apply Z.mod_pos_bound; reflexivity).
  assert (Hu : 0 <= us mod us_per_second < us_per_second)
    by (apply Z.mod_pos_bound; reflexivity).
  assert (Hms : 0 <= us mod us_per_second / 1000 <= 999).
  { unfold us_per_second in *. split.
    - apply Z.div_pos; lia.
    - apply Z.lt_succ_r, Z.div_lt_upper_bound; lia. }
  split; [exact Hus |].
  split; [exact (microseconds_of_number x us Hus) |].
  split; [intros f ->; exact (microseconds_of_float f us Hus) |].
  split; [exact Hs | split; [exact Hu |]].
  split; [apply delta_keeps_time_of_day |].
  split; [exact Hms |].
  split; [apply format_0d_3_length, Hms |].
  apply (format_time_of_delta x _ Htd). exact Hu.
Qed.

Lemma milliseconds_field_in_range_witness :
  valid_seconds (PyFloat (float_lit 55 10)) = true
  /\ canonical (PyFloat (float_lit 55 10)) = true
  /\ exists td us,
       timedelta_of_seconds (PyFloat (float_lit 55 10)) = Ok td
       /\ total_microseconds (PyFloat (float_lit 55 10)) = Ok us
       /\ microseconds_of_value (PyFloat (float_lit 55 10)) us
       /\ 0 <= td_microseconds td / 1000 <= 999.
Proof.
  assert (H : valid_seconds (PyFloat (float_lit 55 10)) = true) by (vm_compute; reflexivity).
  assert (Hc : canonical (PyFloat (float_lit 55 10)) = true) by (vm_compute; reflexivity).
  split; [exact H | split; [exact Hc |]].
  destruct (proj1 milliseconds_field_in_range (PyFloat (float_lit 55 10)) H)
    as (td & us & Htd & Hus & Hval & _ & _ & _ & _ & Hms & _).
  exists td, us. auto.
Defined.

(** ** C6 *)

(** C6: the four literal cases of the formatter: 0, 5.5, 3661.25 and
    36000 seconds. *)
Theorem format_time_literal_cases :
  format_time (PyInt 0) = Ok (lit "00:00:00,000")
  /\ format_time (PyFloat (float_lit 55 10)) = Ok (lit "00:00:05,500")
  /\ format_time (PyFloat (float_lit 366125 100)) = Ok (lit "01:01:01,250")
  /\ format_time (PyInt 36000) = Ok (lit "10:00:00,000").
Proof. vm_compute. repeat split; reflexivity. Qed.

(** ** C10 *)



(** ** C7 *)

(** C7: the end-to-end scenario.  The two chunks give two blocks with one
    blank line between them; each line, the last one too, ends with a line
    feed. *)
Theorem convert_example_transcript :
  convert_object_to_srt example_transcript
  = Ok (lit "1" ++ LF
          ++ lit "00:00:00,000 --> 00:00:05,500" ++ LF
          ++ lit "Hello, this is the first subtitle." ++ LF
          ++ LF
          ++ lit "2" ++ LF
          ++ lit "00:00:06,000 --> 00:00:10,200" ++ LF
          ++ lit "And this is the second one." ++ LF).
Proof. vm_compute. reflexivity. Qed.

(** ** C4 *)

(** C4: on a well-formed transcript the conversion returns the document of
    the specification: for each chunk, in order and numbered from 1, the
    three lines index, [start --> end] and trimmed text, with one blank
    line between consecutive blocks and none after the last; both time
    stamps come from [format_time]; the text is the chunk's text without its
    leading and trailing white space, the inside untouched; without chunks
    the result is the empty string. *)
Theorem convert_renders_document (t : TranscriptObject) :
  well_formed t ->
  convert_object_to_srt (transcript_to_py t) = Ok (srt_document 1 (chunks t))
  /\ (forall c, In c (chunks t) ->
        format_time (fst (timestamp c)) = Ok (formatted (fst (timestamp c)))
        /\ format_time (snd (timestamp c)) = Ok (formatted (snd (timestamp c)))
        /\ trimmed_of (text c) (strip (text c)))
  /\ (chunks t = [] -> convert_object_to_srt (transcript_to_py t) = Ok []).
Proof.
  intros Hwf.
  assert (Hconv : convert_object_to_srt (transcript_to_py t) = Ok (srt_document 1 (chunks t))).
  { unfold convert_object_to_srt. rewrite (srt_content_of_transcript t Hwf). cbn [bind].
    rewrite join_srt_blocks. reflexivity. }
  split; [exact Hconv | split].
  - intros c Hc. destruct (Hwf c Hc) as [H0 H1].
    repeat split; [apply format_time_valid, H0 | apply format_time_valid, H1 | apply strip_spec].
  - intros Hnil. rewrite Hconv, Hnil. reflexivity.
Qed.

Lemma convert_renders_document_witness :
  well_formed one_chunk
  /\ convert_object_to_srt (transcript_to_py one_chunk)
     = Ok (lit "1" ++ LF ++ lit "00:00:00,000 --> 00:00:05,500" ++ LF ++ lit "hello" ++ LF).
Proof.
  assert (Hwf : well_formed one_chunk).
  { intros c [<- | []]. split; vm_compute; reflexivity. }
  split; [exact Hwf |].
  rewrite (proj1 (convert_renders_document one_chunk Hwf)).
  vm_compute. reflexivity.
Defined.

(** ** C5 *)

(** C5, the claim as stated fails: the text of a chunk is copied as it is,
    so a text with an empty line inside ends its block early for a reader
    of the output.  The transcript has one chunk, and the output reads back
    as two blocks, the second without index line. *)
Lemma empty_line_splits_a_block :
  well_formed empty_line_inside
  /\ List.length (chunks empty_line_inside) = 1%nat
  /\ convert_object_to_srt (transcript_to_py empty_line_inside)
     = Ok (lit "1" ++ LF ++ lit "00:00:00,000 --> 00:00:01,000" ++ LF
             ++ lit "a" ++ LF ++ LF ++ lit "b" ++ LF)
  /\ read_blocks (lit "1" ++ LF ++ lit "00:00:00,000 --> 00:00:01,000" ++ LF
                    ++ lit "a" ++ LF ++ LF ++ lit "b" ++ LF)
     = [[lit "1"; lit "00:00:00,000 --> 00:00:01,000"; lit "a"]; [lit "b"]].
Proof.
  split; [| split; [reflexivity | split; vm_compute; reflexivity]].
  intros c [<- | []]. split; vm_compute; reflexivity.
Qed.

(** C5, amended: on a well-formed transcript in which no trimmed text has
    an empty line inside, the output, read back as the blocks that blank
    lines separate, has one block for each chunk, made of the index line,
    the time range and the lines of the trimmed text; the index lines read
    1, 2, ..., N in input order. *)
Theorem convert_block_count_and_indices (t : TranscriptObject) :
  well_formed t ->
  (forall c, In c (chunks t) -> no_empty_line (strip (text c)) = true) ->
  exists out,
    convert_object_to_srt (transcript_to_py t) = Ok out
    /\ read_blocks out = expected_blocks 1 (chunks t)
    /\ List.length (read_blocks out) = List.length (chunks t)
    /\ map read_index (read_blocks out)
       = map (fun k => Some (N.of_nat k)) (seq 1 (List.length (chunks t))).
Proof.
  intros Hwf Htext. exists (srt_document 1 (chunks t)).
  assert (Hread : read_blocks (srt_document 1 (chunks t)) = expected_blocks 1 (chunks t))
    by (apply read_blocks_document, Htext).
  split; [| split; [exact Hread | rewrite Hread; split]].
  - unfold convert_object_to_srt. rewrite (srt_content_of_transcript t Hwf). cbn [bind].
    rewrite join_srt_blocks. reflexivity.
  - apply expected_blocks_length.
  - rewrite expected_blocks_indices by lia.
    rewrite <- seq_shift, map_map. apply map_ext. intros k. f_equal. lia.
Qed.

Lemma convert_block_count_and_indices_witness :
  well_formed three_chunks
  /\ (forall c, In c (chunks three_chunks) -> no_empty_line (strip (text c)) = true)
  /\ exists out,
       convert_object_to_srt (transcript_to_py three_chunks) = Ok out
       /\ read_blocks out
          = [[lit "1"; lit "00:00:00,000 --> 00:00:05,500"; lit "Hello."];
             [lit "2"; lit "00:00:06,000 --> 00:00:10,200"; lit "two"; lit "lines"];
             [lit "3"; lit "00:00:11,000 --> 00:00:12,000"]]
       /\ map read_index (read_blocks out) = [Some 1%N; Some 2%N; Some 3%N].
Proof.
  assert (Hwf : well_formed three_chunks).
  { intros c [<- | [<- | [<- | []]]]; split; vm_compute; reflexivity. }
  assert (Htext : forall c, In c (chunks three_chunks) ->
                            no_empty_line (strip (text c)) = true).
  { intros c [<- | [<- | [<- | []]]]; vm_compute; reflexivity. }
  split; [exact Hwf | split; [exact Htext |]].
  destruct (convert_block_count_and_indices three_chunks Hwf Htext)
    as (out & Hout & Hread & _ & Hidx).
  exists out. split; [exact Hout | split; [| exact Hidx]].
  rewrite Hread. vm_compute. reflexivity.
Defined.

(** ** C9 *)

(** C9: the output does not depend on [speakers]: two dictionaries with the
    same value under [chunks] (or both without it) convert to the same
    result, whatever else they hold. *)
Theorem convert_ignores_speakers (d1 d2 : list (pystr * pyobj)) :
  dict_get d1 (lit "chunks") = dict_get d2 (lit "chunks") ->
  convert_object_to_srt (PyDict d1) = convert_object_to_srt (PyDict d2).
Proof.
  intros H. unfold convert_object_to_srt, srt_content_of. cbn [getitem]. rewrite H. reflexivity.
Qed.

Lemma convert_ignores_speakers_witness :
  dict_get with_speakers (lit "chunks") = dict_get without_speakers (lit "chunks")
  /\ convert_object_to_srt (PyDict with_speakers)
     = convert_object_to_srt (PyDict without_speakers).
Proof.
  assert (H : dict_get with_speakers (lit "chunks") = dict_get without_speakers (lit "chunks"))
    by reflexivity.
  split; [exact H | exact (convert_ignores_speakers with_speakers without_speakers H)].
Defined.

(** ** C8 *)

(** C8, the claim as stated fails: the [print] of the handler is not
    protected.  Here the output file cannot be opened, which is an I/O
    failure; its message holds the file name, which the console cannot
    encode; the [print] of the handler raises [UnicodeEncodeError], and this
    exception leaves [process_object] with nothing printed. *)
Lemma failed_report_escapes :
  (exists srt, convert_object_to_srt example_transcript = Ok srt)
  /\ MemFS.os_open accented_path (fs locked_world)
     = (Raise (OSError 13 accented_path), fs locked_world)
  /\ MemFS.run example_transcript accented_path locked_world
     = (Raise UnicodeEncodeError, locked_world).
Proof.
  split; [eexists; vm_compute; reflexivity | split; vm_compute; reflexivity].
Qed.

(** C8, amended: whatever the file system and the console do,
    [process_object] catches the exception of a failed conversion and of a
    failed opening, writing or closing of the file, and hands its text to
    [print] in the error line; a failure of the conversion leaves the file
    system as it was, and a file that was opened is closed before the
    report.  When the line is printed, [process_object] returns normally;
    when this [print] raises, its exception leaves [process_object].  After
    a file output without failure the success line is printed, and a
    failure to print it is reported in the same way. *)
Theorem process_object_reports_every_failure :
  forall (FS : Type)
         (os_open : pystr -> FS -> result unit * FS)
         (os_write : pystr -> pystr -> FS -> result unit * FS)
         (os_close : pystr -> FS -> result unit * FS)
         (print_error : pystr -> list pystr -> option pyexc)
         (exc_str : pyexc -> pystr)
         (data : pyobj) (path : pystr) (w : world FS),
    let run := process_object FS os_open os_write os_close print_error exc_str data path w in
    let report := fun (e : pyexc) (f : FS) =>
      match print_error (error_message (exc_str e)) (stdout w) with
      | None => (Ok tt, {| fs := f; stdout := stdout w ++ [error_message (exc_str e)] |})
      | Some e' => (Raise e', {| fs := f; stdout := stdout w |})
      end in
    (forall e, convert_object_to_srt data = Raise e -> run = report e (fs w))
    /\ (forall srt e f1,
          convert_object_to_srt data = Ok srt ->
          os_open path (fs w) = (Raise e, f1) ->
          run = report e f1)
    /\ (forall srt rw e f1 f2 f3,
          convert_object_to_srt data = Ok srt ->
          os_open path (fs w) = (Ok tt, f1) ->
          os_write path srt f1 = (rw, f2) ->
          os_close path f2 = (Raise e, f3) ->
          run = report e f3)
    /\ (forall srt e f1 f2 f3,
          convert_object_to_srt data = Ok srt ->
          os_open path (fs w) = (Ok tt, f1) ->
          os_write path srt f1 = (Raise e, f2) ->
          os_close path f2 = (Ok tt, f3) ->
          run = report e f3)
    /\ (forall srt f1 f2 f3,
          convert_object_to_srt data = Ok srt ->
          os_open path (fs w) = (Ok tt, f1) ->
          os_write path srt f1 = (Ok tt, f2) ->
          os_close path f2 = (Ok tt, f3) ->
          run = match print_error saved_message (stdout w) with
                | None => (Ok tt, {| fs := f3; stdout := stdout w ++ [saved_message] |})
                | Some e => report e f3
                end).
Proof.
  intros FS os_open os_write os_close print_error exc_str data path w run report.
  assert (Hreport : forall e f,
             print FS print_error (error_message (exc_str e)) {| fs := f; stdout := stdout w |}
             = report e f).
  { intros e f. unfold print, report. cbn [fs stdout].
    destruct (print_error (error_message (exc_str e)) (stdout w)); reflexivity. }
  assert (Hw : w = {| fs := fs w; stdout := stdout w |}) by (destruct w; reflexivity).
  split; [| split; [| split; [| split]]].
  - intros e He. unfold run.
    rewrite (process_object_conversion_error FS os_open os_write os_close print_error exc_str
               data path w e He).
    rewrite Hw at 1. apply Hreport.
  - intros srt e f1 Hc Ho. unfold run.
    rewrite (process_object_io_error FS os_open os_write os_close print_error exc_str
               data path srt w e f1 Hc
               (with_open_write_open_fails FS os_open os_write os_close path srt _ _ e Ho)).
    apply Hreport.
  - intros srt rw e f1 f2 f3 Hc Ho Hwr Hcl. unfold run.
    rewrite (process_object_io_error FS os_open os_write os_close print_error exc_str
               data path srt w e f3 Hc
               (with_open_write_close_fails FS os_open os_write os_close path srt _ _ _ _ rw e
                  Ho Hwr Hcl)).
    apply Hreport.
  - intros srt e f1 f2 f3 Hc Ho Hwr Hcl. unfold run.
    rewrite (process_object_io_error FS os_open os_write os_close print_error exc_str
               data path srt w e f3 Hc
               (with_open_write_closed FS os_open os_write os_close path srt _ _ _ _ _
                  Ho Hwr Hcl)).
    apply Hreport.
  - intros srt f1 f2 f3 Hc Ho Hwr Hcl. unfold run.
    rewrite (process_object_written FS os_open os_write os_close print_error exc_str
               data path srt w f3 Hc
               (with_open_write_closed FS os_open os_write os_close path srt _ _ _ _ _
                  Ho Hwr Hcl)).
    destruct (print_error saved_message (stdout w)); [apply Hreport | reflexivity].
Qed.

Lemma process_object_reports_every_failure_witness :
  MemFS.os_open locked_path (fs read_only_world)
  = (Raise (OSError 13 locked_path), fs read_only_world)
  /\ MemFS.run example_transcript locked_path read_only_world
     = (Ok tt,
        {| fs := fs read_only_world;
           stdout := [lit "Error processing data: [Errno 13] Permission denied: 'locked.srt'"] |}).
Proof.
  assert (Ho : MemFS.os_open locked_path (fs read_only_world)
               = (Raise (OSError 13 locked_path), fs read_only_world)) by reflexivity.
  split; [exact Ho |].
  destruct (convert_object_to_srt example_transcript) as [srt | e] eqn:Hc;
    [| vm_compute in Hc; discriminate Hc].
  exact (proj1 (proj2 (process_object_reports_every_failure MemFS.t MemFS.os_open
                         MemFS.os_write MemFS.os_close MemFS.print_error MemFS.exc_str
                         example_transcript locked_path read_only_world))
           srt (OSError 13 locked_path) (fs read_only_world) Hc Ho).
Defined.

(** ** C2 *)

(** C2, the claim as stated fails: a chunk whose time stamp is a list of
    three numbers is not a pair, yet the conversion returns a block built
    from the first two numbers, and [process_object] writes it to the
    file. *)
Lemma three_stamps_are_accepted :
  malformed pair_of_numbers three_stamps
  /\ convert_object_to_srt three_stamps
     = Ok (lit "1" ++ LF ++ lit "00:00:00,000 --> 00:00:05,500" ++ LF ++ lit "hi" ++ LF)
  /\ MemFS.lookup (fs (snd (MemFS.run three_stamps (lit "out.srt") initial_world)))
       (lit "out.srt")
     = Some (lit "1" ++ LF ++ lit "00:00:00,000 --> 00:00:05,500" ++ LF ++ lit "hi" ++ LF).
Proof.
  split; [| split; vm_compute; reflexivity].
  right. eexists _, _, _.
  split; [reflexivity | split; [reflexivity | split; [left; reflexivity |]]].
  right. right. eexists. split; reflexivity.
Qed.

(** C2, amended: if [chunks] is missing, or some chunk lacks [timestamp] or
    [text], or the time stamp of some chunk does not give a number at each
    of the positions 0 and 1, then the conversion raises an exception, which
    is a [KeyError], an [IndexError], a [TypeError], an [AttributeError], a
    [ValueError] or an [OverflowError], and returns no text; and
    [process_object], on any file system and console, leaves the files as
    they were and hands the error line to [print]: it returns normally when
    the line is printed, and the exception of [print] leaves it otherwise.
    Among the values of the model, the time stamps that give two numbers are
    the lists and the tuples that start with two numbers, whatever
    follows. *)
Theorem malformed_input_aborts :
  (forall data : pyobj,
     malformed numbers_at_0_and_1 data ->
     exists e,
       convert_object_to_srt data = Raise e
       /\ conversion_error e = true
       /\ forall (FS : Type)
                 (os_open : pystr -> FS -> result unit * FS)
                 (os_write : pystr -> pystr -> FS -> result unit * FS)
                 (os_close : pystr -> FS -> result unit * FS)
                 (print_error : pystr -> list pystr -> option pyexc)
                 (exc_str : pyexc -> pystr) (path : pystr) (w : world FS),
            process_object FS os_open os_write os_close print_error exc_str data path w
            = match print_error (error_message (exc_str e)) (stdout w) with
              | None => (Ok tt, {| fs := fs w;
                                   stdout := stdout w ++ [error_message (exc_str e)] |})
              | Some e' => (Raise e', w)
              end)
  /\ (forall ts : pyobj,
        numbers_at_0_and_1 ts = true
        <-> exists a b rest,
              sequence_items ts = Some (a :: b :: rest)
              /\ is_number a = true /\ is_number b = true).
Proof.
  split; [| exact numbers_at_0_and_1_sequences].
  intros data H. destruct (convert_raises_on_malformed data H) as [e He].
  exists e. split; [exact He | split; [exact (convert_error_class data e He) |]].
  intros FS os_open os_write os_close print_error exc_str path w.
  apply (process_object_conversion_error FS os_open os_write os_close print_error exc_str
           data path w e He).
Qed.

Lemma malformed_input_aborts_witness :
  malformed numbers_at_0_and_1 no_timestamp
  /\ convert_object_to_srt no_timestamp = Raise (KeyError (lit "timestamp"))
  /\ MemFS.run no_timestamp (lit "out.srt") initial_world
     = (Ok tt, {| fs := MemFS.empty;
                  stdout := [lit "Error processing data: 'timestamp'"] |}).
Proof.
  assert (H : malformed numbers_at_0_and_1 no_timestamp).
  { right. eexists _, _, _.
    split; [reflexivity | split; [reflexivity | split; [left; reflexivity |]]].
    left. reflexivity. }
  split; [exact H |].
  destruct (proj1 malformed_input_aborts no_timestamp H) as (e & He & Hclass & Hrun).
  assert (Hc : convert_object_to_srt no_timestamp = Raise (KeyError (lit "timestamp")))
    by (vm_compute; reflexivity).
  assert (Ee : e = KeyError (lit "timestamp")) by congruence.
  subst e. split; [exact Hc |].
  exact (Hrun MemFS.t MemFS.os_open MemFS.os_write MemFS.os_close MemFS.print_error
           MemFS.exc_str (lit "out.srt") initial_world).
Defined.

(* ================================================================= *)
(** * Part IV: further properties of the code *)
(* ================================================================= *)

(** ** More on [format_time] *)

Lemma clock_field_ranges (v : Z) :
  0 <= v < 86400000000 ->
  0 <= v / 3600000000 <= 23 /\ 0 <= v / 60000000 mod 60 <= 59
  /\ 0 <= v / 1000000 mod 60 <= 59 /\ 0 <= v / 1000 mod 1000 <= 999.
Proof. intros H. repeat split; Z.div_mod_to_equations; lia. Qed.

Lemma clock_length (v : Z) :
  0 <= v < 86400000000 -> List.length (clock_of_microseconds v) = 12%nat.
Proof.
  intros H. destruct (clock_field_ranges v H) as (Hh & Hm & Hs & Hu).
  unfold clock_of_microseconds. rewrite !length_app.
  rewrite !format_0d_2_length by lia. rewrite format_0d_3_length by lia. reflexivity.
Qed.

(** X1: whatever number [timedelta] accepts, the result is a text of twelve
    characters [HH:MM:SS,mmm] with hours up to 23, minutes and seconds up to
    59 and milliseconds up to 999. *)
Theorem format_time_shape (x : pyobj) :
  in_timedelta_range x = true ->
  exists h m s ms,
    0 <= h <= 23 /\ 0 <= m <= 59 /\ 0 <= s <= 59 /\ 0 <= ms <= 999
    /\ format_time x
       = Ok (format_0d 2 h ++ lit ":" ++ format_0d 2 m ++ lit ":" ++ format_0d 2 s
               ++ lit "," ++ format_0d 3 ms)
    /\ List.length (format_0d 2 h ++ lit ":" ++ format_0d 2 m ++ lit ":" ++ format_0d 2 s
                      ++ lit "," ++ format_0d 3 ms) = 12%nat.
Proof.
  intros Hx. destruct (in_timedelta_range_inv x Hx) as (us & Hus & Hr).
  assert (Hv : 0 <= us mod us_per_day < 86400000000) by (apply Z.mod_pos_bound; reflexivity).
  destruct (clock_field_ranges _ Hv) as (Hh & Hm & Hs & Hu).
  exists (us mod us_per_day / 3600000000), (us mod us_per_day / 60000000 mod 60),
    (us mod us_per_day / 1000000 mod 60), (us mod us_per_day / 1000 mod 1000).
  repeat (split; [lia |]). split.
  - apply (format_time_clock x us Hus Hr).
  - apply (clock_length _ Hv).
Qed.

Lemma format_time_shape_witness :
  in_timedelta_range (PyFloat (float_lit 366125 100)) = true
  /\ exists h m s ms,
       0 <= h <= 23 /\ 0 <= m <= 59 /\ 0 <= s <= 59 /\ 0 <= ms <= 999
       /\ format_time (PyFloat (float_lit 366125 100))
          = Ok (format_0d 2 h ++ lit ":" ++ format_0d 2 m ++ lit ":" ++ format_0d 2 s
                  ++ lit "," ++ format_0d 3 ms).
Proof.
  assert (H : in_timedelta_range (PyFloat (float_lit 366125 100)) = true)
    by (vm_compute; reflexivity).
  split; [exact H |].
  destruct (format_time_shape _ H) as (h & m & s & ms & Hh & Hm & Hs & Hms & Hf & _).
  exists h, m, s, ms. auto.
Defined.

(** X2: when [timedelta] does not accept the input, [format_time] raises:
    [TypeError] for what is not a number, [ValueError] for a NaN, and
    [OverflowError] for an infinity and for a finite number of too many
    days. *)
Theorem format_time_raises (x : pyobj) :
  in_timedelta_range x = false -> format_time x = Raise (format_time_error x).
Proof. exact (format_time_rejected x). Qed.

Lemma format_time_raises_witness :
  in_timedelta_range PyNone = false
  /\ in_timedelta_range (PyInt 86400000000000) = false
  /\ format_time PyNone = Raise TypeError
  /\ format_time (PyInt 86400000000000) = Raise OverflowError.
Proof.
  assert (H1 : in_timedelta_range PyNone = false) by reflexivity.
  assert (H2 : in_timedelta_range (PyInt 86400000000000) = false) by (vm_compute; reflexivity).
  split; [exact H1 | split; [exact H2 | split]].
  - exact (format_time_raises PyNone H1).
  - exact (format_time_raises (PyInt 86400000000000) H2).
Defined.

(** ** [format_time] on integers *)

Lemma int_clock_fields (s : Z) :
  let v := s * 1000000 mod 86400000000 in
  v / 3600000000 = s mod 86400 / 3600
  /\ v / 60000000 mod 60 = s mod 3600 / 60
  /\ v / 1000000 mod 60 = s mod 60
  /\ v / 1000 mod 1000 = 0.
Proof. intros v. unfold v. repeat split; Z.div_mod_to_equations; lia. Qed.

Lemma format_time_on_int (s : Z) :
  format_time (PyInt s)
  = if (-86399999913600 <=? s) && (s <=? 86399999999999)
    then Ok (format_0d 2 (s mod 86400 / 3600) ++ lit ":" ++ format_0d 2 (s mod 3600 / 60)
               ++ lit ":" ++ format_0d 2 (s mod 60) ++ lit ",000")
    else Raise OverflowError.
Proof.
  assert (Hdays : s * us_per_second / us_per_day = s / 86400).
  { unfold us_per_second, us_per_day. change 86400000000 with (86400 * 1000000).
    rewrite Z.div_mul_cancel_r by lia. reflexivity. }
  destruct ((-86399999913600 <=? s) && (s <=? 86399999999999)) eqn:Hb.
  - apply andb_true_iff in Hb. destruct Hb as [Hlo Hhi].
    apply Z.leb_le in Hlo. apply Z.leb_le in Hhi.
    assert (Hr : Z.abs (s * us_per_second / us_per_day) <= max_delta_days).
    { rewrite Hdays. unfold max_delta_days. Z.div_mod_to_equations. lia. }
    rewrite (format_time_clock (PyInt s) (s * us_per_second) eq_refl Hr).
    unfold clock_of_microseconds, us_per_second, us_per_day.
    destruct (int_clock_fields s) as (Hh & Hm & Hs & Hu).
    rewrite Hh, Hm, Hs, Hu. reflexivity.
  - assert (Hx : in_timedelta_range (PyInt s) = false).
    { unfold in_timedelta_range. cbn [total_microseconds]. rewrite Hdays.
      apply Z.leb_gt. apply andb_false_iff in Hb. unfold max_delta_days.
      destruct Hb as [Hb | Hb]; [apply Z.leb_gt in Hb | apply Z.leb_gt in Hb];
        Z.div_mod_to_equations; lia. }
    apply (format_time_rejected (PyInt s) Hx).
Qed.

(** X3: on an [int] the result is given by integer arithmetic alone: the
    clock text of [s mod 86400] seconds with [000] milliseconds when the day
    count [s // 86400] is within [-999999999, 999999999], and
    [OverflowError] otherwise. *)
Theorem format_time_int (s : Z) :
  format_time (PyInt s)
  = if (-86399999913600 <=? s) && (s <=? 86399999999999)
    then Ok (format_0d 2 (s mod 86400 / 3600) ++ lit ":" ++ format_0d 2 (s mod 3600 / 60)
               ++ lit ":" ++ format_0d 2 (s mod 60) ++ lit ",000")
    else Raise OverflowError.
Proof. exact (format_time_on_int s). Qed.

Lemma day_shift_fields (s k : Z) :
  (s + 86400 * k) mod 86400 = s mod 86400
  /\ (s + 86400 * k) mod 3600 = s mod 3600
  /\ (s + 86400 * k) mod 60 = s mod 60.
Proof.
  repeat split.
  - rewrite Z.mul_comm. apply Z.mod_add. lia.
  - replace (86400 * k) with (24 * k * 3600) by lia. apply Z.mod_add. lia.
  - replace (86400 * k) with (1440 * k * 60) by lia. apply Z.mod_add. lia.
Qed.

(** X4: whole days do not show: two accepted [int]s that differ by a multiple
    of 86400 are rendered alike. *)
Theorem format_time_int_day_periodic (s k : Z) :
  -86399999913600 <= s <= 86399999999999 ->
  -86399999913600 <= s + 86400 * k <= 86399999999999 ->
  format_time (PyInt (s + 86400 * k)) = format_time (PyInt s).
Proof.
  intros Hs Hk. rewrite !format_time_on_int.
  replace ((-86399999913600 <=? s) && (s <=? 86399999999999)) with true
    by (symmetry; apply andb_true_iff; split; apply Z.leb_le; lia).
  replace ((-86399999913600 <=? s + 86400 * k) && (s + 86400 * k <=? 86399999999999)) with true
    by (symmetry; apply andb_true_iff; split; apply Z.leb_le; lia).
  destruct (day_shift_fields s k) as (H1 & H2 & H3). rewrite H1, H2, H3. reflexivity.
Qed.

Lemma format_time_int_day_periodic_witness :
  -86399999913600 <= 3661 <= 86399999999999
  /\ -86399999913600 <= 3661 + 86400 * 5 <= 86399999999999
  /\ format_time (PyInt (3661 + 86400 * 5)) = format_time (PyInt 3661).
Proof.
  assert (H1 : -86399999913600 <= 3661 <= 86399999999999) by lia.
  assert (H2 : -86399999913600 <= 3661 + 86400 * 5 <= 86399999999999) by lia.
  split; [exact H1 | split; [exact H2 |]].
  exact (format_time_int_day_periodic 3661 5 H1 H2).
Defined.

(** ** Integral floats *)

Lemma binary_round_int (sg : bool) (p : positive) :
  Zpos p < 2 ^ 53 ->
  exists m, binary_round prec emax sg p 0 = S754_finite sg m (Zpos (digits2_pos p) - 53)
            /\ Zpos m = Zpos p * 2 ^ (53 - Zpos (digits2_pos p)).
Proof.
  intros Hp. pose proof (digits2_pos_bounds p) as [Hl Hu].
  assert (Hd : Zpos (digits2_pos p) <= 53)
    by (apply (Zdigits2_le (Zpos p) 53); lia).
  unfold binary_round.
  set (ex' := fexp prec emax (Zpos (digits2_pos p) + 0)).
  assert (Hex' : ex' = Zpos (digits2_pos p) - 53)
    by (unfold ex', fexp, emin, prec, emax; lia).
  destruct (shl_align_spec p 0 ex') as [He Hm].
  destruct (shl_align p 0 ex') as [mz ez]. cbn [fst snd] in He, Hm.
  assert (Hez : ez = Zpos (digits2_pos p) - 53) by lia.
  replace (0 - Z.min 0 ex') with (53 - Zpos (digits2_pos p)) in Hm by lia.
  exists mz. split; [| exact Hm].
  rewrite <- Hez. apply binary_round_aux_exact.
  - assert (Zdigits2 (Zpos mz) = 53).
    { apply Zdigits2_eq; [lia |]. rewrite Hm.
      pose proof (scale_bounds (Zpos p) (Zpos (digits2_pos p)) (53 - Zpos (digits2_pos p))
                    ltac:(lia) ltac:(lia) (conj Hl Hu)) as Hs.
      replace (Zpos (digits2_pos p) - 1 + (53 - Zpos (digits2_pos p))) with (53 - 1) in Hs by lia.
      replace (Zpos (digits2_pos p) + (53 - Zpos (digits2_pos p))) with 53 in Hs by lia.
      exact Hs. }
    unfold fexp, emin, prec, emax. lia.
  - unfold emax, prec. lia.
Qed.

Lemma total_microseconds_integral (sg : bool) (p m : positive) (e : Z) :
  e <= 0 -> Zpos m = Zpos p * 2 ^ (- e) ->
  total_microseconds (PyFloat (S754_finite sg m e))
  = Ok ((if sg then - Zpos p else Zpos p) * us_per_second).
Proof.
  intros He Hm. unfold total_microseconds.
  destruct e as [| k | k]; [| lia |].
  - cbn [int_of_float frac_of_float bind Z.shiftl]. cbn in Hm.
    replace (Zpos m) with (Zpos p) by lia.
    destruct sg; cbn; f_equal; lia.
  - cbn [int_of_float frac_of_float bind].
    change (- Zneg k) with (Zpos k) in Hm.
    rewrite Z.shiftr_div_pow2, Z.land_ones by lia. rewrite Hm.
    pose proof (pow2_pos (Zpos k) ltac:(lia)) as Hpow.
    rewrite Z.div_mul, Z.mod_mul by lia.
    destruct sg; cbn; f_equal; lia.
Qed.

Lemma total_microseconds_float_of_int (z : Z) :
  Z.abs z < 2 ^ 53 ->
  total_microseconds (PyFloat (float_of_int z)) = Ok (z * us_per_second).
Proof.
  intros Hz. destruct z as [| p | p].
  - reflexivity.
  - destruct (binary_round_int false p ltac:(lia)) as (m & Hf & Hm).
    unfold float_of_int, binary_normalize. rewrite Hf.
    pose proof (digits2_pos_bounds p) as [_ Hu].
    assert (Hd : Zpos (digits2_pos p) <= 53) by (apply (Zdigits2_le (Zpos p) 53); lia).
    apply (total_microseconds_integral false p m); [lia |].
    rewrite Hm. replace (- (Zpos (digits2_pos p) - 53)) with (53 - Zpos (digits2_pos p)) by lia.
    reflexivity.
  - destruct (binary_round_int true p ltac:(lia)) as (m & Hf & Hm).
    unfold float_of_int, binary_normalize. rewrite Hf.
    pose proof (digits2_pos_bounds p) as [_ Hu].
    assert (Hd : Zpos (digits2_pos p) <= 53) by (apply (Zdigits2_le (Zpos p) 53); lia).
    rewrite (total_microseconds_integral true p m); [reflexivity | lia |].
    rewrite Hm. replace (- (Zpos (digits2_pos p) - 53)) with (53 - Zpos (digits2_pos p)) by lia.
    reflexivity.
Qed.

(** X5: an [int] below [2^53] in magnitude and the float of the same value are
    rendered alike (so [6] and [6.0] give the same text), and fail alike. *)
Theorem format_time_float_of_int (z : Z) :
  Z.abs z < 2 ^ 53 ->
  format_time (PyFloat (float_of_int z)) = format_time (PyInt z).
Proof.
  intros Hz. unfold format_time, timedelta_of_seconds.
  rewrite (total_microseconds_float_of_int z Hz). reflexivity.
Qed.

Lemma format_time_float_of_int_witness :
  Z.abs 6 < 2 ^ 53
  /\ format_time (PyFloat (float_of_int 6)) = format_time (PyInt 6).
Proof.
  assert (H : Z.abs 6 < 2 ^ 53) by (cbn; lia).
  split; [exact H | exact (format_time_float_of_int 6 H)].
Defined.

(** ** Reading the clock text back *)

Lemma two_digits (v : Z) :
  0 <= v <= 99 ->
  exists a b, format_0d 2 v = [a; b] /\ nat_of_str [a; b] = Some (Z.to_N v).
Proof.
  intros H.
  pose proof (forall_below
    (fun k => match format_0d 2 (Z.of_nat k) with
              | [a; b] => match nat_of_str [a; b] with
                          | Some n => N.eqb n (N.of_nat k)
                          | None => false
                          end
              | _ => false
              end) 100 ltac:(vm_compute; reflexivity) (Z.to_nat v) ltac:(lia)) as Hk.
  cbv beta in Hk. rewrite Z2Nat.id in Hk by lia.
  destruct (format_0d 2 v) as [| a [| b [| c r]]]; try discriminate.
  exists a, b. split; [reflexivity |].
  destruct (nat_of_str [a; b]) as [n |]; [| discriminate].
  apply N.eqb_eq in Hk. f_equal. lia.
Qed.

Lemma three_digits (v : Z) :
  0 <= v <= 999 ->
  exists a b c, format_0d 3 v = [a; b; c] /\ nat_of_str [a; b; c] = Some (Z.to_N v).
Proof.
  intros H.
  pose proof (forall_below
    (fun k => match format_0d 3 (Z.of_nat k) with
              | [a; b; c] => match nat_of_str [a; b; c] with
                             | Some n => N.eqb n (N.of_nat k)
                             | None => false
                             end
              | _ => false
              end) 1000 ltac:(vm_compute; reflexivity) (Z.to_nat v) ltac:(lia)) as Hk.
  cbv beta in Hk. rewrite Z2Nat.id in Hk by lia.
  destruct (format_0d 3 v) as [| a [| b [| c [| d r]]]]; try discriminate.
  exists a, b, c. split; [reflexivity |].
  destruct (nat_of_str [a; b; c]) as [n |]; [| discriminate].
  apply N.eqb_eq in Hk. f_equal. lia.
Qed.

Lemma clock_fields_sum (v : Z) :
  0 <= v < 86400000000 ->
  ((v / 3600000000 * 60 + v / 60000000 mod 60) * 60 + v / 1000000 mod 60) * 1000
    + v / 1000 mod 1000 = v / 1000.
Proof. intros H. Z.div_mod_to_equations. lia. Qed.

Lemma parse_clock_of_microseconds (v : Z) :
  0 <= v < 86400000000 -> parse_clock (clock_of_microseconds v) = Some (v / 1000).
Proof.
  intros Hv. destruct (clock_field_ranges v Hv) as (Hh & Hm & Hs & Hu).
  destruct (two_digits (v / 3600000000) ltac:(lia)) as (h1 & h2 & Eh & Ph).
  destruct (two_digits (v / 60000000 mod 60) ltac:(lia)) as (m1 & m2 & Em & Pm).
  destruct (two_digits (v / 1000000 mod 60) ltac:(lia)) as (s1 & s2 & Es & Ps).
  destruct (three_digits _ Hu) as (u1 & u2 & u3 & Eu & Pu).
  unfold clock_of_microseconds. rewrite Eh, Em, Es, Eu.
  change (parse_clock ([h1; h2] ++ lit ":" ++ [m1; m2] ++ lit ":" ++ [s1; s2] ++ lit ","
                         ++ [u1; u2; u3]))
    with (match nat_of_str [h1; h2], nat_of_str [m1; m2], nat_of_str [s1; s2],
                nat_of_str [u1; u2; u3] with
          | Some h, Some m, Some sec, Some ms =>
              Some (((Z.of_N h * 60 + Z.of_N m) * 60 + Z.of_N sec) * 1000 + Z.of_N ms)
          | _, _, _, _ => None
          end).
  rewrite Ph, Pm, Ps, Pu. rewrite !Z2N.id by lia.
  f_equal. apply clock_fields_sum, Hv.
Qed.

(** X6: the text determines the time of day to the millisecond: read back, the
    result of [format_time] is the microsecond count of the duration, taken
    modulo one day and divided by 1000. *)
Theorem format_time_reads_back (x : pyobj) :
  in_timedelta_range x = true ->
  exists us out,
    total_microseconds x = Ok us
    /\ format_time x = Ok out
    /\ parse_clock out = Some (us mod us_per_day / 1000).
Proof.
  intros Hx. destruct (in_timedelta_range_inv x Hx) as (us & Hus & Hr).
  exists us, (clock_of_microseconds (us mod us_per_day)).
  split; [exact Hus | split].
  - apply (format_time_clock x us Hus Hr).
  - apply parse_clock_of_microseconds. apply Z.mod_pos_bound. reflexivity.
Qed.

Lemma format_time_reads_back_witness :
  in_timedelta_range (PyFloat (float_lit 102 10)) = true
  /\ exists us out,
       total_microseconds (PyFloat (float_lit 102 10)) = Ok us
       /\ format_time (PyFloat (float_lit 102 10)) = Ok out
       /\ parse_clock out = Some (us mod us_per_day / 1000).
Proof.
  assert (H : in_timedelta_range (PyFloat (float_lit 102 10)) = true)
    by (vm_compute; reflexivity).
  split; [exact H | exact (format_time_reads_back _ H)].
Defined.

(** ** More on the converter *)

(** The block of a chunk whose time stamp list starts with two accepted
    numbers, up to the text. *)
Lemma srt_block_with_stamps (i : Z) (c a b : pyobj) (rest : list pyobj) :
  field c (lit "timestamp") = Some (PyList (a :: b :: rest)) ->
  in_timedelta_range a = true -> in_timedelta_range b = true ->
  srt_block i c
  = (txt <- getitem c (KStr (lit "text")) ;;
     text <- str_strip txt ;;
     Ok (str_of_int i ++ LF ++ formatted a ++ lit " --> " ++ formatted b ++ LF ++ text ++ LF)).
Proof.
  intros Hts Ha Hb. unfold srt_block.
  rewrite (getitem_field _ _ _ Hts). cbn [bind getitem].
  rewrite seq_index_0, seq_index_1. cbn [bind].
  rewrite (format_time_accepted a Ha), (format_time_accepted b Hb). reflexivity.
Qed.

(** The same for a time stamp that is a list or a tuple. *)
Lemma srt_block_with_sequence (i : Z) (c ts a b : pyobj) (rest : list pyobj) :
  field c (lit "timestamp") = Some ts ->
  sequence_items ts = Some (a :: b :: rest) ->
  in_timedelta_range a = true -> in_timedelta_range b = true ->
  srt_block i c
  = (txt <- getitem c (KStr (lit "text")) ;;
     text <- str_strip txt ;;
     Ok (str_of_int i ++ LF ++ formatted a ++ lit " --> " ++ formatted b ++ LF ++ text ++ LF)).
Proof.
  intros Hts Hseq Ha Hb. unfold srt_block.
  rewrite (getitem_field _ _ _ Hts). cbn [bind].
  assert (H0 : getitem ts (KInt 0) = Ok a /\ getitem ts (KInt 1) = Ok b).
  { destruct ts; cbn [sequence_items] in Hseq; try discriminate;
      injection Hseq as ->; cbn [getitem]; rewrite seq_index_0, seq_index_1; auto. }
  destruct H0 as [-> ->]. cbn [bind].
  rewrite (format_time_accepted a Ha), (format_time_accepted b Hb). reflexivity.
Qed.

(** *** Which exception *)

Lemma srt_loop_first_failure
      (good : list pyobj) (bad : pyobj) (rest : list pyobj) (e : pyexc) :
  forall i acc,
    (forall k c, nth_error good k = Some c -> exists b, srt_block (i + Z.of_nat k) c = Ok b) ->
    srt_block (i + Z.of_nat (List.length good)) bad = Raise e ->
    srt_loop (good ++ bad :: rest) i acc = Raise e.
Proof.
  induction good as [| g good IH]; intros i acc Hgood Hbad; cbn [app srt_loop].
  - cbn [List.length Z.of_nat] in Hbad. rewrite Z.add_0_r in Hbad. rewrite Hbad. reflexivity.
  - destruct (Hgood 0%nat g eq_refl) as [b Hb]. cbn [Z.of_nat] in Hb.
    rewrite Z.add_0_r in Hb. rewrite Hb. cbn [bind]. apply IH.
    + intros k c Hk. destruct (Hgood (S k) c Hk) as [b' Hb']. exists b'.
      rewrite <- Hb'. f_equal. lia.
    + rewrite <- Hbad. f_equal. cbn [List.length]. lia.
Qed.

(** X7: the conversion raises the exception of the first chunk whose block
    fails; the chunks after it play no part. *)
Theorem convert_raises_first_failure
        (data cs : pyobj) (good : list pyobj) (bad : pyobj) (rest : list pyobj) (e : pyexc) :
  field data (lit "chunks") = Some cs ->
  py_iter cs = Ok (good ++ bad :: rest) ->
  (forall k c, nth_error good k = Some c -> exists b, srt_block (1 + Z.of_nat k) c = Ok b) ->
  srt_block (1 + Z.of_nat (List.length good)) bad = Raise e ->
  convert_object_to_srt data = Raise e.
Proof.
  intros Hcs Hit Hgood Hbad. unfold convert_object_to_srt, srt_content_of.
  rewrite (getitem_field _ _ _ Hcs). cbn [bind]. rewrite Hit. cbn [bind].
  rewrite (srt_loop_first_failure good bad rest e 1 [] Hgood Hbad). reflexivity.
Qed.

(** X8: a text that is not a string makes the block fail with [AttributeError],
    once both time stamps have been formatted. *)
Theorem text_not_a_string_raises (i : Z) (c a b v : pyobj) (rest : list pyobj) :
  field c (lit "timestamp") = Some (PyList (a :: b :: rest)) ->
  in_timedelta_range a = true -> in_timedelta_range b = true ->
  field c (lit "text") = Some v ->
  (forall s, v <> PyStr s) ->
  srt_block i c = Raise AttributeError.
Proof.
  intros Hts Ha Hb Htxt Hv. rewrite (srt_block_with_stamps i c a b rest Hts Ha Hb).
  rewrite (getitem_field _ _ _ Htxt). cbn [bind].
  destruct v; try reflexivity. exfalso. apply (Hv s). reflexivity.
Qed.

(** X9: an end time stamp that is not a number (a [None], say) makes the block
    fail with [TypeError], whatever the text. *)
Theorem end_not_a_number_raises (i : Z) (c a b : pyobj) (rest : list pyobj) :
  field c (lit "timestamp") = Some (PyList (a :: b :: rest)) ->
  in_timedelta_range a = true ->
  is_number b = false ->
  srt_block i c = Raise TypeError.
Proof.
  intros Hts Ha Hb. unfold srt_block.
  rewrite (getitem_field _ _ _ Hts). cbn [bind getitem].
  rewrite seq_index_0, seq_index_1. cbn [bind].
  rewrite (format_time_accepted a Ha). cbn [bind].
  assert (Hf : format_time b = Raise TypeError) by (destruct b; try discriminate; reflexivity).
  rewrite Hf. reflexivity.
Qed.

(** X10: a time stamp list of fewer than two elements makes the block fail with
    [IndexError]. *)
Theorem short_timestamp_raises (i : Z) (c : pyobj) (l : list pyobj) :
  field c (lit "timestamp") = Some (PyList l) ->
  l = [] \/ (exists a, l = [a] /\ in_timedelta_range a = true) ->
  srt_block i c = Raise IndexError.
Proof.
  intros Hts Hl. unfold srt_block.
  rewrite (getitem_field _ _ _ Hts). cbn [bind getitem].
  destruct Hl as [-> | (a & -> & Ha)].
  - rewrite seq_index_nil. reflexivity.
  - rewrite seq_index_0. cbn [bind]. rewrite (format_time_accepted a Ha). reflexivity.
Qed.

(** *** What the block depends on *)

(** X11: a block is built from the first two elements of the time stamp and from
    the text alone: further elements of the time stamp and other keys of
    the chunk make no difference. *)
Theorem srt_block_reads_two_stamps_and_text
        (i : Z) (c1 c2 a b : pyobj) (r1 r2 : list pyobj) :
  field c1 (lit "timestamp") = Some (PyList (a :: b :: r1)) ->
  field c2 (lit "timestamp") = Some (PyList (a :: b :: r2)) ->
  field c1 (lit "text") = field c2 (lit "text") ->
  srt_block i c1 = srt_block i c2.
Proof.
  intros H1 H2 Ht. unfold srt_block.
  rewrite (getitem_field _ _ _ H1), (getitem_field _ _ _ H2). cbn [bind getitem].
  rewrite !seq_index_0, !seq_index_1. cbn [bind].
  assert (Hg : getitem c1 (KStr (lit "text")) = getitem c2 (KStr (lit "text"))).
  { destruct c1; try discriminate. destruct c2; try discriminate.
    cbn [field] in Ht. cbn [getitem]. rewrite Ht. reflexivity. }
  rewrite Hg. reflexivity.
Qed.

(** *** Composition *)

Lemma srt_loop_app (l1 l2 : list pyobj) :
  forall i acc,
    srt_loop (l1 ++ l2) i acc
    = (acc1 <- srt_loop l1 i acc ;; srt_loop l2 (i + Z.of_nat (List.length l1)) acc1).
Proof.
  induction l1 as [| c l1 IH]; intros i acc; cbn [app srt_loop List.length].
  - cbn [bind Z.of_nat]. rewrite Z.add_0_r. reflexivity.
  - destruct (srt_block i c) as [b | e]; cbn [bind]; [| reflexivity].
    rewrite IH. replace (i + 1 + Z.of_nat (List.length l1))
      with (i + Z.of_nat (S (List.length l1))) by lia. reflexivity.
Qed.

Lemma srt_loop_acc (l : list pyobj) :
  forall i acc, srt_loop l i acc = (bs <- srt_loop l i [] ;; Ok (acc ++ bs)).
Proof.
  induction l as [| c l IH]; intros i acc; cbn [srt_loop].
  - cbn [bind]. rewrite app_nil_r. reflexivity.
  - destruct (srt_block i c) as [b | e]; cbn [bind]; [| reflexivity].
    rewrite (IH (i + 1) (acc ++ [b])), (IH (i + 1) ([] ++ [b])).
    destruct (srt_loop l (i + 1) []) as [bs | e]; cbn [bind]; [| reflexivity].
    rewrite <- app_assoc. reflexivity.
Qed.

(** X12: converting a concatenation of chunk lists: the blocks of the first
    list, followed by the blocks of the second list numbered on from where
    the first list ended. *)
Theorem convert_concatenation (l1 l2 : list pyobj) (b1 b2 : list pystr) :
  srt_loop l1 1 [] = Ok b1 ->
  srt_loop l2 (1 + Z.of_nat (List.length l1)) [] = Ok b2 ->
  convert_object_to_srt (PyDict [(lit "chunks", PyList (l1 ++ l2))]) = Ok (join LF (b1 ++ b2)).
Proof.
  intros H1 H2. unfold convert_object_to_srt, srt_content_of.
  change (getitem (PyDict [(lit "chunks", PyList (l1 ++ l2))]) (KStr (lit "chunks")))
    with (Ok (A := pyobj) (PyList (l1 ++ l2))).
  cbn [bind py_iter]. rewrite srt_loop_app, H1. cbn [bind].
  rewrite srt_loop_acc, H2. reflexivity.
Qed.

(** *** Counting and numbering, on any input *)

Lemma srt_block_starts_with_index (i : Z) (c : pyobj) (b : pystr) :
  srt_block i c = Ok b -> exists rest, b = str_of_int i ++ LF ++ rest.
Proof.
  unfold srt_block. intros H.
  repeat match type of H with
         | bind ?r _ = Ok _ => destruct r; cbn [bind] in H; [| discriminate]
         end.
  injection H as <-. eexists. reflexivity.
Qed.

Lemma srt_loop_blocks (l : list pyobj) :
  forall i bs, 0 <= i -> srt_loop l i [] = Ok bs ->
    List.length bs = List.length l
    /\ forall k b, nth_error bs k = Some b -> block_index b = Some (Z.to_N i + N.of_nat k)%N.
Proof.
  induction l as [| c l IH]; intros i bs Hi H; cbn [srt_loop] in H.
  - injection H as <-. split; [reflexivity |]. intros [| k] b Hk; discriminate.
  - destruct (srt_block i c) as [b0 | e] eqn:Hb; cbn [bind] in H; [| discriminate].
    rewrite srt_loop_acc in H.
    destruct (srt_loop l (i + 1) []) as [bs' | e] eqn:Hl; cbn [bind] in H; [| discriminate].
    injection H as <-. destruct (IH (i + 1) bs' ltac:(lia) Hl) as [Hlen Hidx].
    split; [cbn; rewrite Hlen; reflexivity |].
    intros [| k] b Hk; cbn in Hk.
    + injection Hk as <-. destruct (srt_block_starts_with_index i c b0 Hb) as [rest ->].
      rewrite block_index_of_index by assumption. f_equal. lia.
    + rewrite (Hidx k b Hk). f_equal. lia.
Qed.

(** X13: whenever the conversion goes through, on any input, the loop has built
    one block for each item of [chunks], and the [k]-th block starts with
    the line [k]. *)
Theorem blocks_are_counted_and_numbered (data cs : pyobj) (items : list pyobj)
        (blocks : list pystr) :
  field data (lit "chunks") = Some cs ->
  py_iter cs = Ok items ->
  srt_content_of data = Ok blocks ->
  List.length blocks = List.length items
  /\ forall k b, nth_error blocks k = Some b -> block_index b = Some (N.of_nat (S k)).
Proof.
  intros Hcs Hit H. unfold srt_content_of in H.
  rewrite (getitem_field _ _ _ Hcs) in H. cbn [bind] in H. rewrite Hit in H. cbn [bind] in H.
  destruct (srt_loop_blocks items 1 blocks ltac:(lia) H) as [Hlen Hidx].
  split; [exact Hlen |]. intros k b Hk. rewrite (Hidx k b Hk). f_equal. lia.
Qed.

(** *** When the conversion goes through *)

Lemma getitem_str_ok (c : pyobj) (k : pystr) (v : pyobj) :
  getitem c (KStr k) = Ok v -> field c k = Some v.
Proof.
  destruct c; cbn [getitem field]; try discriminate.
  destruct (dict_get d k); [| discriminate]. intros H. injection H as ->. reflexivity.
Qed.

Lemma format_time_ok_in_range (x : pyobj) (s : pystr) :
  format_time x = Ok s -> in_timedelta_range x = true.
Proof.
  intros H. destruct (in_timedelta_range x) eqn:Hr; [reflexivity |].
  rewrite (format_time_rejected x Hr) in H. discriminate.
Qed.

Lemma seq_index_ok_0 {A} (l : list A) (a : A) :
  seq_index l 0 = Ok a -> exists l', l = a :: l'.
Proof.
  destruct l as [| x l']; [rewrite seq_index_nil; discriminate |].
  rewrite seq_index_0. intros H. injection H as ->. eauto.
Qed.

Lemma seq_index_ok_1 {A} (x : A) (l : list A) (b : A) :
  seq_index (x :: l) 1 = Ok b -> exists r, l = b :: r.
Proof.
  destruct l as [| y r]; [discriminate |].
  rewrite seq_index_1. intros H. injection H as ->. eauto.
Qed.

Lemma srt_block_ok_iff (i : Z) (c : pyobj) :
  (exists b, srt_block i c = Ok b) <-> accepted_chunk c.
Proof.
  split.
  - intros [blk H]. unfold srt_block in H.
    destruct (getitem c (KStr (lit "timestamp"))) as [ts |] eqn:Hts; cbn [bind] in H;
      [| discriminate].
    apply getitem_str_ok in Hts.
    destruct (getitem ts (KInt 0)) as [t0 |] eqn:H0; cbn [bind] in H; [| discriminate].
    destruct (format_time t0) as [s0 |] eqn:Hf0; cbn [bind] in H; [| discriminate].
    destruct (getitem ts (KInt 1)) as [t1 |] eqn:H1; cbn [bind] in H; [| discriminate].
    destruct (format_time t1) as [s1 |] eqn:Hf1; cbn [bind] in H; [| discriminate].
    destruct (getitem c (KStr (lit "text"))) as [txt |] eqn:Htxt; cbn [bind] in H;
      [| discriminate].
    apply getitem_str_ok in Htxt.
    destruct txt as [| | | | s | | |]; try discriminate.
    apply format_time_ok_in_range in Hf0. apply format_time_ok_in_range in Hf1.
    destruct ts as [| | | | str | l | | l]; try discriminate.
    + (* a string as time stamp: its characters are not numbers *)
      cbn [getitem] in H0. destruct (seq_index str 0); cbn [bind] in H0; [| discriminate].
      injection H0 as <-. discriminate.
    + (* a list *)
      cbn [getitem] in H0, H1.
      destruct (seq_index_ok_0 l t0 H0) as [l' ->].
      destruct (seq_index_ok_1 t0 l' t1 H1) as [r ->].
      exists (PyList (t0 :: t1 :: r)), t0, t1, r, s. auto.
    + (* a tuple *)
      cbn [getitem] in H0, H1.
      destruct (seq_index_ok_0 l t0 H0) as [l' ->].
      destruct (seq_index_ok_1 t0 l' t1 H1) as [r ->].
      exists (PyTuple (t0 :: t1 :: r)), t0, t1, r, s. auto.
  - intros (ts & a & b & rest & s & Hts & Hseq & Ha & Hb & Htxt).
    rewrite (srt_block_with_sequence i c ts a b rest Hts Hseq Ha Hb).
    rewrite (getitem_field _ _ _ Htxt). cbn. eauto.
Qed.

Lemma srt_loop_ok_iff (l : list pyobj) :
  forall i acc, (exists bs, srt_loop l i acc = Ok bs) <-> Forall accepted_chunk l.
Proof.
  induction l as [| c l IH]; intros i acc; cbn [srt_loop].
  - split; [constructor | eauto].
  - split.
    + intros [bs H]. destruct (srt_block i c) as [b |] eqn:Hb; cbn [bind] in H; [| discriminate].
      constructor.
      * apply (srt_block_ok_iff i c). eauto.
      * apply (IH (i + 1) (acc ++ [b])). eauto.
    + intros HF. inversion HF as [| c' l' Hc Hl]; subst.
      apply (srt_block_ok_iff i c) in Hc. destruct Hc as [b Hb]. rewrite Hb. cbn [bind].
      apply IH, Hl.
Qed.

Lemma convert_ok_iff (data : pyobj) :
  (exists out, convert_object_to_srt data = Ok out)
  <-> exists cs items,
        field data (lit "chunks") = Some cs /\ py_iter cs = Ok items
        /\ Forall accepted_chunk items.
Proof.
  unfold convert_object_to_srt, srt_content_of. split.
  - intros [out H].
    destruct (getitem data (KStr (lit "chunks"))) as [cs |] eqn:Hcs; cbn [bind] in H;
      [| discriminate].
    destruct (py_iter cs) as [items |] eqn:Hit; cbn [bind] in H; [| discriminate].
    destruct (srt_loop items 1 []) as [bs |] eqn:Hl; cbn [bind] in H; [| discriminate].
    exists cs, items. split; [apply getitem_str_ok, Hcs | split; [exact Hit |]].
    apply (srt_loop_ok_iff items 1 []). eauto.
  - intros (cs & items & Hcs & Hit & HF).
    rewrite (getitem_field _ _ _ Hcs). cbn [bind]. rewrite Hit. cbn [bind].
    apply (srt_loop_ok_iff items 1 []) in HF. destruct HF as [bs Hbs].
    rewrite Hbs. cbn [bind]. eauto.
Qed.

(** X14: among the values of the model ([None], [bool], [int], [float],
    [str], [list], [tuple] and [dict] with [str] keys), the conversion
    returns a text exactly when [chunks] is there, can be iterated, and
    every item is a dictionary whose [timestamp] is a list or a tuple
    starting with two numbers that [timedelta] accepts and whose [text] is
    a string. *)
Theorem convert_succeeds_iff (data : pyobj) :
  (exists out, convert_object_to_srt data = Ok out)
  <-> exists cs items,
        field data (lit "chunks") = Some cs /\ py_iter cs = Ok items
        /\ Forall accepted_chunk items.
Proof. exact (convert_ok_iff data). Qed.

Lemma convert_succeeds_iff_witness :
  (exists cs items,
     field tuple_stamps (lit "chunks") = Some cs /\ py_iter cs = Ok items
     /\ Forall accepted_chunk items)
  /\ exists out, convert_object_to_srt tuple_stamps = Ok out.
Proof.
  assert (H : exists cs items,
             field tuple_stamps (lit "chunks") = Some cs /\ py_iter cs = Ok items
             /\ Forall accepted_chunk items).
  { eexists _, _. split; [reflexivity | split; [reflexivity |]].
    repeat constructor.
    eexists _, _, _, _, _.
    split; [reflexivity | split; [reflexivity |]].
    split; [vm_compute; reflexivity | split; [vm_compute; reflexivity | reflexivity]]. }
  split; [exact H | exact (proj2 (convert_succeeds_iff tuple_stamps) H)].
Defined.

(** *** Missing or ill-shaped [chunks] *)

(** X15: without [chunks] the conversion raises [KeyError] with the key
    [chunks] on a dictionary, and [TypeError] on anything else. *)
Theorem missing_chunks_raises (data : pyobj) :
  field data (lit "chunks") = None ->
  convert_object_to_srt data
  = Raise (match data with
           | PyDict _ => KeyError (lit "chunks")
           | _ => TypeError
           end).
Proof.
  intros H. unfold convert_object_to_srt, srt_content_of.
  destruct data; cbn [field] in H; cbn [getitem bind]; try reflexivity.
  rewrite H. reflexivity.
Qed.

(** X16: among the values of the model, when [chunks] is neither a list
    nor a tuple, the conversion returns the empty text for an empty string
    or dictionary, and raises [TypeError] otherwise: a non-empty string or
    dictionary is iterated, and its items are strings. *)
Theorem chunks_neither_list_nor_tuple (data cs : pyobj) :
  field data (lit "chunks") = Some cs ->
  sequence_items cs = None ->
  convert_object_to_srt data
  = match cs with
    | PyStr [] | PyDict [] => Ok []
    | _ => Raise TypeError
    end.
Proof.
  intros Hcs Hl. unfold convert_object_to_srt, srt_content_of.
  rewrite (getitem_field _ _ _ Hcs). cbn [bind].
  destruct cs as [| | | | s | l | d | l]; try reflexivity; try discriminate.
  - destruct s; reflexivity.
  - destruct d as [| [k v] d]; reflexivity.
Qed.

(** *** Text of white space only *)

Lemma lstrip_all_space (t : pystr) : forallb isspace t = true -> lstrip t = [].
Proof.
  induction t as [| c t IH]; [reflexivity |]. cbn [forallb lstrip].
  intros H. apply andb_true_iff in H. destruct H as [Hc Ht]. rewrite Hc. apply IH, Ht.
Qed.

Lemma strip_all_space (t : pystr) : forallb isspace t = true -> strip t = [].
Proof. intros H. unfold strip. rewrite (lstrip_all_space t H). reflexivity. Qed.

(** X17: a chunk whose text is white space only (or empty) gives a block with
    an empty text line: after the time range the block ends with two line
    feeds. *)
Theorem blank_text_gives_empty_line
        (i : Z) (c a b : pyobj) (rest : list pyobj) (t : pystr) :
  field c (lit "timestamp") = Some (PyList (a :: b :: rest)) ->
  in_timedelta_range a = true -> in_timedelta_range b = true ->
  field c (lit "text") = Some (PyStr t) ->
  forallb isspace t = true ->
  srt_block i c
  = Ok (str_of_int i ++ LF ++ formatted a ++ lit " --> " ++ formatted b ++ LF ++ LF).
Proof.
  intros Hts Ha Hb Htxt Ht. rewrite (srt_block_with_stamps i c a b rest Hts Ha Hb).
  rewrite (getitem_field _ _ _ Htxt). cbn [bind str_strip].
  rewrite (strip_all_space t Ht). reflexivity.
Qed.

(** *** Instances *)

Lemma convert_raises_first_failure_witness :
  convert_object_to_srt second_chunk_fails = Raise (KeyError (lit "text")).
Proof.
  apply (convert_raises_first_failure second_chunk_fails
           (PyList [good_chunk; chunk_without_text; PyNone])
           [good_chunk] chunk_without_text [PyNone]).
  - reflexivity.
  - reflexivity.
  - intros [| k] c Hk; [| destruct k; discriminate].
    injection Hk as <-. eexists. vm_compute. reflexivity.
  - vm_compute. reflexivity.
Defined.

Lemma text_not_a_string_raises_witness :
  srt_block 1 (mk_chunk [PyInt 0; PyInt 1] (PyInt 5)) = Raise AttributeError.
Proof.
  apply (text_not_a_string_raises 1 (mk_chunk [PyInt 0; PyInt 1] (PyInt 5))
           (PyInt 0) (PyInt 1) (PyInt 5) []).
  - reflexivity.
  - vm_compute. reflexivity.
  - vm_compute. reflexivity.
  - reflexivity.
  - intros s H. discriminate H.
Defined.

Lemma end_not_a_number_raises_witness :
  srt_block 3 (mk_chunk [PyFloat (float_lit 15 10); PyNone] (PyStr (lit "the end")))
  = Raise TypeError.
Proof.
  apply (end_not_a_number_raises 3
           (mk_chunk [PyFloat (float_lit 15 10); PyNone] (PyStr (lit "the end")))
           (PyFloat (float_lit 15 10)) PyNone []).
  - reflexivity.
  - vm_compute. reflexivity.
  - reflexivity.
Defined.

Lemma short_timestamp_raises_witness :
  srt_block 1 (mk_chunk [PyInt 0] (PyStr (lit "a"))) = Raise IndexError.
Proof.
  apply (short_timestamp_raises 1 (mk_chunk [PyInt 0] (PyStr (lit "a"))) [PyInt 0]).
  - reflexivity.
  - right. exists (PyInt 0). split; [reflexivity | vm_compute; reflexivity].
Defined.

Lemma srt_block_reads_two_stamps_and_text_witness :
  srt_block 1 (PyDict [(lit "speaker", PyStr (lit "SPEAKER_00"));
                       (lit "timestamp", PyList [PyInt 0; PyInt 1; PyInt 7]);
                       (lit "text", PyStr (lit "a"))])
  = srt_block 1 good_chunk.
Proof.
  apply (srt_block_reads_two_stamps_and_text 1
           (PyDict [(lit "speaker", PyStr (lit "SPEAKER_00"));
                    (lit "timestamp", PyList [PyInt 0; PyInt 1; PyInt 7]);
                    (lit "text", PyStr (lit "a"))])
           good_chunk (PyInt 0) (PyInt 1) [PyInt 7] []);
    reflexivity.
Defined.

Lemma convert_concatenation_witness :
  convert_object_to_srt
    (PyDict [(lit "chunks",
              PyList ([mk_chunk [PyInt 0; PyInt 1] (PyStr (lit "a"))]
                        ++ [mk_chunk [PyInt 1; PyInt 2] (PyStr (lit "b"))]))])
  = Ok (join LF ([lit "1" ++ LF ++ lit "00:00:00,000 --> 00:00:01,000" ++ LF ++ lit "a" ++ LF]
                   ++ [lit "2" ++ LF ++ lit "00:00:01,000 --> 00:00:02,000" ++ LF ++ lit "b"
                         ++ LF])).
Proof.
  apply convert_concatenation; vm_compute; reflexivity.
Defined.

Lemma blocks_are_counted_and_numbered_witness :
  exists blocks,
    srt_content_of example_transcript = Ok blocks
    /\ List.length blocks = 2%nat
    /\ forall k b, nth_error blocks k = Some b -> block_index b = Some (N.of_nat (S k)).
Proof.
  destruct (srt_content_of example_transcript) as [blocks | e] eqn:H;
    [| vm_compute in H; discriminate H].
  exists blocks. split; [reflexivity |].
  refine (blocks_are_counted_and_numbered example_transcript _ _ blocks eq_refl eq_refl H).
Defined.

Lemma missing_chunks_raises_witness :
  convert_object_to_srt (PyDict [(lit "speakers", PyList [])])
  = Raise (KeyError (lit "chunks")).
Proof.
  exact (missing_chunks_raises (PyDict [(lit "speakers", PyList [])]) eq_refl).
Defined.

Lemma chunks_neither_list_nor_tuple_witness :
  convert_object_to_srt (PyDict [(lit "chunks", PyStr (lit "abc"))]) = Raise TypeError.
Proof.
  apply (chunks_neither_list_nor_tuple (PyDict [(lit "chunks", PyStr (lit "abc"))])
           (PyStr (lit "abc"))); reflexivity.
Defined.

Lemma blank_text_gives_empty_line_witness :
  srt_block 1 (mk_chunk [PyInt 0; PyInt 1] (PyStr (lit "   ")))
  = Ok (str_of_int 1 ++ LF ++ formatted (PyInt 0) ++ lit " --> " ++ formatted (PyInt 1)
          ++ LF ++ LF).
Proof.
  apply (blank_text_gives_empty_line 1 (mk_chunk [PyInt 0; PyInt 1] (PyStr (lit "   ")))
           (PyInt 0) (PyInt 1) [] (lit "   "));
    try reflexivity; vm_compute; reflexivity.
Defined.

(** ** More on [process_object] *)

Lemma error_message_is_not_saved (text : pystr) : error_message text <> saved_message.
Proof. unfold error_message, saved_message. cbn. intros H. discriminate H. Qed.

Lemma not_own_extension {A} (l : list A) (x : A) : l <> l ++ [x].
Proof.
  intros H. apply (f_equal (@List.length A)) in H. rewrite length_app in H. cbn in H. lia.
Qed.

(** X18: whatever the file system and the console do, if the output of
    [process_object] is the success line, then [process_object] returned
    normally, the conversion returned a text, and the file was opened,
    written with this text and closed without failure. *)
Theorem saved_line_means_converted :
  forall (FS : Type)
         (os_open : pystr -> FS -> result unit * FS)
         (os_write : pystr -> pystr -> FS -> result unit * FS)
         (os_close : pystr -> FS -> result unit * FS)
         (print_error : pystr -> list pystr -> option pyexc)
         (exc_str : pyexc -> pystr)
         (data : pyobj) (path : pystr) (w w' : world FS) (r : result unit),
    process_object FS os_open os_write os_close print_error exc_str data path w = (r, w') ->
    stdout w' = stdout w ++ [saved_message] ->
    r = Ok tt
    /\ exists out f1 f2,
         convert_object_to_srt data = Ok out
         /\ os_open path (fs w) = (Ok tt, f1)
         /\ os_write path out f1 = (Ok tt, f2)
         /\ os_close path f2 = (Ok tt, fs w').
Proof.
  intros FS os_open os_write os_close print_error exc_str data path w w' r Hrun Hout.
  (* the handler never leaves the success line behind *)
  assert (Hreport : forall e f,
             print FS print_error (error_message (exc_str e)) {| fs := f; stdout := stdout w |}
             = (r, w') -> False).
  { intros e f H. unfold print in H. cbn [fs stdout] in H.
    destruct (print_error (error_message (exc_str e)) (stdout w));
      injection H as _ <-; cbn [stdout] in Hout.
    - exact (not_own_extension _ _ Hout).
    - apply app_inv_head in Hout.
      apply (error_message_is_not_saved (exc_str e)). congruence. }
  assert (Hw : w = {| fs := fs w; stdout := stdout w |}) by (destruct w; reflexivity).
  destruct (convert_object_to_srt data) as [out | e] eqn:Hc.
  - destruct (with_open_write FS os_open os_write os_close path out (fs w))
      as [[[] | e] f'] eqn:Hio.
    + rewrite (process_object_written FS os_open os_write os_close print_error exc_str
                 data path out w f' Hc Hio) in Hrun.
      destruct (print_error saved_message (stdout w)) as [e |].
      * exfalso. exact (Hreport e f' Hrun).
      * injection Hrun as <- <-. split; [reflexivity |].
        destruct (with_open_write_ok FS os_open os_write os_close path out (fs w) f' Hio)
          as (f1 & f2 & Ho & Hwr & Hcl).
        exists out, f1, f2. auto.
    + exfalso.
      rewrite (process_object_io_error FS os_open os_write os_close print_error exc_str
                 data path out w e f' Hc Hio) in Hrun.
      exact (Hreport e f' Hrun).
  - exfalso.
    rewrite (process_object_conversion_error FS os_open os_write os_close print_error exc_str
               data path w e Hc) in Hrun.
    rewrite Hw in Hrun. exact (Hreport e (fs w) Hrun).
Qed.

Lemma saved_line_means_converted_witness :
  exists out f1 f2,
    convert_object_to_srt example_transcript = Ok out
    /\ MemFS.os_open (lit "output.srt") MemFS.empty = (Ok tt, f1)
    /\ MemFS.os_write (lit "output.srt") out f1 = (Ok tt, f2)
    /\ MemFS.os_close (lit "output.srt") f2
       = (Ok tt, fs (snd (MemFS.run example_transcript (lit "output.srt") initial_world))).
Proof.
  refine (proj2 (saved_line_means_converted MemFS.t MemFS.os_open MemFS.os_write MemFS.os_close
                   MemFS.print_error MemFS.exc_str example_transcript (lit "output.srt")
                   initial_world
                   (snd (MemFS.run example_transcript (lit "output.srt") initial_world))
                   (fst (MemFS.run example_transcript (lit "output.srt") initial_world))
                   _ _)).
  - apply surjective_pairing.
  - vm_compute. reflexivity.
Defined.
